(** * edge-link: the device configuration orchestrator, embedded in Rocq

    A shallow embedding of the parts of the repository that carry the
    orchestration logic:

    - [src/utils/tellyoUtils.js]  ([extractPort], [getSrtUrl],
      [buildTellyoChannelPayload]);
    - [src/components/Detail.jsx] ([handleConfigure], [handleRestart],
      [confirmOutputsState], [toggleOut], [doCmd] and the downstream
      delete/toggle handlers);
    - [src/api/videonApi.js]      ([cloudportFetchByLabel],
      [cloudportUpdate]).

    JavaScript values that the code only tests for truthiness or compares
    with [===] are modelled by the scalar type [jsval]; objects with a known
    shape are records whose optional fields are [option]s; asynchronous
    handlers are written in a state-and-exception monad over the browser
    state, the outside world and a log of the effects issued. *)

From Stdlib Require Import ZArith List String Ascii Bool Lia DecimalString.
From stdpp Require Import gmap strings.

Local Open Scope string_scope.
Local Open Scope Z_scope.

(** ** JavaScript scalars *)

Module Js.

Inductive jsval :=
| JUndef
| JNull
| JBool (b : bool)
| JNum (n : Z)
| JStr (s : string).

#[export] Instance jsval_eq_dec : EqDecision jsval.
Proof. solve_decision. Defined.

Definition jsval_to_sum (v : jsval) : unit + (unit + (bool + (Z + string))) :=
  match v with
  | JUndef => inl tt
  | JNull => inr (inl tt)
  | JBool b => inr (inr (inl b))
  | JNum n => inr (inr (inr (inl n)))
  | JStr s => inr (inr (inr (inr s)))
  end.

Definition jsval_of_sum (x : unit + (unit + (bool + (Z + string)))) : jsval :=
  match x with
  | inl _ => JUndef
  | inr (inl _) => JNull
  | inr (inr (inl b)) => JBool b
  | inr (inr (inr (inl n))) => JNum n
  | inr (inr (inr (inr s))) => JStr s
  end.

#[export] Instance jsval_countable : Countable jsval.
Proof.
  apply (inj_countable' jsval_to_sum jsval_of_sum).
  intros []; reflexivity.
Defined.

(** [!!v] *)
Definition truthy (v : jsval) : bool :=
  match v with
  | JUndef | JNull => false
  | JBool b => b
  | JNum n => negb (n =? 0)
  | JStr s => negb (String.eqb s "")
  end.

(** [a === b] *)
Definition seq (a b : jsval) : bool := bool_decide (a = b).

(** [a || b] *)
Definition jor (a b : jsval) : jsval := if truthy a then a else b.

(** A string-valued property that may be missing: [s || d]. *)
Definition strOr (s : option string) (d : string) : string :=
  match s with
  | Some x => if String.eqb x "" then d else x
  | None => d
  end.

Definition strTruthy (s : option string) : bool :=
  match s with Some x => negb (String.eqb x "") | None => false end.

(** A numeric property that may be missing: [n || d]. *)
Definition numOr (n : option Z) (d : Z) : Z :=
  match n with
  | Some x => if x =? 0 then d else x
  | None => d
  end.

Definition numTruthy (n : option Z) : bool :=
  match n with Some x => negb (x =? 0) | None => false end.

(** [String(n)] for an integer. *)
Definition showZ (n : Z) : string := NilZero.string_of_int (Z.to_int n).

(** Thrown values: every [throw] of the modelled code is [new Error(msg)];
    a property access on a value of the wrong shape is a [TypeError]. *)
Inductive Exc (A : Type) :=
| Ok (a : A)
| Throw (msg : string).
Arguments Ok {A} a.
Arguments Throw {A} msg.

End Js.
Import Js.

(** ** [src/utils/tellyoUtils.js] *)

Module TellyoUtils.

Definition TELLYO_DEFAULT_CHUNK : Z := 0.
Definition PORT_MIN : Z := 10006.
Definition PORT_MAX : Z := 10100.

Definition isDigit (c : ascii) : bool :=
  let n := nat_of_ascii c in (48 <=? n)%nat && (n <=? 57)%nat.

Definition digitVal (c : ascii) : Z := Z.of_nat (nat_of_ascii c) - 48.

(** The longest run of decimal digits at the head of [s], read in base 10 with
    accumulator [acc]; the count of digits read; and what follows the run.
    The run is read as an exact integer ([parseInt] rounds beyond 2^53). *)
Fixpoint readDigits (s : string) (acc : Z) (k : nat) : Z * nat * string :=
  match s with
  | String c rest =>
      if isDigit c then readDigits rest (10 * acc + digitVal c) (S k)
      else (acc, k, s)
  | EmptyString => (acc, k, s)
  end.

(** One attempt of the pattern [(\d+)(?:$|[/?])] right after a colon.  [\d+]
    is greedy and what must follow it is not a digit, so only the longest
    run can match. *)
Definition matchAfterColon (rest : string) : option Z :=
  match readDigits rest 0 0 with
  | (_, O, _) => None
  | (n, S _, EmptyString) => Some n
  | (n, S _, String c _) =>
      if Ascii.eqb c "/" || Ascii.eqb c "?" then Some n else None
  end.

(** [url.match(/:(\d+)(?:$|[/?])/)]: the leftmost colon at which the pattern
    matches. *)
Fixpoint scanPort (s : string) : option Z :=
  match s with
  | EmptyString => None
  | String c rest =>
      if Ascii.eqb c ":" then
        match matchAfterColon rest with
        | Some p => Some p
        | None => scanPort rest
        end
      else scanPort rest
  end.

(** [extractPort(url)]; [None] is the source's [null].  A [streamUrl] that is
    not a string is [None] here. *)
Definition extractPort (url : option string) : option Z :=
  match url with
  | None => None
  | Some u => if String.eqb u "" then None else scanPort u
  end.

(** A channel as the Tellyo listing returns it. *)
Record Channel := mkChannel {
  ch_id : jsval;
  ch_name : option string;
  ch_streamUrl : option string
}.

Definition srtUrl (ip : string) (port : Z) : string :=
  "srt://" +:+ ip +:+ ":" +:+ showZ port.

(** [Math.max(...ps)] of a non-empty list, [d] standing for the empty case
    (never used: the caller tests the length first). *)
Definition maxPort (ps : list Z) (d : Z) : Z :=
  match ps with
  | [] => d
  | p :: tl => fold_left Z.max tl p
  end.

Definition usedPorts (existingChannels : list Channel) : list Z :=
  List.filter (fun p => (PORT_MIN <=? p) && (p <? PORT_MAX))
    (omap (fun c => extractPort (ch_streamUrl c)) existingChannels).

Definition nextPort (existingChannels : list Channel) : Z :=
  match usedPorts existingChannels with
  | [] => PORT_MIN
  | ps => maxPort ps PORT_MIN + 1
  end.

(** The port kept for an edit: the one of the channel whose id is
    [currentChannelId], when that channel has a stream URL with a truthy
    port. *)
Definition reusedPort (existingChannels : list Channel) (currentChannelId : jsval)
  : option Z :=
  if truthy currentChannelId then
    match List.find (fun c => seq (ch_id c) currentChannelId) existingChannels with
    | Some currentChannel =>
        if strTruthy (ch_streamUrl currentChannel) then
          match extractPort (ch_streamUrl currentChannel) with
          | Some existingPort => if existingPort =? 0 then None else Some existingPort
          | None => None
          end
        else None
    | None => None
    end
  else None.

Definition getSrtUrl (videonIp : option string) (existingChannels : list Channel)
    (currentChannelId : jsval) : string :=
  match videonIp with
  | None => ""
  | Some ip =>
      if String.eqb ip "" then ""
      else
        match reusedPort existingChannels currentChannelId with
        | Some existingPort => srtUrl ip existingPort
        | None =>
            let nextPort := nextPort existingChannels in
            if PORT_MAX <? nextPort then srtUrl ip PORT_MIN
            else srtUrl ip nextPort
        end
  end.

(** The configuration record the channel payload is built from
    ([defaultTellyoConfig] in [src/utils/constants.js] lists its fields). *)
Record TellyoConfig := mkTellyoConfig {
  tc_channelName : option string;
  tc_profile : option string;
  tc_chunkLength : jsval;
  tc_startDataCollection : bool;
  tc_twentyFourStartTime : jsval;
  tc_streamUrl : option string
}.

Record ChannelPayload := mkChannelPayload {
  pl_name : option string;
  pl_profile : option string;
  pl_chunkLength : Z;
  pl_streamUrl : string;
  pl_startDataCollectionWithRecording : bool;
  pl_twentyFourStartTime : option Z
}.

Definition isSpace (c : ascii) : bool :=
  let n := nat_of_ascii c in
  (n =? 32)%nat || ((9 <=? n)%nat && (n <=? 13)%nat).

Fixpoint skipSpaces (s : string) : string :=
  match s with
  | String c rest => if isSpace c then skipSpaces rest else s
  | EmptyString => s
  end.

(** [s.trim() === ''] *)
Definition isBlank (s : string) : bool := String.eqb (skipSpaces s) "".

(** An optionally signed run of digits at the head of [s], and what follows it. *)
Definition readSigned (s : string) : option (Z * string) :=
  let unsigned (t : string) (sign : Z) :=
    match readDigits t 0 0 with
    | (_, O, _) => None
    | (n, S _, rest) => Some (sign * n, rest)
    end in
  match s with
  | String "-" t => unsigned t (-1)
  | String "+" t => unsigned t 1
  | _ => unsigned s 1
  end.

(** [parseInt(v, 10)]; [None] is [NaN]. *)
Definition parseInt10 (v : jsval) : option Z :=
  match v with
  | JNum n => Some n
  | JStr s => fst <$> readSigned (skipSpaces s)
  | _ => None
  end.

(** [Number(v)] on the values the form can hold, integers only; [None] is
    [NaN]. *)
Definition toNumber (v : jsval) : option Z :=
  match v with
  | JUndef => None
  | JNull => Some 0
  | JBool b => Some (if b then 1 else 0)
  | JNum n => Some n
  | JStr s =>
      if isBlank s then Some 0
      else
        match readSigned (skipSpaces s) with
        | Some (n, rest) => if isBlank rest then Some n else None
        | None => None
        end
  end.

(** [buildTellyoChannelPayload(profile, config, videonIp, existingChannels,
    channelId)].  [now] is [Math.floor(Date.now() / 1000)].  The function
    never reads [profile]. *)
Definition buildTellyoChannelPayload {P : Type} (now : Z) (profile : P)
    (config : TellyoConfig) (videonIp : option string)
    (existingChannels : list Channel) (channelId : jsval) : Exc ChannelPayload :=
  let chunkLength :=
    if seq (tc_chunkLength config) (JStr "") then TELLYO_DEFAULT_CHUNK
    else numOr (parseInt10 (tc_chunkLength config)) TELLYO_DEFAULT_CHUNK in
  if negb (strTruthy (tc_profile config)) then
    Throw "Tellyo Profile Name is required. Please set it in the Inputs profile."
  else
    let finalStreamUrl :=
      match tc_streamUrl config with
      | Some u =>
          if String.eqb u "" || isBlank u
          then getSrtUrl videonIp existingChannels channelId
          else u
      | None => getSrtUrl videonIp existingChannels channelId
      end in
    let startDataCollectionWithRecording := tc_startDataCollection config in
    let ts := toNumber (tc_twentyFourStartTime config) in
    let isValidTs := match ts with Some t => 0 <? t | None => false end in
    Ok {| pl_name := tc_channelName config;
          pl_profile := tc_profile config;
          pl_chunkLength := chunkLength;
          pl_streamUrl := finalStreamUrl;
          pl_startDataCollectionWithRecording := startDataCollectionWithRecording;
          pl_twentyFourStartTime :=
            if startDataCollectionWithRecording then
              Some (if isValidTs then default 0 ts else now)
            else if isValidTs then ts else None |}.

End TellyoUtils.

Import TellyoUtils.

(** ** [src/utils/helpers.js] *)

Module Helpers.

Definition toLowerAscii (c : ascii) : ascii :=
  let n := nat_of_ascii c in
  if (65 <=? n)%nat && (n <=? 90)%nat then ascii_of_nat (n + 32) else c.

Fixpoint toLowerCase (s : string) : string :=
  match s with
  | String c rest => String (toLowerAscii c) (toLowerCase rest)
  | EmptyString => EmptyString
  end.

Definition revString (s : string) : string :=
  string_of_list_ascii (List.rev (list_ascii_of_string s)).

(** [s.trim()] *)
Definition trim (s : string) : string :=
  revString (skipSpaces (revString (skipSpaces s))).

(** A character of the class [[A-Za-z0-9_\-]]. *)
Definition isLabelChar (c : ascii) : bool :=
  let n := nat_of_ascii c in
  ((65 <=? n)%nat && (n <=? 90)%nat) || ((97 <=? n)%nat && (n <=? 122)%nat)
  || isDigit c || Ascii.eqb c "_" || Ascii.eqb c "-".

Fixpoint replaceNonLabel (s : string) : string :=
  match s with
  | String c rest =>
      String (if isLabelChar c then c else "_"%char) (replaceNonLabel rest)
  | EmptyString => EmptyString
  end.

(** [sanitizeLabel(label, fallback)] *)
Definition sanitizeLabel (label : option string) (fallback : string) : string :=
  let base := trim (strOr label (strOr (Some fallback) "lec_ingest")) in
  toLowerCase (replaceNonLabel base).

End Helpers.
Import Helpers.

(** ** The data of the detail view *)

Module Model.

(** *** Profiles *)

Record VideoEnc := mkVideoEnc {
  v_codec : option string;
  v_bitrate_kbps : option Z;
  v_mode : option string;
  v_width : option Z;
  v_height : option Z;
  v_keyint : option Z;
  v_keyunit : option string;
  v_qa : option string;
  v_klv : bool;
  v_captions : bool;
  v_fps : option Z
}.

Record AudioEnc := mkAudioEnc {
  a_codec : option string;
  a_bitrate_kbps : option Z;
  a_sample_rate : option Z;
  a_channels : jsval
}.

Record EncoderSettings := mkEncoderSettings {
  enc_video : option VideoEnc;
  enc_audio : option AudioEnc
}.

(** One output intent of a profile.  [_tempPort] is the field the
    orchestrator adds to its working copy. *)
Record Output := mkOutput {
  target : string;
  name : option string;
  videonId : jsval;
  _tempPort : option Z
}.

Record TellyoCfg := mkTellyoCfg {
  t_config : TellyoConfig;
  t_lastChannelId : jsval;
  t_lastStreamUrl : option string
}.

Record CloudportCfg := mkCloudportCfg {
  c_ingestLabel : option string;
  c_computeProfile : option string;
  c_streamUrl : option string;
  c_protocol : option string;
  c_streamMode : option string;
  c_headStart : option string;
  c_elicDelay : option string;
  c_enableStreamParsing : bool;
  c_record : bool;
  c_alwaysOn : bool;
  c_includeLowRes : bool;
  c_includeData : bool;
  c_dataCodec : option string;
  c_lastIngestId : jsval;
  c_lastStreamUrl : option string
}.

Record Profile := mkProfile {
  p_id : jsval;
  p_name : option string;
  p_encoder : option EncoderSettings;
  p_outputs : list Output;
  p_tellyo : option TellyoCfg;
  p_cloudport : option CloudportCfg
}.

(** *** Device shadows *)

Record VideoCfg := mkVideoCfg {
  vc_active : bool;
  vc_in_channel_id : jsval;
  vc_selected_codec : string;
  vc_bitrate : Z;
  vc_bitrate_mode : string;
  vc_scaling_resolution : string;
  vc_keyframe_interval : Z;
  vc_keyframe_unit : string;
  vc_latency_mode : string;
  vc_limit_to_30_fps : bool;
  vc_klv_timestamp_enabled : bool;
  vc_cc_processing_enabled : bool;
  vc_allow_outputs_to_adjust_bitrate : bool;
  vc_h264_profile : string;
  vc_h265_profile : string
}.

Record AudioCfg := mkAudioCfg {
  ac_active : bool;
  ac_in_channel_id : jsval;
  ac_codec : string;
  ac_bitrate : Z;
  ac_sample : string;
  ac_mix_mode : string;
  ac_bitrate_mode : string;
  ac_selected_channels : list Z
}.

Record SrtCfg := mkSrtCfg {
  sc_destination_ip : string;
  sc_latency : Z;
  sc_passphrase : string;
  sc_bw_overhead : Z;
  sc_key_size : string;
  sc_sources_audio : list jsval;
  sc_sources_video : list jsval;
  sc_stream_id : string;
  sc_call_mode : string;
  sc_encryption_enabled : bool
}.

(** The fields of an entry's [config] that the client writes but never reads
    back; [BodyReported] stands for whatever else the device reports. *)
Inductive ConfigBody :=
| BodyReported
| BodyVideo (vc : VideoCfg)
| BodyAudio (ac : AudioCfg)
| BodySrt (sc : SrtCfg).

Record EntryConfig := mkEntryConfig {
  ec_name : option string;
  ec_type : option string;
  ec_enable : option bool;
  ec_destination_port : option Z;
  ec_body : ConfigBody
}.

(** [output_type: { value, srt: { dest_port } }] *)
Record OutputType := mkOutputType {
  ot_value : option string;
  ot_srt_dest_port : option Z
}.

(** An entry of a shadow's reported state (an encoder, an output, an
    input). *)
Record Entry := mkEntry {
  e_id : jsval;
  e_out_stream_id : jsval;
  e_output_id : jsval;
  e_type : option string;
  e_name : option string;
  e_config : option EntryConfig;
  e_output_type : option OutputType
}.

(** [reported.state]: an array of entries, or an object whose values are the
    entries, its keys in the order JavaScript enumerates them. *)
Inductive ShadowState :=
| StArray (entries : list Entry)
| StObject (props : list (string * Entry)).

Record Shadow := mkShadow {
  shadow_name : option string;
  current_version : option Z;
  version : option Z;
  reported_state : option ShadowState
}.

(** What [GET .../shadows] answers: an array of shadows or one shadow
    object, bare or under a [shadows] key. *)
Inductive ShadowList :=
| SlArray (shadows : list Shadow)
| SlObject (shadow : Shadow).

Inductive ShadowsRes :=
| ResWrapped (shadows : ShadowList)
| ResBare (body : ShadowList).

(** [Array.isArray(v) ? v : Object.values(v)] *)
Definition stateItems (st : ShadowState) : list Entry :=
  match st with
  | StArray entries => entries
  | StObject props => List.map snd props
  end.

End Model.
Import Model.

(** ** [src/components/Detail.jsx]: the pure steps of [handleConfigure] *)

Module Steps.

Definition OUTPUT_CONFIRM_DELAYS : list Z := [300; 600; 1200].

Definition optStrEq (a : option string) (b : string) : bool :=
  match a with Some x => String.eqb x b | None => false end.

(** [output.target === 'Tellyo Studio' || output.target === 'Amagi CLOUDPORT'] *)
Definition isPlatform (t : string) : bool :=
  String.eqb t "Tellyo Studio" || String.eqb t "Amagi CLOUDPORT".

Definition setTempPort (o : Output) (port : option Z) : Output :=
  {| target := target o; name := name o; videonId := videonId o;
     _tempPort := port |}.

Definition setVideonId (o : Output) (v : jsval) : Output :=
  {| target := target o; name := name o; videonId := v;
     _tempPort := _tempPort o |}.

(** *** Port pre-assignment

    The first [forEach] over the working copy [newOutputs], [portCounter]
    starting at 10001.  The copy is local to the handler, so what the loop
    wrote to it before a [throw] is lost with it. *)
Fixpoint preAssign (portCounter : Z) (newOutputs : list Output)
  : Exc (list Output) :=
  match newOutputs with
  | [] => Ok []
  | output :: rest =>
      if isPlatform (target output) then
        let port := portCounter in
        if 10100 <? port then Throw "Port range exhausted (10001-10100)"
        else
          match preAssign (portCounter + 1) rest with
          | Ok rest' => Ok (setTempPort output (Some port) :: rest')
          | Throw msg => Throw msg
          end
      else
        match preAssign portCounter rest with
        | Ok rest' => Ok (output :: rest')
        | Throw msg => Throw msg
        end
  end.

(** *** Reading shadows *)

(** [shRes?.shadows || (Array.isArray(shRes) ? shRes : [])], followed by the
    first [shadows.find(...)]: on a [shadows] property that is not an array,
    [find] is not a function. *)
Definition shadowsOf (var : string) (shRes : ShadowsRes) : Exc (list Shadow) :=
  match shRes with
  | ResWrapped (SlArray l) => Ok l
  | ResWrapped (SlObject _) => Throw (var +:+ ".find is not a function")
  | ResBare (SlArray l) => Ok l
  | ResBare (SlObject _) => Ok []
  end.

Definition getShadow (shadows : list Shadow) (nm : string) : option Shadow :=
  List.find (fun x => optStrEq (shadow_name x) nm) shadows.

(** [getItems(name)] and the [list] of [findId2]: the reported state as a
    sequence, whichever shape it has. *)
Definition getItems (shadows : list Shadow) (nm : string) : list Entry :=
  match getShadow shadows nm with
  | Some s =>
      match reported_state s with
      | Some st => stateItems st
      | None => []
      end
  | None => []
  end.

(** [s?.current_version ?? s?.version ?? 0] *)
Definition versionOf (s : option Shadow) : Z :=
  match s with
  | Some s =>
      match current_version s with
      | Some v => v
      | None => default 0 (version s)
      end
  | None => 0
  end.

(** [e.type === kind || e.config?.type === kind] *)
Definition isKind (kind : string) (e : Entry) : bool :=
  optStrEq (e_type e) kind
  || match e_config e with Some c => optStrEq (ec_type c) kind | None => false end.

(** [new Set(currentEncoders.filter(kind).map(e => e.id))] *)
Definition preIds (kind : string) (currentEncoders : list Entry) : gset jsval :=
  list_to_set (List.map e_id (List.filter (isKind kind) currentEncoders)).

(** [e.config?.name || e.name] *)
Definition entryName (e : Entry) : option string :=
  match e_config e with
  | Some c => if strTruthy (ec_name c) then ec_name c else e_name e
  | None => e_name e
  end.

(** [i.config?.name === iName || i.name === iName] *)
Definition hasName (iName : string) (i : Entry) : bool :=
  match e_config i with Some c => optStrEq (ec_name c) iName | None => false end
  || optStrEq (e_name i) iName.

(** [list.find(...)?.id] *)
Definition idOfFound (found : option Entry) : jsval :=
  match found with Some e => e_id e | None => JUndef end.

Definition findId2 (shadows2 : list Shadow) (sName iName : string) : jsval :=
  idOfFound (List.find (hasName iName) (getItems shadows2 sName)).

Definition videoNameOf (cur : Profile) : string :=
  strOr (p_name cur) "Profile" +:+ "_video".
Definition audioNameOf (cur : Profile) : string :=
  strOr (p_name cur) "Profile" +:+ "_audio".

(** *** VerifyEncoders

    The name lookup, the fallback on ids that were not there before the
    write, and the two [throw]s. *)
Definition fallbackId (kind : string) (pre : gset jsval) (list : list Entry)
    (id : jsval) : jsval :=
  if truthy id then id
  else
    match List.find (fun e => isKind kind e && negb (bool_decide (e_id e ∈ pre))) list with
    | Some newEnc => e_id newEnc
    | None => id
    end.

Definition resolveEncoders (shadows2 : list Shadow) (videoName audioName : string)
    (preVideoIds preAudioIds : gset jsval) : jsval * jsval :=
  let vidId := findId2 shadows2 "Encoders" videoName in
  let audId := findId2 shadows2 "Encoders" audioName in
  if negb (truthy vidId) || negb (truthy audId) then
    let list := getItems shadows2 "Encoders" in
    (fallbackId "video" preVideoIds list vidId,
     fallbackId "audio" preAudioIds list audId)
  else (vidId, audId).

Definition verifyEncoders (shadows2 : list Shadow) (videoName audioName : string)
    (preVideoIds preAudioIds : gset jsval) : Exc (jsval * jsval) :=
  let '(vidId, audId) :=
    resolveEncoders shadows2 videoName audioName preVideoIds preAudioIds in
  if negb (truthy vidId) then Throw "Video encoder '' not found after creation."
  else if negb (truthy audId) then Throw "Audio encoder '' not found after creation."
  else Ok (vidId, audId).

(** *** WriteEncoders: the new Encoders state *)

(** [audioEnc.channels] after the string-to-count mapping
    ([chMap[...toLowerCase()] || 2]). *)
Definition channelsOf (ch : jsval) : jsval :=
  match ch with
  | JStr s =>
      let l := toLowerCase s in
      if String.eqb l "mono" then JNum 1
      else if String.eqb l "stereo" then JNum 2
      else if String.eqb l "5.1" then JNum 6
      else JNum 2
  | _ => ch
  end.

(** An entry as the client writes it: [{ id?, type, config: { name, ... } }]. *)
Definition newEntry (id : jsval) (type : string) (nm : string)
    (enable : option bool) (port : option Z) (body : ConfigBody) : Entry :=
  {| e_id := id; e_out_stream_id := JUndef; e_output_id := JUndef;
     e_type := Some type; e_name := None;
     e_config := Some {| ec_name := Some nm; ec_type := None;
                         ec_enable := enable; ec_destination_port := port;
                         ec_body := body |};
     e_output_type := None |}.

Definition videoEntry (videoName : string) (inputId : jsval)
    (videoEnc : option VideoEnc) : Entry :=
  let get {A} (f : VideoEnc -> option A) : option A := videoEnc ≫= f in
  let seconds := optStrEq (get v_keyunit) "seconds" in
  newEntry JUndef "video" videoName None None
    (BodyVideo
       {| vc_active := true;
          vc_in_channel_id := inputId;
          vc_selected_codec := if optStrEq (get v_codec) "hevc" then "H265" else "H264";
          vc_bitrate := numOr (get v_bitrate_kbps) 5000;
          vc_bitrate_mode := if optStrEq (get v_mode) "CBR" then "constant" else "variable";
          vc_scaling_resolution :=
            "RES_" +:+ showZ (numOr (get v_width) 1920) +:+ "X"
            +:+ showZ (numOr (get v_height) 1080);
          vc_keyframe_interval := numOr (get v_keyint) (if seconds then 2 else 60);
          vc_keyframe_unit := if seconds then "SECONDS" else "FRAMES";
          vc_latency_mode :=
            if optStrEq (get v_qa) "Quality priority" then "NORMAL" else "LOW";
          vc_limit_to_30_fps := false;
          vc_klv_timestamp_enabled :=
            match videoEnc with Some v => v_klv v | None => false end;
          vc_cc_processing_enabled :=
            match videoEnc with Some v => v_captions v | None => false end;
          vc_allow_outputs_to_adjust_bitrate := false;
          vc_h264_profile := "PROFILE_HIGH";
          vc_h265_profile := "PROFILE_MAIN" |}).

Definition audioEntry (audioName : string) (inputId : jsval)
    (audioEnc : option AudioEnc) : Entry :=
  let channels :=
    match audioEnc with Some a => channelsOf (a_channels a) | None => JUndef end in
  let rate := audioEnc ≫= a_sample_rate in
  newEntry JUndef "audio" audioName None None
    (BodyAudio
       {| ac_active := true;
          ac_in_channel_id := inputId;
          ac_codec :=
            if optStrEq (audioEnc ≫= a_codec) "aac" then "mpeg4_aac"
            else strOr (audioEnc ≫= a_codec) "mpeg4_aac";
          ac_bitrate := numOr (audioEnc ≫= a_bitrate_kbps) 128;
          ac_sample :=
            if bool_decide (rate = Some 48000) then "SAMPLE_48_khz"
            else if bool_decide (rate = Some 44100) then "SAMPLE_44p1_khz"
            else if bool_decide (rate = Some 32000) then "SAMPLE_32_khz"
            else "SAMPLE_48_khz";
          ac_mix_mode :=
            if seq channels (JNum 6) then "SURROUND_5_1"
            else if seq channels (JNum 1) then "MONO" else "STEREO";
          ac_bitrate_mode := "variable";
          ac_selected_channels :=
            if seq channels (JNum 6) then [1; 2; 3; 4; 5; 6]
            else if seq channels (JNum 1) then [1] else [1; 2] |}).

(** The state written to the Encoders shadow: the current entries without
    those that carry one of the two names, then the two new entries. *)
Definition nextEncodersOf (cur : Profile) (shadows : list Shadow) : list Entry :=
  let videoName := videoNameOf cur in
  let audioName := audioNameOf cur in
  let inputId := idOfFound (head (getItems shadows "Inputs")) in
  let currentEncoders := getItems shadows "Encoders" in
  (List.filter
     (fun e => negb (optStrEq (entryName e) videoName)
               && negb (optStrEq (entryName e) audioName))
     currentEncoders
   ++ [videoEntry videoName inputId (p_encoder cur ≫= enc_video);
       audioEntry audioName inputId (p_encoder cur ≫= enc_audio)])%list.

(** *** WriteOutputs: the new Outputs state and the port map *)

(** [o.out_stream_id || o.id] *)
Definition streamIdOf (o : Entry) : jsval := jor (e_out_stream_id o) (e_id o).

(** [idx = arr.findIndex(p); if (idx !== -1) arr.splice(idx, 1)] *)
Fixpoint removeFirst {A} (p : A -> bool) (l : list A) : list A :=
  match l with
  | [] => []
  | x :: tl => if p x then tl else x :: removeFirst p tl
  end.

Definition srtEntry (nm : string) (ip : string) (port : option Z)
    (callMode : string) (vidId audId : jsval) : Entry :=
  newEntry (JBool false) "srt" nm (Some true) port
    (BodySrt
       {| sc_destination_ip := ip; sc_latency := 120; sc_passphrase := "";
          sc_bw_overhead := 25; sc_key_size := "AES128";
          sc_sources_audio := [audId]; sc_sources_video := [vidId];
          sc_stream_id := ""; sc_call_mode := callMode;
          sc_encryption_enabled := false |}).

(** One turn of the second [forEach] over [newOutputs]: [acc] is
    [(nextOutputs, portMap)].  A platform output whose [_tempPort] is missing
    would add the key ["undefined"] to [portMap], which no port ever looks
    up; it adds nothing here. *)
Definition outputStep (manualIp manualPort : string) (vidId audId : jsval)
    (acc : list Entry * gmap Z nat) (output : Output) (index : nat)
  : list Entry * gmap Z nat :=
  let '(nextOutputs, portMap) := acc in
  let nextOutputs :=
    if truthy (videonId output)
    then removeFirst (fun o => seq (streamIdOf o) (videonId output)) nextOutputs
    else nextOutputs in
  let ordinal := showZ (Z.of_nat index + 1) in
  if isPlatform (target output) then
    let port := _tempPort output in
    ((nextOutputs ++
        [srtEntry (strOr (name output) (target output +:+ " " +:+ ordinal))
           "" port "LISTENER" vidId audId])%list,
     match port with Some p => <[p := index]> portMap | None => portMap end)
  else if negb (String.eqb manualIp "") && negb (String.eqb manualPort "") then
    ((nextOutputs ++
        [srtEntry (strOr (name output) ("Manual Output " +:+ ordinal))
           manualIp ((fun n => n + Z.of_nat index) <$> toNumber (JStr manualPort))
           "CALLER" vidId audId])%list,
     portMap)
  else (nextOutputs, portMap).

Fixpoint outputLoop (manualIp manualPort : string) (vidId audId : jsval)
    (acc : list Entry * gmap Z nat) (newOutputs : list Output) (index : nat)
  : list Entry * gmap Z nat :=
  match newOutputs with
  | [] => acc
  | output :: rest =>
      outputLoop manualIp manualPort vidId audId
        (outputStep manualIp manualPort vidId audId acc output index)
        rest (S index)
  end.

(** [(shadows2.find(Outputs)?.reported?.state) || []], spread or
    [Object.values]. *)
Definition currentOutputsOf (shadows2 : list Shadow) : list Entry :=
  getItems shadows2 "Outputs".

Definition buildOutputs (manualIp manualPort : string) (vidId audId : jsval)
    (shadows2 : list Shadow) (newOutputs : list Output)
  : list Entry * gmap Z nat :=
  outputLoop manualIp manualPort vidId audId
    (currentOutputsOf shadows2, ∅) newOutputs 0.

(** *** VerifyOutputs *)

(** [finalShRes?.shadows || (Array.isArray(finalShRes) ? finalShRes : [])],
    then [(Array.isArray(finalShadows) ? finalShadows.find(Outputs) :
    finalShadows)?.reported?.state || []]; [None] is the [[]] default. *)
Definition finalReported (finalShRes : ShadowsRes) : option ShadowState :=
  let outputs :=
    match finalShRes with
    | ResWrapped (SlArray l) | ResBare (SlArray l) => getShadow l "Outputs"
    | ResWrapped (SlObject s) => Some s
    | ResBare (SlObject _) => None
    end in
  outputs ≫= reported_state.

(** [ro.output_type?.srt?.dest_port || ro.config?.destination_port] *)
Definition roPortOf (ro : Entry) : option Z :=
  let a := e_output_type ro ≫= ot_srt_dest_port in
  if numTruthy a then a else e_config ro ≫= ec_destination_port.

(** [ro.output_type?.value || ro.type] *)
Definition roTypeOf (ro : Entry) : option string :=
  let a := e_output_type ro ≫= ot_value in
  if strTruthy a then a else e_type ro.

(** [newOutputs[i].videonId = v]; every index stored in [portMap] is an index
    of [newOutputs]. *)
Definition assignVideonId (i : nat) (v : jsval) (newOutputs : list Output)
  : list Output :=
  alter (fun o => setVideonId o v) i newOutputs.

(** The body of [reported.forEach(ro => ...)]. *)
Definition matchReported (portMap : gmap Z nat) (newOutputs : list Output)
    (ro : Entry) : list Output :=
  match roPortOf ro with
  | Some p =>
      if optStrEq (roTypeOf ro) "srt" && negb (p =? 0) then
        match portMap !! p with
        | Some i => assignVideonId i (streamIdOf ro) newOutputs
        | None => newOutputs
        end
      else newOutputs
  | None => newOutputs
  end.

(** [if (Array.isArray(reported)) reported.forEach(...)]: a state that is
    not an array is left alone. *)
Definition verifyOutputs (reported : option ShadowState) (portMap : gmap Z nat)
    (newOutputs : list Output) : list Output :=
  match reported with
  | Some (StArray entries) => fold_left (matchReported portMap) entries newOutputs
  | Some (StObject _) => newOutputs
  | None => newOutputs
  end.

End Steps.
Import Steps.

(** ** The browser state, the outside world and the effect monad *)

Module Effects.

(** [cloudStatus] / [tellyoStatus] *)
Record Status := mkStatus {
  st_state : string;
  st_message : string;
  st_label : option string;
  st_id : jsval;
  st_streamUrl : option string
}.

Definition status (state message : string) : Status :=
  mkStatus state message None JUndef None.

(** An entry of the progress list [configSteps]. *)
Record ConfigStep := mkConfigStep {
  step_label : string;
  step_status : string;
  step_msg : option string
}.

(** A row of [parseOutputs]. *)
Record OutRow := mkOutRow {
  r_output_id : Z;
  r_name : string;
  r_enabled : bool
}.

(** The deletion a confirmation dialog is holding ([confirmData.action]). *)
Inductive ConfirmAction :=
| DeleteTellyoChannel (channelId : jsval)
| DeleteCloudportIngest (label : string) (lastIngestId : jsval).

(** An ingest as the CLOUDPORT listing returns it. *)
Record Ingest := mkIngest {
  in_id : jsval;
  in_ingest_id : jsval;
  in_ingest_label : option string;
  in_ingestLabel : option string;
  in_label : option string
}.

Record Track := mkTrack {
  tr_type : string;
  tr_tag : string;
  tr_codec : string;
  tr_resolution : option string;
  tr_frame_rate : option string;
  tr_enable_live_captioning : bool;
  tr_pid : Z
}.

Record IngestPayload := mkIngestPayload {
  ip_ingest_label : string;
  ip_account_domain : string;
  ip_compute_profile : string;
  ip_stream_url : option string;
  ip_protocol : string;
  ip_stream_mode : string;
  ip_source_head_start : string;
  ip_source_elic_delay : string;
  ip_enable_stream_parsing : bool;
  ip_record : bool;
  ip_always_on : bool;
  ip_enable_low_res : bool;
  ip_tracks : list Track
}.

(** What [POST] on the ingest collection answers:
    [res?.id] and [res?.ingests]. *)
Record CreateRes := mkCreateRes {
  cr_id : jsval;
  cr_ingests : option (list Ingest)
}.

(** The calls of the [API] object, the deliberate waits and the signals to
    the parent component, in the order the handlers issue them. *)
Inductive Event :=
| EvDeviceShadows
| EvSetDeviceShadows (shadow : string) (target_version : Z) (state : list Entry)
| EvUpdateShadow (shadow : string) (target_version : Z) (state : list Entry)
| EvPostOutputs (output_id : jsval) (enable : bool)
| EvPostCommand (payload : string)
| EvRenameDevice (displayName : string)
| EvTellyoListChannels
| EvTellyoUpdateChannel (channelId : jsval) (payload : ChannelPayload)
| EvTellyoCreateChannel (payload : ChannelPayload)
| EvTellyoDeleteChannel (channelId : jsval)
| EvCloudportFetchByLabel (label : string)
| EvCloudportUpdate (ingestId : jsval) (payload : IngestPayload)
| EvCloudportCreate (payload : IngestPayload)
| EvCloudportDelete (ingestId : jsval)
| EvSleep (ms : Z)
| EvSetTimeout (ms : Z)
| EvWriteBlocked
| EvRenamed (displayName : string).

(** The calls that change something outside the browser. *)
Definition isWrite (e : Event) : bool :=
  match e with
  | EvSetDeviceShadows _ _ _ | EvUpdateShadow _ _ _ | EvPostOutputs _ _
  | EvPostCommand _ | EvRenameDevice _
  | EvTellyoUpdateChannel _ _ | EvTellyoCreateChannel _ | EvTellyoDeleteChannel _
  | EvCloudportUpdate _ _ | EvCloudportCreate _ | EvCloudportDelete _ => true
  | _ => false
  end.

(** The React state of the detail view that the handlers write. *)
Record UI := mkUI {
  ui_err : string;
  ui_toast : option string;
  ui_op : string;
  ui_cloudStatus : Status;
  ui_tellyoStatus : Status;
  ui_configSteps : option (list ConfigStep);
  ui_profiles : list Profile;
  ui_ipModalOpen : bool;
  ui_confirmData : option ConfirmAction;
  ui_outs : list OutRow;
  ui_opStatus : list (jsval * option string)
}.

Definition setErr (v : string) (u : UI) : UI :=
  mkUI v (ui_toast u) (ui_op u) (ui_cloudStatus u) (ui_tellyoStatus u)
    (ui_configSteps u) (ui_profiles u) (ui_ipModalOpen u) (ui_confirmData u)
    (ui_outs u) (ui_opStatus u).
Definition setToast (v : string) (u : UI) : UI :=
  mkUI (ui_err u) (Some v) (ui_op u) (ui_cloudStatus u) (ui_tellyoStatus u)
    (ui_configSteps u) (ui_profiles u) (ui_ipModalOpen u) (ui_confirmData u)
    (ui_outs u) (ui_opStatus u).
Definition setOp (v : string) (u : UI) : UI :=
  mkUI (ui_err u) (ui_toast u) v (ui_cloudStatus u) (ui_tellyoStatus u)
    (ui_configSteps u) (ui_profiles u) (ui_ipModalOpen u) (ui_confirmData u)
    (ui_outs u) (ui_opStatus u).
Definition setCloudStatus (v : Status) (u : UI) : UI :=
  mkUI (ui_err u) (ui_toast u) (ui_op u) v (ui_tellyoStatus u)
    (ui_configSteps u) (ui_profiles u) (ui_ipModalOpen u) (ui_confirmData u)
    (ui_outs u) (ui_opStatus u).
Definition setTellyoStatus (v : Status) (u : UI) : UI :=
  mkUI (ui_err u) (ui_toast u) (ui_op u) (ui_cloudStatus u) v
    (ui_configSteps u) (ui_profiles u) (ui_ipModalOpen u) (ui_confirmData u)
    (ui_outs u) (ui_opStatus u).
Definition setConfigSteps (f : option (list ConfigStep) -> option (list ConfigStep))
    (u : UI) : UI :=
  mkUI (ui_err u) (ui_toast u) (ui_op u) (ui_cloudStatus u) (ui_tellyoStatus u)
    (f (ui_configSteps u)) (ui_profiles u) (ui_ipModalOpen u) (ui_confirmData u)
    (ui_outs u) (ui_opStatus u).
Definition setProfiles (f : list Profile -> list Profile) (u : UI) : UI :=
  mkUI (ui_err u) (ui_toast u) (ui_op u) (ui_cloudStatus u) (ui_tellyoStatus u)
    (ui_configSteps u) (f (ui_profiles u)) (ui_ipModalOpen u) (ui_confirmData u)
    (ui_outs u) (ui_opStatus u).
Definition setIpModalOpen (v : bool) (u : UI) : UI :=
  mkUI (ui_err u) (ui_toast u) (ui_op u) (ui_cloudStatus u) (ui_tellyoStatus u)
    (ui_configSteps u) (ui_profiles u) v (ui_confirmData u)
    (ui_outs u) (ui_opStatus u).
Definition setConfirmData (v : option ConfirmAction) (u : UI) : UI :=
  mkUI (ui_err u) (ui_toast u) (ui_op u) (ui_cloudStatus u) (ui_tellyoStatus u)
    (ui_configSteps u) (ui_profiles u) (ui_ipModalOpen u) v
    (ui_outs u) (ui_opStatus u).
Definition setOuts (v : list OutRow) (u : UI) : UI :=
  mkUI (ui_err u) (ui_toast u) (ui_op u) (ui_cloudStatus u) (ui_tellyoStatus u)
    (ui_configSteps u) (ui_profiles u) (ui_ipModalOpen u) (ui_confirmData u)
    v (ui_opStatus u).
(** [markOutputs([id], status)]: [setOpStatus(s => ({ ...s, [id]: status }))] *)
Definition markOutputs (id : jsval) (st : option string) (u : UI) : UI :=
  mkUI (ui_err u) (ui_toast u) (ui_op u) (ui_cloudStatus u) (ui_tellyoStatus u)
    (ui_configSteps u) (ui_profiles u) (ui_ipModalOpen u) (ui_confirmData u)
    (ui_outs u)
    ((id, st) :: List.filter (fun kv => negb (seq (fst kv) id)) (ui_opStatus u)).

(** [pushStep], [failStep], [doneSteps]: each rewrites the last entry of
    the list. *)
Fixpoint mapLast {A} (f : A -> A) (l : list A) : list A :=
  match l with
  | [] => []
  | [x] => [f x]
  | x :: tl => x :: mapLast f tl
  end.

Definition finishRunning (s : ConfigStep) : ConfigStep :=
  if String.eqb (step_status s) "running"
  then mkConfigStep (step_label s) "done" (step_msg s) else s.

Definition pushStep (label : string) : UI -> UI :=
  setConfigSteps (fun prev =>
    Some (mapLast finishRunning (default [] prev)
          ++ [mkConfigStep label "running" None])%list).

Definition failStep (msg : string) : UI -> UI :=
  setConfigSteps (fun prev =>
    Some (mapLast (fun s => mkConfigStep (step_label s) "error" (Some msg))
            (default [] prev))).

Definition doneSteps : UI -> UI :=
  setConfigSteps (fun prev => Some (mapLast finishRunning (default [] prev))).

(** The three backends.  Each call maps the state of the outside world to an
    answer (or a rejection) and a next state; [beDeviceShadows] cannot fail,
    since [API.deviceShadows] ends in [.catch(() => demo data)]. *)
Record Backend (W : Type) := mkBackend {
  beDeviceShadows : W -> ShadowsRes * W;
  beShadowCommand : string -> Z -> list Entry -> W -> Exc unit * W;
  bePostOutputs : jsval -> bool -> W -> Exc unit * W;
  bePostCommand : string -> W -> Exc unit * W;
  beRenameDevice : string -> W -> Exc unit * W;
  beTellyoListChannels : W -> Exc (list Channel) * W;
  beTellyoUpdateChannel : jsval -> ChannelPayload -> W -> Exc unit * W;
  beTellyoCreateChannel : ChannelPayload -> W -> Exc (option Channel) * W;
  beTellyoDeleteChannel : jsval -> W -> Exc unit * W;
  beCloudportList : string -> W -> Exc (list Ingest) * W;
  beCloudportPut : jsval -> IngestPayload -> W -> Exc unit * W;
  beCloudportPost : IngestPayload -> W -> Exc CreateRes * W;
  beCloudportDeleteReq : jsval -> W -> Exc unit * W
}.
Arguments beDeviceShadows {W}.
Arguments beShadowCommand {W}.
Arguments bePostOutputs {W}.
Arguments bePostCommand {W}.
Arguments beRenameDevice {W}.
Arguments beTellyoListChannels {W}.
Arguments beTellyoUpdateChannel {W}.
Arguments beTellyoCreateChannel {W}.
Arguments beTellyoDeleteChannel {W}.
Arguments beCloudportList {W}.
Arguments beCloudportPut {W}.
Arguments beCloudportPost {W}.
Arguments beCloudportDeleteReq {W}.

(** The state a handler runs in. *)
Record St (W : Type) := mkSt {
  world : W;
  ui : UI;
  log : list Event
}.
Arguments mkSt {W}.
Arguments world {W}.
Arguments ui {W}.
Arguments log {W}.

(** An asynchronous computation: it ends with a value or a thrown error, and
    what it did before throwing stays done. *)
Definition M (W A : Type) : Type := St W -> Exc A * St W.

Definition ret {W A} (a : A) : M W A := fun s => (Ok a, s).

Definition bind {W A B} (m : M W A) (f : A -> M W B) : M W B :=
  fun s =>
    match m s with
    | (Ok a, s') => f a s'
    | (Throw msg, s') => (Throw msg, s')
    end.

Definition throw {W A} (msg : string) : M W A := fun s => (Throw msg, s).

(** [try { m } catch (e) { h(e.message) }] *)
Definition tryCatch {W A} (m : M W A) (h : string -> M W A) : M W A :=
  fun s =>
    match m s with
    | (Ok a, s') => (Ok a, s')
    | (Throw msg, s') => h msg s'
    end.

(** [try { m } finally { f }] with an [f] that does not throw. *)
Definition finally {W A} (m : M W A) (f : St W -> St W) : M W A :=
  fun s => let '(r, s') := m s in (r, f s').

Definition liftExc {W A} (r : Exc A) : M W A := fun s => (r, s).

Definition emit {W} (e : Event) : M W unit :=
  fun s => (Ok tt, mkSt (world s) (ui s) (log s ++ [e])%list).

Definition emitS {W} (e : Event) (s : St W) : St W :=
  mkSt (world s) (ui s) (log s ++ [e])%list.

Definition update {W} (f : UI -> UI) : M W unit :=
  fun s => (Ok tt, mkSt (world s) (f (ui s)) (log s)).

Definition updateS {W} (f : UI -> UI) (s : St W) : St W :=
  mkSt (world s) (f (ui s)) (log s).

(** A request that the backend may reject. *)
Definition request {W A} (f : W -> Exc A * W) : M W A :=
  fun s => let '(r, w') := f (world s) in (r, mkSt w' (ui s) (log s)).

(** A call of the [API] object that goes straight to the backend. *)
Definition call {W A} (e : Event) (f : W -> Exc A * W) : M W A :=
  bind (emit e) (fun _ => request f).

Definition sleep {W} (ms : Z) : M W unit := emit (EvSleep ms).

End Effects.
Import Effects.

Declare Scope monad_scope.
Delimit Scope monad_scope with monad.
Notation "x <- c1 ;; c2" := (bind c1 (fun x => c2))
  (at level 100, c1 at next level, right associativity) : monad_scope.
Notation "c1 ;; c2" := (bind c1 (fun _ => c2))
  (at level 100, right associativity) : monad_scope.

(** ** [src/components/Detail.jsx]: the handlers *)

Module Detail.

Record Device := mkDevice {
  d_id : string;
  d_name : option string;
  d_ip : option string;
  d_localIp : option string
}.

Record TellyoSettings := mkTellyoSettings {
  ts_apiEndpoint : option string;
  ts_token : option string
}.

Record CloudportSettings := mkCloudportSettings {
  cs_baseHost : option string;
  cs_userAuthToken : option string
}.

(** The props and the render-time values a handler closes over; [cur] is
    [profiles.find(p => p.id === selPid)]. *)
Record Props := mkProps {
  device : Device;
  safeMode : bool;
  bypassVideonError : bool;
  cloudportSettings : option CloudportSettings;
  tellyoSettings : option TellyoSettings;
  external_ip : option string;
  manualIp : string;
  manualPort : string;
  cur : option Profile
}.

(** A row of the [mapped] table: a profile output with the device output of
    the same name. *)
Record MappedRow := mkMappedRow {
  matchId : jsval;
  enabled : option bool
}.

Definition orStr (a b : option string) : option string :=
  if strTruthy a then a else b.

(** [state?.external_ip || device.ip || device.localIp] *)
Definition deviceIpOf (props : Props) : option string :=
  orStr (external_ip props) (orStr (d_ip (device props)) (d_localIp (device props))).

(** [`srt://${deviceIp}:${port}`] *)
Definition streamUrlOf (deviceIp : option string) (port : Z) : string :=
  srtUrl (default "undefined" deviceIp) port.

(** *** Profile updates ([setProfiles(prev => prev.map(...))]) *)

Definition withOutputs (newOutputs : list Output) (p : Profile) : Profile :=
  mkProfile (p_id p) (p_name p) (p_encoder p) newOutputs (p_tellyo p) (p_cloudport p).

Definition emptyTellyoConfig : TellyoConfig :=
  mkTellyoConfig None None JUndef false JUndef None.

Definition withTellyoLast (id : jsval) (url : option string) (p : Profile) : Profile :=
  mkProfile (p_id p) (p_name p) (p_encoder p) (p_outputs p)
    (Some (mkTellyoCfg
             (match p_tellyo p with Some t => t_config t | None => emptyTellyoConfig end)
             id url))
    (p_cloudport p).

Definition emptyCloudportCfg : CloudportCfg :=
  mkCloudportCfg None None None None None None None false false false false
    false None JUndef None.

Definition cloudportOf (p : Profile) : CloudportCfg :=
  default emptyCloudportCfg (p_cloudport p).

Definition withCloudport (f : CloudportCfg -> CloudportCfg) (p : Profile) : Profile :=
  mkProfile (p_id p) (p_name p) (p_encoder p) (p_outputs p) (p_tellyo p)
    (Some (f (cloudportOf p))).

Definition cpSetLast (id : jsval) (url : option string) (c : CloudportCfg) : CloudportCfg :=
  mkCloudportCfg (c_ingestLabel c) (c_computeProfile c) (c_streamUrl c)
    (c_protocol c) (c_streamMode c) (c_headStart c) (c_elicDelay c)
    (c_enableStreamParsing c) (c_record c) (c_alwaysOn c) (c_includeLowRes c)
    (c_includeData c) (c_dataCodec c) id url.

Definition cpSetAlwaysOn (b : bool) (c : CloudportCfg) : CloudportCfg :=
  mkCloudportCfg (c_ingestLabel c) (c_computeProfile c) (c_streamUrl c)
    (c_protocol c) (c_streamMode c) (c_headStart c) (c_elicDelay c)
    (c_enableStreamParsing c) (c_record c) b (c_includeLowRes c)
    (c_includeData c) (c_dataCodec c) (c_lastIngestId c) (c_lastStreamUrl c).

Definition cpSetDeleted (c : CloudportCfg) : CloudportCfg :=
  mkCloudportCfg (c_ingestLabel c) (c_computeProfile c) (c_streamUrl c)
    (c_protocol c) (c_streamMode c) (c_headStart c) (c_elicDelay c)
    (c_enableStreamParsing c) (c_record c) false (c_includeLowRes c)
    (c_includeData c) (c_dataCodec c) JNull (c_lastStreamUrl c).

(** [prev.map(p => p.id === cur.id ? f(p) : p)] *)
Definition mapProfile (cur : Profile) (f : Profile -> Profile)
    (prev : list Profile) : list Profile :=
  List.map (fun p => if seq (p_id p) (p_id cur) then f p else p) prev.

(** *** Downstream payloads *)

(** [{ ...defaultTellyoConfig(), ...(cur.tellyo || {}), streamUrl }] with
    [channelName] filled in. *)
Definition telConfigOf (cur : Profile) (channelName streamUrl : string) : TellyoConfig :=
  let c := match p_tellyo cur with Some t => t_config t | None => emptyTellyoConfig end in
  {| tc_channelName := Some channelName;
     tc_profile := Some (strOr (tc_profile c) "");
     tc_chunkLength :=
       match tc_chunkLength c with JUndef => JNum TELLYO_DEFAULT_CHUNK | v => v end;
     tc_startDataCollection := tc_startDataCollection c;
     tc_twentyFourStartTime :=
       match tc_twentyFourStartTime c with JUndef => JStr "" | v => v end;
     tc_streamUrl := Some streamUrl |}.

(** [telConfig.channelName || sanitizeLabel(cur.name, 'lec_channel')] *)
Definition channelNameOf (cur : Profile) : string :=
  let own := p_tellyo cur ≫= (fun t => tc_channelName (t_config t)) in
  if strTruthy own then default "" own else sanitizeLabel (p_name cur) "lec_channel".

(** [cpConfig.ingestLabel || sanitizeLabel(cur.name, 'lec_ingest')] *)
Definition ingestLabelOf (cur : Profile) : string :=
  let own := c_ingestLabel (cloudportOf cur) in
  if strTruthy own then default "" own else sanitizeLabel (p_name cur) "lec_ingest".

Definition tracksOf (cur : Profile) (cpConfig : CloudportCfg) : list Track :=
  (match p_encoder cur ≫= enc_video with
   | Some v =>
       [mkTrack "video" "Studio" (strOr (v_codec v) "h264")
          (Some (showZ (numOr (v_height v) 1080) +:+ "p" +:+ showZ (numOr (v_fps v) 60)))
          (Some (showZ (numOr (v_fps v) 60))) false 256]
   | None => []
   end
   ++ match p_encoder cur ≫= enc_audio with
      | Some a => [mkTrack "audio" "eng" (strOr (a_codec a) "aac") None None true 257]
      | None => []
      end
   ++ (if c_includeData cpConfig
       then [mkTrack "data" "data1" (strOr (c_dataCodec cpConfig) "scte") None None false 500]
       else []))%list.

Definition ingestPayloadOf (cur : Profile) (cpConfig : CloudportCfg)
    (ingestLabel accountDomain : string) (streamUrl : option string)
    (alwaysOn : bool) : IngestPayload :=
  {| ip_ingest_label := ingestLabel;
     ip_account_domain := accountDomain;
     ip_compute_profile := strOr (c_computeProfile cpConfig) "medium";
     ip_stream_url := streamUrl;
     ip_protocol := strOr (c_protocol cpConfig) "udp";
     ip_stream_mode := strOr (c_streamMode cpConfig) "ts";
     ip_source_head_start := strOr (c_headStart cpConfig) "11.9";
     ip_source_elic_delay := strOr (c_elicDelay cpConfig) "6.8";
     ip_enable_stream_parsing := c_enableStreamParsing cpConfig;
     ip_record := c_record cpConfig;
     ip_always_on := alwaysOn;
     ip_enable_low_res := c_includeLowRes cpConfig;
     ip_tracks := tracksOf cur cpConfig |}.

(** *** Registry lookups *)

(** [cur.tellyo?.lastChannelId ? channels.find(c => c.id === lastChannelId)
    : null], then [channels.find(c => c.name === channelName)]. *)
Definition findChannel (cur : Profile) (channelName : string)
    (channels : list Channel) : option Channel :=
  let lastChannelId :=
    match p_tellyo cur with Some t => t_lastChannelId t | None => JUndef end in
  let byId :=
    if truthy lastChannelId
    then List.find (fun c => seq (ch_id c) lastChannelId) channels
    else None in
  match byId with
  | Some c => Some c
  | None => List.find (fun c => optStrEq (ch_name c) channelName) channels
  end.

(** [x.ingest_label || x.ingestLabel || x.label] *)
Definition ingestLabelField (x : Ingest) : option string :=
  orStr (in_ingest_label x) (orStr (in_ingestLabel x) (in_label x)).

(** The [match] of [cloudportFetchByLabel] ([src/api/videonApi.js]): exact
    label, then the label without case, then the first ingest listed. *)
Definition matchIngest (label : string) (ingests : list Ingest) : option Ingest :=
  match ingests with
  | [] => None
  | first :: _ =>
      if String.eqb label "" then Some first
      else
        match List.find (fun x => optStrEq (ingestLabelField x) label) ingests with
        | Some m => Some m
        | None =>
            match List.find
                    (fun x => String.eqb (toLowerCase (strOr (ingestLabelField x) ""))
                                         (toLowerCase label)) ingests with
            | Some m => Some m
            | None => Some first
            end
        end
  end.

(** [ingest.id || ingest.ingest_id] *)
Definition ingestIdOf (ingest : Ingest) : jsval :=
  jor (in_id ingest) (in_ingest_id ingest).

(** [res?.id || (Array.isArray(res?.ingests) ? res.ingests[0]?.id : null)] *)
Definition newIdOf (res : CreateRes) : jsval :=
  jor (cr_id res)
    match cr_ingests res with
    | Some (i :: _) => in_id i
    | Some [] => JUndef
    | None => JNull
    end.

(** *** The handlers *)

Section Handlers.

Context {W : Type} (be : Backend W).

(** [parseOutputs] of [src/utils/helpers.js] walks the raw JSON of a shadows
    answer; the handlers only hand its rows on. *)
Variable parseOutputs : ShadowsRes -> list OutRow.

(** [new URL(baseHost).hostname.split('.')[0]], [''] when the URL does not
    parse. *)
Variable accountDomainOf : string -> string.

(** [Math.floor(Date.now() / 1000)] *)
Variable now : Z.

Local Open Scope monad_scope.

Definition deviceShadows : M W ShadowsRes :=
  call EvDeviceShadows (fun w => let '(r, w') := beDeviceShadows be w in (Ok r, w')).

Definition setDeviceShadows (shadow : string) (target_version : Z)
    (state : list Entry) : M W unit :=
  call (EvSetDeviceShadows shadow target_version state)
       (beShadowCommand be shadow target_version state).

Definition updateShadow (shadow : string) (target_version : Z)
    (state : list Entry) : M W unit :=
  call (EvUpdateShadow shadow target_version state)
       (beShadowCommand be shadow target_version state).

(** [API.cloudportFetchByLabel(settings, label)], its [ingest] field. *)
Definition cloudportFetchByLabel (label : string) : M W (option Ingest) :=
  ingests <- call (EvCloudportFetchByLabel label) (beCloudportList be label) ;;
  ret (matchIngest label ingests).

(** [API.cloudportUpdate(settings, ingestId, payload)] *)
Definition cloudportUpdate (ingestId : jsval) (payload : IngestPayload) : M W unit :=
  emit (EvCloudportUpdate ingestId payload) ;;
  match ingestId with
  | JUndef | JNull => throw "Missing ingest id"
  | _ => request (beCloudportPut be ingestId payload)
  end.

(** [API.cloudportDelete(settings, ingestId)] *)
Definition cloudportDelete (ingestId : jsval) : M W unit :=
  emit (EvCloudportDelete ingestId) ;;
  match ingestId with
  | JUndef | JNull => throw "Missing ingest id"
  | _ => request (beCloudportDeleteReq be ingestId)
  end.

(** [e.message || String(e)] *)
Definition errText (msg : string) : string :=
  if String.eqb msg "" then "Error" else msg.

(** **** [confirmOutputsState] *)

Fixpoint confirmLoop (check : list OutRow -> bool) (delays : list Z)
  : M W (bool * list OutRow) :=
  match delays with
  | delay :: rest =>
      sleep delay ;;
      sh <- deviceShadows ;;
      let outs := parseOutputs sh in
      if check outs then ret (true, outs) else confirmLoop check rest
  | [] =>
      finalSh <- deviceShadows ;;
      let finalOuts := parseOutputs finalSh in
      ret (check finalOuts, finalOuts)
  end.

Definition confirmOutputsState (check : list OutRow -> bool)
  : M W (bool * list OutRow) :=
  confirmLoop check OUTPUT_CONFIRM_DELAYS.

(** **** [handleConfigure], the device part (the body of its [try]) *)

Definition configureVideon (props : Props) (cur : Profile)
    (newOutputs : list Output) : M W (list Output) :=
  update (setToast "Step 1/4: Fetching device state...") ;;
  update (pushStep "Fetching device state...") ;;
  shRes <- deviceShadows ;;
  shadows <- liftExc (shadowsOf "shadows" shRes) ;;
  let encVersion := versionOf (getShadow shadows "Encoders") in
  let videoName := videoNameOf cur in
  let audioName := audioNameOf cur in
  let currentEncoders := getItems shadows "Encoders" in
  let preVideoIds := preIds "video" currentEncoders in
  let preAudioIds := preIds "audio" currentEncoders in
  let nextEncoders := nextEncodersOf cur shadows in
  update (setToast "Step 2/4: Configuring encoders...") ;;
  update (pushStep "Configuring encoders...") ;;
  setDeviceShadows "Encoders" encVersion nextEncoders ;;
  update (setToast "Step 2/4: Waiting for encoders...") ;;
  update (pushStep "Waiting for encoders to initialize (20s)...") ;;
  sleep 20000 ;;
  update (setToast "Step 3/4: Verifying encoders...") ;;
  update (pushStep "Verifying encoder creation...") ;;
  shRes2 <- deviceShadows ;;
  shadows2 <- liftExc (shadowsOf "shadows2" shRes2) ;;
  let outVersion := versionOf (getShadow shadows2 "Outputs") in
  ids <- liftExc (verifyEncoders shadows2 videoName audioName preVideoIds preAudioIds) ;;
  let built :=
    buildOutputs (manualIp props) (manualPort props) (fst ids) (snd ids)
      shadows2 newOutputs in
  update (setToast "Step 4/4: Configuring outputs...") ;;
  update (pushStep "Configuring outputs...") ;;
  setDeviceShadows "Outputs" outVersion (fst built) ;;
  update (setToast "Step 4/4: Finalizing...") ;;
  update (pushStep "Finalizing Videon configuration...") ;;
  sleep 2000 ;;
  finalShRes <- deviceShadows ;;
  let newOutputs' := verifyOutputs (finalReported finalShRes) (snd built) newOutputs in
  update (setProfiles (mapProfile cur (withOutputs newOutputs'))) ;;
  ret newOutputs'.

(** **** [handleConfigure], the Tellyo part *)

Definition tellyoSettingsMissing (props : Props) : bool :=
  match tellyoSettings props with
  | Some t => negb (strTruthy (ts_apiEndpoint t)) || negb (strTruthy (ts_token t))
  | None => true
  end.

Definition upsertChannel (props : Props) (cur : Profile)
    (deviceIp : option string) (port : Z) : M W unit :=
  (if tellyoSettingsMissing props then throw "Tellyo settings missing" else ret tt) ;;
  let streamUrl := streamUrlOf deviceIp port in
  let channelName := channelNameOf cur in
  let telConfig := telConfigOf cur channelName streamUrl in
  update (setTellyoStatus (status "pending" "Configuring ...")) ;;
  channels <- call EvTellyoListChannels (beTellyoListChannels be) ;;
  let channel := findChannel cur channelName channels in
  payload <- liftExc (buildTellyoChannelPayload now cur telConfig deviceIp channels
                        (match channel with Some c => ch_id c | None => JUndef end)) ;;
  channel <-
    match channel with
    | Some c =>
        call (EvTellyoUpdateChannel (ch_id c) payload)
             (beTellyoUpdateChannel be (ch_id c) payload) ;;
        update (setTellyoStatus
                  (mkStatus "success" "Channel updated" None JUndef (Some streamUrl))) ;;
        ret (Some c)
    | None =>
        res <- call (EvTellyoCreateChannel payload) (beTellyoCreateChannel be payload) ;;
        update (setTellyoStatus
                  (mkStatus "success" "Channel created" None JUndef (Some streamUrl))) ;;
        ret res
    end ;;
  match channel with
  | Some c =>
      if truthy (ch_id c)
      then update (setProfiles (mapProfile cur (withTellyoLast (ch_id c) (Some streamUrl))))
      else ret tt
  | None => ret tt
  end.

Definition isTarget (t : string) (o : Output) : bool := String.eqb (target o) t.

Definition configureTellyo (props : Props) (cur : Profile)
    (deviceIp : option string) (newOutputs : list Output) : M W unit :=
  match List.filter (isTarget "Tellyo Studio") newOutputs with
  | out :: _ =>
      if numTruthy (_tempPort out) then
        tryCatch (upsertChannel props cur deviceIp (default 0 (_tempPort out)))
          (fun e => update (setTellyoStatus (status "error" (errText e))))
      else update (setTellyoStatus (status "idle" ""))
  | [] => update (setTellyoStatus (status "idle" ""))
  end.

(** **** [handleConfigure], the CLOUDPORT part *)

Definition cloudportSettingsMissing (props : Props) : bool :=
  match cloudportSettings props with
  | Some c => negb (strTruthy (cs_baseHost c)) || negb (strTruthy (cs_userAuthToken c))
  | None => true
  end.

Definition baseHostOf (props : Props) : string :=
  default "" (cloudportSettings props ≫= cs_baseHost).

Definition upsertIngest (props : Props) (cur : Profile)
    (deviceIp : option string) (port : Z) : M W unit :=
  (if cloudportSettingsMissing props then throw "Cloudport settings missing" else ret tt) ;;
  let streamUrl := streamUrlOf deviceIp port in
  let cpConfig := cloudportOf cur in
  let ingestLabel := ingestLabelOf cur in
  update (setCloudStatus (status "pending" "Configuring ...")) ;;
  let payload :=
    ingestPayloadOf cur cpConfig ingestLabel (accountDomainOf (baseHostOf props))
      (Some streamUrl) (c_alwaysOn cpConfig) in
  sleep 1000 ;;
  ingest <- cloudportFetchByLabel ingestLabel ;;
  match ingest with
  | Some ingest =>
      let ingestId := ingestIdOf ingest in
      cloudportUpdate ingestId payload ;;
      update (setCloudStatus
                (mkStatus "success" "Ingest updated" (Some ingestLabel) ingestId None)) ;;
      update (setProfiles
                (mapProfile cur (withCloudport (cpSetLast ingestId (Some streamUrl)))))
  | None =>
      res <- call (EvCloudportCreate payload) (beCloudportPost be payload) ;;
      let newId := newIdOf res in
      update (setCloudStatus
                (mkStatus "success" "Ingest created" (Some ingestLabel) newId None)) ;;
      if truthy newId
      then update (setProfiles
                     (mapProfile cur (withCloudport (cpSetLast newId (Some streamUrl)))))
      else ret tt
  end.

Definition configureCloudport (props : Props) (cur : Profile)
    (deviceIp : option string) (newOutputs : list Output) : M W unit :=
  match List.filter (isTarget "Amagi CLOUDPORT") newOutputs with
  | out :: _ =>
      if numTruthy (_tempPort out) then
        tryCatch (upsertIngest props cur deviceIp (default 0 (_tempPort out)))
          (fun e => update (setCloudStatus (status "error" (errText e))))
      else update (setCloudStatus (status "idle" ""))
  | [] => update (setCloudStatus (status "idle" ""))
  end.

(** **** [handleConfigure] *)

(** Step 2 of the handler, after the device part. *)
Definition configureDownstream (props : Props) (cur : Profile)
    (newOutputs : list Output) : M W unit :=
  update (pushStep "Configuring external services...") ;;
  configureTellyo props cur (deviceIpOf props) newOutputs ;;
  configureCloudport props cur (deviceIpOf props) newOutputs ;;
  update doneSteps.

(** The [try]/[catch] around the device part: the working copy to go on
    with and [videonSuccess], or [None] for the [return] of the [catch]. *)
Definition guardedVideon (props : Props) (cur : Profile)
    (newOutputs : list Output) : M W (option (list Output * bool)) :=
  tryCatch
    (outs <- configureVideon props cur newOutputs ;; ret (Some (outs, true)))
    (fun e =>
       if bypassVideonError props then
         update (setErr ("Videon config failed (Bypassed): " +:+ errText e)) ;;
         ret (Some (newOutputs, false))
       else
         update (setErr ("Videon config failed: " +:+ errText e)) ;;
         update (failStep (errText e)) ;;
         update (setCloudStatus (status "idle" "")) ;;
         update (setTellyoStatus (status "idle" "")) ;;
         ret None).

Definition handleConfigure (props : Props) : M W unit :=
  match cur props with
  | None => ret tt
  | Some cur =>
      update (setIpModalOpen false) ;;
      if safeMode props then emit EvWriteBlocked
      else
        update (setConfigSteps (fun _ =>
                  Some [mkConfigStep "Initializing configuration..." "running" None])) ;;
        update (setErr "") ;;
        update (setToast "Configuring endpoints...") ;;
        update (setCloudStatus (status "pending" "Waiting for Videon...")) ;;
        update (setTellyoStatus (status "pending" "Waiting for Videon...")) ;;
        newOutputs <- liftExc (preAssign 10001 (p_outputs cur)) ;;
        r <- guardedVideon props cur newOutputs ;;
        match r with
        | None => ret tt
        | Some (newOutputs, videonSuccess) =>
            (if videonSuccess : bool
             then update (setToast "Videon configured. Setting up remotes...")
             else ret tt) ;;
            configureDownstream props cur newOutputs
        end
  end.

(** **** [doCmd] *)

Definition doCmd (props : Props) (label payload : string) : M W unit :=
  if safeMode props then emit EvWriteBlocked
  else
    update (setOp label) ;;
    update (setErr "") ;;
    finally
      (tryCatch
         (call (EvPostCommand payload) (bePostCommand be payload) ;;
          update (setOp (label +:+ "-ok")) ;;
          update (setToast (label +:+ " command sent")))
         (fun e =>
            update (setOp (label +:+ "-err")) ;;
            update (setErr ("Command failed: " +:+ errText e))))
      (emitS (EvSetTimeout 2000)).

(** **** [handleRestart] *)

(** [shRes?.shadows || shRes], then
    [Array.isArray(shadows) ? shadows.find(Outputs) : shadows]. *)
Definition outputsShadowOf (shRes : ShadowsRes) : option Shadow :=
  match shRes with
  | ResWrapped (SlArray l) | ResBare (SlArray l) => getShadow l "Outputs"
  | ResWrapped (SlObject s) | ResBare (SlObject s) => Some s
  end.

(** [o.config?.enable === true] *)
Definition isEnabled (o : Entry) : bool :=
  match e_config o with
  | Some c => bool_decide (ec_enable c = Some true)
  | None => false
  end.

(** The entries the restart acts on. *)
Definition restartTargets (outputsShadow : Shadow) : list Entry :=
  match reported_state outputsShadow with
  | Some st => List.filter isEnabled (stateItems st)
  | None => []
  end.

(** [{ id: t.id || t.output_id, type: t.type, config: { enable } }] *)
Definition enableCommand (enable : bool) (t : Entry) : Entry :=
  {| e_id := jor (e_id t) (e_output_id t); e_out_stream_id := JUndef;
     e_output_id := JUndef; e_type := e_type t; e_name := None;
     e_config := Some (mkEntryConfig None None (Some enable) None BodyReported);
     e_output_type := None |}.

Definition handleRestart (props : Props) : M W unit :=
  if safeMode props then emit EvWriteBlocked
  else
    update (setOp "restart") ;;
    update (setErr "") ;;
    finally
      (tryCatch
         (shRes <- deviceShadows ;;
          match outputsShadowOf shRes with
          | None => throw "Could not retrieve Outputs shadow"
          | Some outputsShadow =>
              let version := versionOf (Some outputsShadow) in
              let targets := restartTargets outputsShadow in
              match targets with
              | [] =>
                  update (setOp "restart-ok") ;;
                  update (setToast "No active outputs to restart.") ;;
                  emit (EvSetTimeout 2000)
              | _ =>
                  updateShadow "Outputs" version (List.map (enableCommand false) targets) ;;
                  sleep 2000 ;;
                  shRes2 <- deviceShadows ;;
                  let version2 :=
                    match outputsShadowOf shRes2 with
                    | Some s2 =>
                        match current_version s2 with
                        | Some v => v
                        | None => default (version + 1) (Model.version s2)
                        end
                    | None => version + 1
                    end in
                  updateShadow "Outputs" version2 (List.map (enableCommand true) targets) ;;
                  update (setOp "restart-ok") ;;
                  update (setToast "Restart sequence completed")
              end
          end)
         (fun e =>
            update (setOp "restart-err") ;;
            update (setErr ("Restart failed: " +:+ errText e))))
      (emitS (EvSetTimeout 2000)).

(** **** [doRename] *)

Definition doRename (props : Props) (devName : string) : M W unit :=
  if safeMode props then emit EvWriteBlocked
  else
    let n := trim devName in
    if String.eqb n "" then ret tt
    else
      tryCatch
        (call (EvRenameDevice n) (beRenameDevice be n) ;;
         emit (EvRenamed n) ;;
         update (setToast "Device renamed"))
        (fun e => update (setErr (errText e))).

(** **** [toggleOut] *)

Definition toggleOut (props : Props) (it : MappedRow) : M W unit :=
  if safeMode props then emit EvWriteBlocked
  else
    let id := matchId it in
    if negb (truthy id) then ret tt
    else
      let wanted := negb (bool_decide (enabled it = Some true)) in
      update (markOutputs id (Some "busy")) ;;
      finally
        (tryCatch
           (call (EvPostOutputs id wanted) (bePostOutputs be id wanted) ;;
            res <- confirmOutputsState
                     (fun list =>
                        match List.find (fun x => seq (JNum (r_output_id x)) id) list with
                        | Some o => Bool.eqb (r_enabled o) wanted
                        | None => false
                        end) ;;
            (if fst res then update (setOuts (snd res)) else ret tt) ;;
            update (markOutputs id (Some (if fst res then "ok" else "err"))) ;;
            if fst res then update (setErr "")
            else update (fun u => setErr (strOr (Some (ui_err u)) "Output  did not confirm.") u))
           (fun e =>
              update (markOutputs id (Some "err")) ;;
              update (setErr (errText e))))
        (emitS (EvSetTimeout 1500)).

(** **** The downstream delete and toggle handlers *)

Definition lastChannelIdOf (cur : Profile) : jsval :=
  match p_tellyo cur with Some t => t_lastChannelId t | None => JUndef end.

Definition lastIngestIdOf (cur : Profile) : jsval :=
  match p_cloudport cur with Some c => c_lastIngestId c | None => JUndef end.

Definition deleteTellyoChannel (props : Props) : M W unit :=
  match cur props with
  | None => ret tt
  | Some cur =>
      if negb (truthy (lastChannelIdOf cur)) then ret tt
      else if safeMode props then emit EvWriteBlocked
      else update (setConfirmData (Some (DeleteTellyoChannel (lastChannelIdOf cur))))
  end.

Definition toggleCloudport (props : Props) : M W unit :=
  match cur props with
  | None => ret tt
  | Some cur =>
      if negb (truthy (lastIngestIdOf cur)) then ret tt
      else if safeMode props then emit EvWriteBlocked
      else
        let cpConfig := cloudportOf cur in
        let nextState := negb (c_alwaysOn cpConfig) in
        update (setCloudStatus (status "pending" " CLOUDPORT feed...")) ;;
        tryCatch
          (let payload :=
             ingestPayloadOf cur cpConfig (ingestLabelOf cur)
               (accountDomainOf (baseHostOf props))
               (orStr (c_lastStreamUrl cpConfig) (c_streamUrl cpConfig)) nextState in
           cloudportUpdate (c_lastIngestId cpConfig) payload ;;
           update (setProfiles (mapProfile cur (withCloudport (cpSetAlwaysOn nextState)))) ;;
           update (setCloudStatus
                     (mkStatus "success"
                        (if nextState then "Feed enabled" else "Feed disabled")
                        (c_ingestLabel cpConfig) (c_lastIngestId cpConfig) None)))
          (fun e => update (setCloudStatus (status "error" (errText e))))
  end.

Definition deleteCloudportIngest (props : Props) : M W unit :=
  match cur props with
  | None => ret tt
  | Some cur =>
      if safeMode props then emit EvWriteBlocked
      else update (setConfirmData
                     (Some (DeleteCloudportIngest (ingestLabelOf cur) (lastIngestIdOf cur))))
  end.

(** The [action] a confirmation dialog runs when the operator confirms. *)
Definition runConfirm (props : Props) (a : ConfirmAction) : M W unit :=
  match cur props with
  | None => ret tt
  | Some cur =>
      match a with
      | DeleteTellyoChannel channelId =>
          update (setTellyoStatus (status "pending" "Deleting channel ...")) ;;
          tryCatch
            (call (EvTellyoDeleteChannel channelId) (beTellyoDeleteChannel be channelId) ;;
             update (setProfiles (mapProfile cur (withTellyoLast JNull None))) ;;
             update (setTellyoStatus (status "idle" "Channel deleted")))
            (fun e => update (setTellyoStatus (status "error" (errText e))))
      | DeleteCloudportIngest label lastIngestId =>
          update (setCloudStatus (status "pending" "Deleting ingest ...")) ;;
          tryCatch
            (ingest <- cloudportFetchByLabel label ;;
             let ingestId :=
               jor (match ingest with Some i => ingestIdOf i | None => JUndef end)
                   lastIngestId in
             if negb (truthy ingestId) then throw "Ingest point not found."
             else
               cloudportDelete ingestId ;;
               update (setProfiles (mapProfile cur (withCloudport cpSetDeleted))) ;;
               update (setCloudStatus (status "idle" "Ingest deleted")))
            (fun e => update (setCloudStatus (status "error" (errText e))))
      end
  end.

End Handlers.

End Detail.
(** * Further parts of the repository

    - [src/utils/helpers.js]      ([auth], [parseOutputs]);
    - [src/utils/tellyoUtils.js]  ([tellyoChannelEndpoint]);
    - [src/api/videonApi.js]      ([vx], [externalRequest],
      [API.deviceShadows]);
    - [src/api/mockData.js]       ([demoOutputsShadow]);
    - [src/App.jsx]               (the effects that load and persist the
      settings);
    - [src/components/Detail.jsx] (the rows of the outputs table).

    Data that arrives as JSON is modelled by the tree type [json];
    [JSON.parse] and [JSON.stringify] themselves are left open, as
    variables of the sections that use them. *)

From Stdlib Require Import DecimalZ.

(** ** JavaScript strings *)

Module JsString.

(** [s.startsWith(p)] *)
Fixpoint startsWith (s p : string) {struct p} : bool :=
  match p with
  | EmptyString => true
  | String a p' =>
      match s with
      | String b s' => Ascii.eqb b a && startsWith s' p'
      | EmptyString => false
      end
  end.

(** [s.includes(sub)] *)
Fixpoint includes (s sub : string) : bool :=
  startsWith s sub
  || match s with
     | String _ rest => includes rest sub
     | EmptyString => false
     end.

(** [String(v)], also what a template literal prints for [v]. *)
Definition toStr (v : jsval) : string :=
  match v with
  | JUndef => "undefined"
  | JNull => "null"
  | JBool true => "true"
  | JBool false => "false"
  | JNum n => showZ n
  | JStr s => s
  end.

End JsString.
Import JsString.

(** ** [src/utils/helpers.js]: [auth] *)

Module Auth.

(** [auth(t)]: the value of the [Authorization] header for the access token
    [t] of the settings; [!t] on a string is [t === ""]. *)
Definition auth (t : string) : string :=
  if String.eqb t "" then ""
  else if startsWith t "PAT " || startsWith t "Bearer " then t
  else if includes t "." then "Bearer " +:+ t
  else "PAT " +:+ t.

End Auth.
Import Auth.

(** ** JSON values

    What [JSON.parse] returns, numbers being integers.  The properties of an
    object are listed in the order JavaScript enumerates them. *)

Module Json.

#[warnings="-register-all"] Inductive json :=
| JsNull
| JsBool (b : bool)
| JsNum (n : Z)
| JsStr (s : string)
| JsArr (items : list json)
| JsObj (props : list (string * json)).

(** [!!v]; [None] is [undefined]. *)
Definition jtruthy (v : option json) : bool :=
  match v with
  | None | Some JsNull => false
  | Some (JsBool b) => b
  | Some (JsNum n) => negb (n =? 0)
  | Some (JsStr s) => negb (String.eqb s "")
  | Some (JsArr _) | Some (JsObj _) => true
  end.

Fixpoint lookupProp (k : string) (props : list (string * json)) : option json :=
  match props with
  | [] => None
  | (k', v) :: rest => if String.eqb k' k then Some v else lookupProp k rest
  end.

(** [v.k] for a [v] that is not [null], and a [k] that only an object of the
    data can carry. *)
Definition prop (k : string) (v : json) : option json :=
  match v with
  | JsObj props => lookupProp k props
  | _ => None
  end.

(** [v?.k] *)
Definition optProp (k : string) (v : option json) : option json :=
  match v with
  | None | Some JsNull => None
  | Some j => prop k j
  end.

(** [a || b] *)
Definition vor (a b : option json) : option json := if jtruthy a then a else b.

(** [a ?? b] *)
Definition nullish (a b : option json) : option json :=
  match a with
  | None | Some JsNull => b
  | Some _ => a
  end.

(** [v || d] with a default [d] that is a value. *)
Definition orElse (v : option json) (d : json) : json :=
  if jtruthy v then default d v else d.

(** [String(v)] *)
Fixpoint toString (v : json) : string :=
  match v with
  | JsNull => "null"
  | JsBool true => "true"
  | JsBool false => "false"
  | JsNum n => showZ n
  | JsStr s => s
  | JsArr items =>
      String.concat ","
        (List.map (fun x => match x with JsNull => "" | _ => toString x end) items)
  | JsObj _ => "[object Object]"
  end.

(** [+v] on integers: a string that spells a fraction, an exponent or a
    hexadecimal number reads as [NaN] here.  [None] is [NaN]. *)
Definition numberOf (v : option json) : option Z :=
  match v with
  | None => None
  | Some JsNull => Some 0
  | Some (JsBool b) => Some (if b then 1 else 0)
  | Some (JsNum n) => Some n
  | Some (JsStr s) => toNumber (JStr s)
  | Some (JsArr items) => toNumber (JStr (toString (JsArr items)))
  | Some (JsObj _) => None
  end.

End Json.
Import Json.

(** ** [src/utils/helpers.js]: [parseOutputs] *)

Module ParseOutputs.

Section Rows.

(** [+o.output_id] only serves as the key under which a row is kept; the
    reading of a number, [toNumber], is left open, [K] being the numbers
    under the equality of a [Map] key. *)
Context {K : Type} `{EqDecision K}.
Variable toNumber : option json -> K.

Record Row := mkRow {
  po_output_id : K;
  po_name : json;
  po_type : string;
  po_enabled : bool;
  po_port : json;
  po_destIp : json
}.

(** [(o.type || o.protocol || "").toLowerCase()] *)
Definition lowerType (o : json) : Exc string :=
  match orElse (vor (prop "type" o) (prop "protocol" o)) (JsStr "") with
  | JsStr s => Ok (toLowerCase s)
  | _ => Throw "toLowerCase is not a function"
  end.

(** The row pushed for an object [o] that has an [output_id]. *)
Definition rowOf (o : json) : Exc Row :=
  let cfg := orElse (prop "config" o) (JsObj []) in
  let en :=
    nullish (prop "enabled" o)
      (nullish (prop "enable" o)
         (nullish (prop "enabled" cfg) (prop "enable" cfg))) in
  match lowerType o with
  | Throw msg => Throw msg
  | Ok ty =>
      Ok {| po_output_id := toNumber (prop "output_id" o);
            po_name := orElse (prop "name" o) (JsStr "");
            po_type := ty;
            po_enabled := jtruthy en;
            po_port :=
              orElse (vor (prop "destination_port" o)
                        (vor (prop "source_port" o)
                           (vor (prop "port" o)
                              (vor (prop "destination_port" cfg)
                                 (vor (prop "source_port" cfg) (prop "port" cfg))))))
                JsNull;
            po_destIp :=
              orElse (vor (prop "destination_ip" o) (prop "destination_ip" cfg)) JsNull |}
  end.

(** ["output_id" in o] *)
Definition hasOutputId (props : list (string * json)) : bool :=
  match lookupProp "output_id" props with Some _ => true | None => false end.

(** [walk(o)]: the rows pushed to [out], in the order pushed.  A throw ends
    the whole parse. *)
Fixpoint walk (o : json) : Exc (list Row) :=
  let fix walkItems (items : list json) : Exc (list Row) :=
    match items with
    | [] => Ok []
    | x :: rest =>
        match walk x with
        | Throw msg => Throw msg
        | Ok a =>
            match walkItems rest with
            | Throw msg => Throw msg
            | Ok b => Ok (a ++ b)%list
            end
        end
    end in
  let fix walkValues (props : list (string * json)) : Exc (list Row) :=
    match props with
    | [] => Ok []
    | (_, x) :: rest =>
        match walk x with
        | Throw msg => Throw msg
        | Ok a =>
            match walkValues rest with
            | Throw msg => Throw msg
            | Ok b => Ok (a ++ b)%list
            end
        end
    end in
  match o with
  | JsArr items => walkItems items
  | JsObj props =>
      match (if hasOutputId props
             then match rowOf o with Ok r => Ok [r] | Throw msg => Throw msg end
             else Ok []) with
      | Throw msg => Throw msg
      | Ok self =>
          match walkValues props with
          | Throw msg => Throw msg
          | Ok below => Ok (self ++ below)%list
          end
      end
  | _ => Ok []
  end.

(** [(sh || []).forEach(walk)] *)
Definition collect (sh : option json) : Exc (list Row) :=
  if negb (jtruthy sh) then Ok []
  else
    match sh with
    | Some (JsArr items) => walk (JsArr items)
    | _ => Throw "(sh || []).forEach is not a function"
    end.

(** One turn of the loop over [out]: [seen] is the [Map], its rows in the
    order their keys were first set. *)
Fixpoint setSeen (o : Row) (seen : list Row) : list Row :=
  match seen with
  | [] => [o]
  | existing :: rest =>
      if decide (po_output_id existing = po_output_id o) then
        (if jtruthy (Some (po_port o)) && negb (jtruthy (Some (po_port existing)))
         then o else existing) :: rest
      else existing :: setSeen o rest
  end.

Definition dedupe (out : list Row) : list Row :=
  fold_left (fun seen o => setSeen o seen) out [].

(** [parseOutputs(sh)] *)
Definition parseOutputs (sh : option json) : Exc (list Row) :=
  match collect sh with
  | Ok out => Ok (dedupe out)
  | Throw msg => Throw msg
  end.

End Rows.

End ParseOutputs.

(** ** [src/utils/tellyoUtils.js]: [tellyoChannelEndpoint] *)

Module TellyoEndpoint.

(** The [info] that [tellyoBaseInfo] of [src/api/videonApi.js] builds.
    [ti_orgIdNumeric] is [None] where [info.orgIdNumeric] is no number (the
    API methods leave [null] there), [Some None] for [NaN] and [Some (Some n)]
    for the number [n]; [ti_orgId] is a string, or [null]. *)
Record TellyoInfo := mkTellyoInfo {
  ti_base : string;
  ti_version : string;
  ti_orgId : option string;
  ti_orgIdNumeric : option (option Z);
  ti_token : string;
  ti_baseV1 : string;
  ti_baseV2 : string
}.

Record Endpoint := mkEndpoint {
  ep_url : string;
  ep_method : string
}.

(** [!!channelId && channelId !== '0' && channelId !== 'new'] *)
Definition isEdit (channelId : jsval) : bool :=
  truthy channelId && negb (seq channelId (JStr "0")) && negb (seq channelId (JStr "new")).

(** A number in a template literal; [None] is [NaN]. *)
Definition showNumber (n : option Z) : string :=
  match n with
  | Some n => showZ n
  | None => "NaN"
  end.

(** [tellyoChannelEndpoint(info, channelId)].  [orgNumeric] is [Some] of a
    number ([None] inside it is [NaN], which [parseInt] returns where it
    reads no number); [None] stands for the [null] or [undefined] that the
    test [orgNumeric == null] looks for. *)
Definition tellyoChannelEndpoint (info : TellyoInfo) (channelId : jsval) : Exc Endpoint :=
  if negb (strTruthy (ti_orgId info)) then
    Throw "Set the Tellyo organization ID in Settings."
  else
    let isEdit := isEdit channelId in
    let toNumericOrg (id : option string) : option Z :=
      parseInt10 (match id with Some s => JStr s | None => JUndef end) in
    let orgNumeric : option (option Z) :=
      match ti_orgIdNumeric info with
      | Some n => Some n
      | None => Some (toNumericOrg (ti_orgId info))
      end in
    match orgNumeric with
    | Some n =>
        if String.eqb (ti_version info) "v1" then
          let baseV1 := if String.eqb (ti_baseV1 info) "" then ti_base info
                        else ti_baseV1 info in
          Ok (mkEndpoint (baseV1 +:+ "/channel/" +:+ (if isEdit then "edit" else "add"))
                "POST")
        else
          let suffix := if isEdit then "/" +:+ toStr channelId else "" in
          Ok (mkEndpoint
                (ti_baseV2 info +:+ "/organizations/" +:+ showNumber n +:+ "/channels"
                 +:+ suffix)
                (if isEdit then "PUT" else "POST"))
    | None =>
        let baseV1 := if String.eqb (ti_baseV1 info) "" then ti_base info
                      else ti_baseV1 info in
        Ok (mkEndpoint (baseV1 +:+ "/channel/" +:+ (if isEdit then "edit" else "add"))
              "POST")
    end.

End TellyoEndpoint.

(** ** [src/api/videonApi.js]: the answer of an external request *)

Module VideonApi.

(** What [fetch] resolved to: [res.ok], [res.status], [res.statusText], the
    [content-type] header and the outcome of [res.text()]. *)
Record Response := mkResponse {
  res_ok : bool;
  res_status : Z;
  res_statusText : string;
  res_contentType : option string;
  res_text : Exc string
}.

Inductive Body :=
| BodyText (text : string)
| BodyJson (data : json).

(** [s || d] on strings *)
Definition orText (s d : string) : string := if String.eqb s "" then d else s.

(** [await res.text().catch(() => '')] *)
Definition textBodyOf (res : Response) : string :=
  match res_text res with Ok t => t | Throw _ => "" end.

(** [`${res.status} ${res.statusText}`] *)
Definition statusLine (res : Response) : string :=
  showZ (res_status res) +:+ " " +:+ res_statusText res.

(** The message of [new Error(data?.error || data?.message || line)]. *)
Definition errorMessage (data : json) (line : string) : string :=
  match vor (optProp "error" (Some data)) (optProp "message" (Some data)) with
  | Some v => if jtruthy (Some v) then Json.toString v else line
  | None => line
  end.

Section ExternalRequest.

(** [JSON.parse] *)
Variable parse : string -> Exc json.

(** [externalRequest(url, options)] from the point where [fetch] has
    resolved to [res]. *)
Definition externalRequest (res : Response) (expectJson : bool) : Exc Body :=
  let contentType := strOr (res_contentType res) "" in
  let textBody := textBodyOf res in
  if negb (res_ok res) then
    if includes contentType "application/json" then
      match
        match parse (orText textBody "{}") with
        | Ok data => Throw (errorMessage data (statusLine res))
        | Throw msg => Throw msg
        end
      with
      | Ok body => Ok body
      | Throw _ => Throw (orText textBody (statusLine res))
      end
    else Throw (orText textBody (statusLine res))
  else if negb expectJson then Ok (BodyText textBody)
  else if includes contentType "application/json" then
    if String.eqb textBody "" then Ok (BodyJson (JsObj []))
    else
      match parse textBody with
      | Ok data => Ok (BodyJson data)
      | Throw msg => Throw msg
      end
  else
    let looksLikeJson :=
      negb (String.eqb textBody "")
      && (startsWith (trim textBody) "{" || startsWith (trim textBody) "[") in
    match (if looksLikeJson then parse textBody else Throw "") with
    | Ok data => Ok (BodyJson data)
    | Throw _ =>
        if String.eqb textBody "" then Ok (BodyJson (JsObj []))
        else Throw "Unexpected response from external request"
    end.

End ExternalRequest.

Section Videon.

(** [JSON.parse], as [r.json()] applies it to the body *)
Variable parse : string -> Exc json.

(** [vx(url, options)] from the point where [fetch] has resolved to [r]. *)
Definition vx (r : Response) : Exc json :=
  if negb (res_ok r) then
    Throw (showZ (res_status r) +:+ " " +:+ orText (textBodyOf r) (res_statusText r))
  else if includes (strOr (res_contentType r) "") "application/json" then
    match res_text r with
    | Ok text => parse text
    | Throw msg => Throw msg
    end
  else Ok (JsObj []).

(** [API.deviceShadows(jwt, orgGuid, id)]: [fetched] is what [fetch]
    settled to, a response or a rejection.  [demo] is
    [demoOutputsShadow()]. *)
Definition deviceShadows (demo : json) (fetched : Exc Response) : json :=
  match (match fetched with Ok r => vx r | Throw msg => Throw msg end) with
  | Ok sh => sh
  | Throw _ => JsObj [("shadows", demo)]
  end.

End Videon.

End VideonApi.

(** ** [src/components/Detail.jsx]: the rows of the outputs table *)

Module DetailRows.

(** [parseOutputs(sh?.shadows || sh)], the rows that the detail view shows
    and that [confirmOutputsState] checks; [+o.output_id] read by
    [numberOf]. *)
Definition rowsOfShadows (sh : json) : Exc (list ParseOutputs.Row) :=
  ParseOutputs.parseOutputs numberOf (vor (optProp "shadows" (Some sh)) (Some sh)).

(** [mapped]: every output intent of the selected profile with the id and
    the state of the first row of the same name; of a mapped row the
    handlers read [matchId] and [enabled]. *)
Definition mapped (cur : option Profile) (outs : list OutRow) : list Detail.MappedRow :=
  match cur with
  | None => []
  | Some c =>
      List.map
        (fun p =>
           let found := List.find (fun o => optStrEq (name p) (r_name o)) outs in
           Detail.mkMappedRow
             (match found with Some o => JNum (r_output_id o) | None => JUndef end)
             (r_enabled <$> found))
        (p_outputs c)
  end.

End DetailRows.

(** ** [src/App.jsx]: the settings kept in the browser *)

Module AppSettings.

(** [localStorage] and [sessionStorage]: strings under string keys. *)
Abbreviation Storage := (gmap string string).

(** The settings are what [initialSettings], the load below and the
    Settings form make them: the secrets and the fields of [tellyo] and
    [cloudport] are whatever the stored JSON held, strings in the form. *)
Record TellyoPrefs := mkTellyoPrefs {
  tl_apiEndpoint : json;
  tl_apiVersion : json;
  tl_organizationId : json;
  tl_token : json
}.

Record CloudportPrefs := mkCloudportPrefs {
  cl_release : json;
  cl_baseHost : json;
  cl_userAuthToken : json
}.

Record Settings := mkSettings {
  s_jwt : json;
  s_orgGuid : string;
  s_base : string;
  s_bearer : json;
  s_safeMode : bool;
  s_bypassVideonError : bool;
  s_rememberSecrets : bool;
  s_pollRate : Z;
  s_accent : string;
  s_tellyo : TellyoPrefs;
  s_cloudport : CloudportPrefs
}.

Definition initialSettings : Settings :=
  {| s_jwt := JsStr "";
     s_orgGuid := "";
     s_base := "";
     s_bearer := JsStr "";
     s_safeMode := false;
     s_bypassVideonError := false;
     s_rememberSecrets := true;
     s_pollRate := 50000;
     s_accent := "#f97316";
     s_tellyo := mkTellyoPrefs (JsStr "") (JsStr "v2") (JsStr "") (JsStr "");
     s_cloudport := mkCloudportPrefs (JsStr "CP_3.31.x+") (JsStr "") (JsStr "") |}.

(** The objects handed to [JSON.stringify]. *)
Definition tellyoJson (t : TellyoPrefs) : json :=
  JsObj [("apiEndpoint", tl_apiEndpoint t); ("apiVersion", tl_apiVersion t);
         ("organizationId", tl_organizationId t); ("token", tl_token t)].

Definition cloudportJson (c : CloudportPrefs) : json :=
  JsObj [("release", cl_release c); ("baseHost", cl_baseHost c);
         ("userAuthToken", cl_userAuthToken c)].

Definition sessionJson (s : Settings) : json :=
  JsObj [("jwt", s_jwt s); ("bearer", s_bearer s);
         ("tellyoToken", tl_token (s_tellyo s));
         ("cloudportToken", cl_userAuthToken (s_cloudport s))].

(** [{ ...tellyo, token: "" }] and [{ ...cloudport, userAuthToken: "" }] *)
Definition withoutToken (t : TellyoPrefs) : TellyoPrefs :=
  mkTellyoPrefs (tl_apiEndpoint t) (tl_apiVersion t) (tl_organizationId t) (JsStr "").

Definition withoutAuthToken (c : CloudportPrefs) : CloudportPrefs :=
  mkCloudportPrefs (cl_release c) (cl_baseHost c) (JsStr "").

(** [storage.getItem(k)]: a string, or [null]. *)
Definition getItem (st : Storage) (k : string) : option json :=
  Some (match st !! k with Some v => JsStr v | None => JsNull end).

(** What the load effect hands to [setSettings], to [setProfiles] (if it
    calls it) and whether it calls [setCompact(true)]. *)
Record Loaded := mkLoaded {
  ld_settings : Settings;
  ld_profiles : option json;
  ld_compact : bool
}.

Definition showBool (b : bool) : string := if b then "true" else "false".

Section Effects.

(** [JSON.parse] and [JSON.stringify] *)
Variable parse : string -> Exc json.
Variable stringify : json -> string.

(** [JSON.parse(text)] followed by the reading of a property: [null] has
    none. *)
Definition parseObject (text : string) : Exc json :=
  match parse text with
  | Ok JsNull => Throw "Cannot read properties of null"
  | r => r
  end.

Definition loadTellyo (remember : bool) (sess : json) (ls : Storage) : Exc TellyoPrefs :=
  if strTruthy (ls !! "lec.tellyo") then
    match parseObject (default "" (ls !! "lec.tellyo")) with
    | Throw msg => Throw msg
    | Ok parsed =>
        Ok {| tl_apiEndpoint :=
                orElse (vor (prop "apiEndpoint" parsed) (prop "base" parsed)) (JsStr "");
              tl_apiVersion :=
                orElse (vor (prop "apiVersion" parsed) (prop "version" parsed)) (JsStr "v2");
              tl_organizationId :=
                match prop "organizationId" parsed with
                | None | Some JsNull => JsStr ""
                | Some v => JsStr (Json.toString v)
                end;
              tl_token :=
                orElse (vor (prop "tellyoToken" sess)
                          (if remember then prop "token" parsed else Some (JsStr "")))
                  (JsStr "") |}
    end
  else Ok (s_tellyo initialSettings).

Definition loadCloudport (remember : bool) (sess : json) (ls : Storage)
  : Exc CloudportPrefs :=
  if strTruthy (ls !! "lec.cloudport") then
    match parseObject (default "" (ls !! "lec.cloudport")) with
    | Throw msg => Throw msg
    | Ok parsed =>
        Ok {| cl_release :=
                orElse (vor (prop "release" parsed) (prop "version" parsed))
                  (JsStr "CP_3.31.x+");
              cl_baseHost :=
                orElse (vor (prop "baseHost" parsed) (prop "base" parsed)) (JsStr "");
              cl_userAuthToken :=
                orElse (vor (prop "cloudportToken" sess)
                          (if remember then prop "userAuthToken" parsed
                           else Some (JsStr "")))
                  (JsStr "") |}
    end
  else Ok (s_cloudport initialSettings).

(** The body of the [try] of the load effect; a throw is caught and leaves
    the state as it was. *)
Definition load (ls ss : Storage) : Exc Loaded :=
  let remember := bool_decide (ls !! "lec.remember" = Some "1") in
  match parseObject (strOr (ss !! "lec.session") "{}") with
  | Throw msg => Throw msg
  | Ok sess =>
      let jwt :=
        orElse (vor (prop "jwt" sess)
                  (if remember then getItem ls "lec.jwt" else Some (JsStr "")))
          (JsStr "") in
      let bearer :=
        orElse (vor (prop "bearer" sess)
                  (if remember then getItem ls "lec.cfgBearer" else Some (JsStr "")))
          (JsStr "") in
      match loadTellyo remember sess ls with
      | Throw msg => Throw msg
      | Ok tellyo =>
          match loadCloudport remember sess ls with
          | Throw msg => Throw msg
          | Ok cloudport =>
              let loaded :=
                {| s_jwt := jwt;
                   s_orgGuid := strOr (ls !! "lec.org") "";
                   s_base := strOr (ls !! "lec.base") "";
                   s_bearer := bearer;
                   s_safeMode := negb (bool_decide (ls !! "lec.safeMode" = Some "0"));
                   s_bypassVideonError :=
                     bool_decide (ls !! "lec.bypassVideonError" = Some "true");
                   s_rememberSecrets := remember;
                   s_pollRate :=
                     numOr (match ls !! "lec.pollRate" with
                            | Some v => toNumber (JStr v)
                            | None => Some 0
                            end) 5000;
                   s_accent := strOr (ls !! "lec.accent") "#f97316";
                   s_tellyo := tellyo;
                   s_cloudport := cloudport |} in
              let compact := bool_decide (ls !! "lec.compact" = Some "1") in
              if strTruthy (ls !! "lec.profiles") then
                match parse (default "" (ls !! "lec.profiles")) with
                | Throw msg => Throw msg
                | Ok profiles => Ok (mkLoaded loaded (Some profiles) compact)
                end
              else Ok (mkLoaded loaded None compact)
          end
      end
  end.

(** The persist effect for the state [settings], [compact] and [profiles]:
    the two storages after it.  The storage is taken to accept every
    write. *)
Definition persist (settings : Settings) (compact : bool) (profiles : json)
    (ls ss : Storage) : Storage * Storage :=
  let ls := <["lec.remember" := if s_rememberSecrets settings then "1" else "0"]> ls in
  (* for (const k in rest) localStorage.setItem(`lec.${k}`, rest[k]) *)
  let ls := <["lec.jwt" := Json.toString (s_jwt settings)]> ls in
  let ls := <["lec.orgGuid" := s_orgGuid settings]> ls in
  let ls := <["lec.base" := s_base settings]> ls in
  let ls := <["lec.bearer" := Json.toString (s_bearer settings)]> ls in
  let ls := <["lec.safeMode" := showBool (s_safeMode settings)]> ls in
  let ls := <["lec.bypassVideonError" := showBool (s_bypassVideonError settings)]> ls in
  let ls := <["lec.pollRate" := showZ (s_pollRate settings)]> ls in
  let ls := <["lec.accent" := s_accent settings]> ls in
  let ls := <["lec.tellyo" := stringify (tellyoJson (withoutToken (s_tellyo settings)))]> ls in
  let ls :=
    <["lec.cloudport" :=
        stringify (cloudportJson (withoutAuthToken (s_cloudport settings)))]> ls in
  let ls :=
    if s_rememberSecrets settings then
      <["lec.cloudport" := stringify (cloudportJson (s_cloudport settings))]>
        (<["lec.tellyo" := stringify (tellyoJson (s_tellyo settings))]>
           (<["lec.cfgBearer" := Json.toString (s_bearer settings)]>
              (<["lec.jwt" := Json.toString (s_jwt settings)]> ls)))
    else delete "lec.cfgBearer" (delete "lec.jwt" ls) in
  let ss := <["lec.session" := stringify (sessionJson settings)]> ss in
  let ls := <["lec.compact" := if compact then "1" else "0"]> ls in
  let ls := <["lec.profiles" := stringify profiles]> ls in
  (ls, ss).

End Effects.

End AppSettings.

(** * Vocabulary of the statements, and sample data *)

Module Fixtures.
Import Detail.

(** Every output intent targets one of the two delivery platforms. *)
Definition allPlatform (outs : list Output) : Prop :=
  Forall (fun o : Output => isPlatform (target o) = true) outs.

Definition rangeError : string := "Port range exhausted (10001-10100)".

(** The working copy after a successful pre-assignment: the [k]-th output
    carries port [c + k]. *)
Definition assigned (c : Z) (outs : list Output) : list Output :=
  zip_with (fun o p => setTempPort o (Some p)) outs (seqZ c (Z.of_nat (length outs))).

(** Every port of the range in use: one channel per port 10006..10100. *)
Definition exhausted : list Channel :=
  List.map (fun p => mkChannel (JNum p) (Some ("ch" +:+ showZ p))
                       (Some (srtUrl "198.51.100.9" p)))
    (seqZ PORT_MIN 95).


(** *** The two shapes of a reported state *)

(** The same shadow with its state reported as an array of the same entries
    in the same order. *)
Definition arrayShaped (s : Shadow) : Shadow :=
  mkShadow (shadow_name s) (current_version s) (version s)
    ((fun st => StArray (stateItems st)) <$> reported_state s).

(** *** Downstream configuration *)

(** Running [m] from any state leaves the part [proj] of the browser state
    as it was, whether [m] ends normally or throws. *)
Definition keeps {W A X} (proj : UI -> X) (m : M W A) : Prop :=
  forall s, proj (ui (snd (m s))) = proj (ui s).

(** Running [m] from any state only adds events that satisfy [P] to the
    log. *)
Definition emits {W A} (P : Event -> bool) (m : M W A) : Prop :=
  forall s, exists l,
    log (snd (m s)) = (log s ++ l)%list /\ Forall (fun e => P e = true) l.

(** The calls and waits of the device part: shadow reads, shadow writes and
    sleeps. *)
Definition isDeviceStep (e : Event) : bool :=
  match e with
  | EvDeviceShadows | EvSetDeviceShadows _ _ _ | EvSleep _ => true
  | _ => false
  end.

(** The events a run added to the log. *)
Definition added {W} (s s' : St W) (l : list Event) : Prop :=
  log s' = (log s ++ l)%list.

Definition isCreate (e : Event) : bool :=
  match e with
  | EvTellyoCreateChannel _ | EvCloudportCreate _ => true
  | _ => false
  end.

(** The Tellyo profile name is set in the profile (the payload can be
    built). *)
Definition tellyoProfileSet (cur : Profile) : bool :=
  strTruthy (p_tellyo cur ≫= (fun t => tc_profile (t_config t))).

(** The first output of the working copy with target [t] carries the
    provisional port [port]. *)
Definition firstPort (t : string) (newOutputs : list Output) (port : Z) : Prop :=
  exists out rest,
    List.filter (isTarget t) newOutputs = out :: rest
    /\ _tempPort out = Some port /\ port <> 0.

(** The ingest payload of a run of the orchestrator. *)
Definition ingestPayloadFor (accountDomainOf : string -> string) (props : Props)
    (cur : Profile) (port : Z) : IngestPayload :=
  ingestPayloadOf cur (cloudportOf cur) (ingestLabelOf cur)
    (accountDomainOf (baseHostOf props))
    (Some (streamUrlOf (deviceIpOf props) port)) (c_alwaysOn (cloudportOf cur)).

(** *** Restart and safe mode *)

(** The entries of a shadow's reported state, in either shape. *)
Definition shadowEntries (s : Shadow) : list Entry :=
  match reported_state s with
  | Some st => stateItems st
  | None => []
  end.

(** No event of the list is a write. *)
Definition noWrite (l : list Event) : Prop := Forall (fun e => isWrite e = false) l.

(** [s'] is [s] after a handler that was blocked: the outside world, the
    profiles and the pending confirmation are as they were, and the only
    thing logged, if anything, is the signal to the write-blocked handler. *)
Definition blocked {W} (signalled : bool) (s s' : St W) : Prop :=
  world s' = world s
  /\ ui_profiles (ui s') = ui_profiles (ui s)
  /\ ui_confirmData (ui s') = ui_confirmData (ui s)
  /\ log s' = (log s ++ if signalled then [EvWriteBlocked] else [])%list.

(** A profile is selected. *)
Definition hasProfile (props : Props) : bool :=
  match cur props with Some _ => true | None => false end.

(** A profile is selected and remembers a Tellyo channel id / an ingest id. *)
Definition hasChannel (props : Props) : bool :=
  match cur props with Some c => truthy (lastChannelIdOf c) | None => false end.

Definition hasIngest (props : Props) : bool :=
  match cur props with Some c => truthy (lastIngestIdOf c) | None => false end.

(** *** Output verification *)

(** The provisional port under which an output intent is entered in the port
    map: platform intents only. *)
Definition keyOf (o : Output) : option Z :=
  if isPlatform (target o) then _tempPort o else None.

(** [ro] is reported as an srt output on the (non-zero) port [p]. *)
Definition reportsPort (p : Z) (ro : Entry) : bool :=
  optStrEq (roTypeOf ro) "srt" && bool_decide (roPortOf ro = Some p) && negb (p =? 0).

(** The intent [o] once the reported entries [hits] were matched to it one
    after the other: it remembers the id of the last one. *)
Definition withLastId (o : Output) (hits : list Entry) : Output :=
  match last hits with
  | Some ro => setVideonId o (streamIdOf ro)
  | None => o
  end.

(** *** Encoder verification *)

(** The id found by name among the encoders read back. *)
Definition idByName (shadows2 : list Shadow) (nm : string) : jsval :=
  idOfFound (List.find (hasName nm) (getItems shadows2 "Encoders")).

(** [e] is the first encoder of [kind] read back whose id was not among the
    ids [pre] of that kind seen before the write. *)
Definition firstNew (kind : string) (pre : gset jsval) (shadows2 : list Shadow)
    (e : option Entry) : Prop :=
  List.find (fun x => isKind kind x && negb (bool_decide (e_id x ∈ pre)))
    (getItems shadows2 "Encoders") = e.

(** *** Confirmation polling *)

(** The world after [k] shadow reads, and the answer to the read after
    those (reads are counted from 0). *)
Fixpoint afterReads {W} (be : Backend W) (w : W) (k : nat) : W :=
  match k with
  | O => w
  | S k' => afterReads be (snd (beDeviceShadows be w)) k'
  end.

Definition nthRead {W} (be : Backend W) (w : W) (k : nat) : ShadowsRes :=
  fst (beDeviceShadows be (afterReads be w k)).

(** The verdict of the predicate on the rows parsed from read [k]. *)
Definition seenAt {W} (be : Backend W) (parseOutputs : ShadowsRes -> list OutRow)
    (check : list OutRow -> bool) (w : W) (k : nat) : bool :=
  check (parseOutputs (nthRead be w k)).

(** One wait and one read per delay. *)
Definition polls (delays : list Z) : list Event :=
  flat_map (fun d => [EvSleep d; EvDeviceShadows]) delays.

(** The number of waits in a log. *)
Definition waits (l : list Event) : nat :=
  length (List.filter (fun e => match e with EvSleep _ => true | _ => false end) l).

(** *** The course of [handleConfigure] *)

(** The state once the handler has reset its progress list and statuses. *)
Definition initConfigure {W} (s : St W) : St W :=
  updateS (setTellyoStatus (status "pending" "Waiting for Videon..."))
    (updateS (setCloudStatus (status "pending" "Waiting for Videon..."))
       (updateS (setToast "Configuring endpoints...")
          (updateS (setErr "")
             (updateS (setConfigSteps (fun _ =>
                         Some [mkConfigStep "Initializing configuration..." "running" None]))
                (updateS (setIpModalOpen false) s))))).

(** The state the [catch] of the device part leaves, with and without
    bypass. *)
Definition bypassed {W} (e : string) (s : St W) : St W :=
  updateS (setErr ("Videon config failed (Bypassed): " +:+ errText e)) s.

Definition failed {W} (e : string) (s : St W) : St W :=
  updateS (setTellyoStatus (status "idle" ""))
    (updateS (setCloudStatus (status "idle" ""))
       (updateS (failStep (errText e))
          (updateS (setErr ("Videon config failed: " +:+ errText e)) s))).

(** From world [w] the device answers the first read with [shadows],
    accepts the Encoders write built from them, and answers the next read
    with [shadows2], leaving world [w3]. *)
Definition encodersWritten {W} (be : Backend W) (cur : Profile) (w : W)
    (shadows shadows2 : list Shadow) (w3 : W) : Prop :=
  shadowsOf "shadows" (nthRead be w 0) = Ok shadows
  /\ exists w2,
       beShadowCommand be "Encoders" (versionOf (getShadow shadows "Encoders"))
         (nextEncodersOf cur shadows) (afterReads be w 1) = (Ok tt, w2)
       /\ shadowsOf "shadows2" (fst (beDeviceShadows be w2)) = Ok shadows2
       /\ snd (beDeviceShadows be w2) = w3.

(** What the handler has called when it stops at VerifyEncoders. *)
Definition upToVerifyEncoders (cur : Profile) (shadows : list Shadow) : list Event :=
  [EvDeviceShadows;
   EvSetDeviceShadows "Encoders" (versionOf (getShadow shadows "Encoders"))
     (nextEncodersOf cur shadows);
   EvSleep 20000;
   EvDeviceShadows].

(** *** A scripted outside world

    The device answers its shadow reads from a list; the two registries keep
    their channels and ingests; [sw_reject] makes the device refuse every
    write, [sw_tellyoDown] makes the Tellyo listing fail. *)
Record ScriptW := mkScriptW {
  sw_reads : list ShadowsRes;
  sw_channels : list Channel;
  sw_ingests : list Ingest;
  sw_reject : bool;
  sw_tellyoDown : bool
}.

Definition deviceAnswer {A} (a : A) (w : ScriptW) : Exc A * ScriptW :=
  (if sw_reject w then Throw "503 Service Unavailable" else Ok a, w).

Definition scripted : Backend ScriptW :=
  {| beDeviceShadows w :=
       match sw_reads w with
       | r :: tl =>
           (r, mkScriptW tl (sw_channels w) (sw_ingests w) (sw_reject w) (sw_tellyoDown w))
       | [] => (ResBare (SlArray []), w)
       end;
     beShadowCommand _ _ _ := deviceAnswer tt;
     bePostOutputs _ _ := deviceAnswer tt;
     bePostCommand _ := deviceAnswer tt;
     beRenameDevice _ := deviceAnswer tt;
     beTellyoListChannels w :=
       (if sw_tellyoDown w then Throw "502 Bad Gateway" else Ok (sw_channels w), w);
     beTellyoUpdateChannel _ _ w := (Ok tt, w);
     beTellyoCreateChannel pl w :=
       let c := mkChannel (JNum (Z.of_nat (length (sw_channels w)) + 1))
                  (pl_name pl) (Some (pl_streamUrl pl)) in
       (Ok (Some c),
        mkScriptW (sw_reads w) (sw_channels w ++ [c])%list (sw_ingests w)
          (sw_reject w) (sw_tellyoDown w));
     beTellyoDeleteChannel _ w := (Ok tt, w);
     beCloudportList _ w := (Ok (sw_ingests w), w);
     beCloudportPut _ _ w := (Ok tt, w);
     beCloudportPost pl w :=
       let i := mkIngest (JNum (Z.of_nat (length (sw_ingests w)) + 1)) JUndef
                  (Some (ip_ingest_label pl)) None None in
       (Ok (mkCreateRes (in_id i) None),
        mkScriptW (sw_reads w) (sw_channels w) (sw_ingests w ++ [i])%list
          (sw_reject w) (sw_tellyoDown w));
     beCloudportDeleteReq _ w := (Ok tt, w) |}.

Definition initialUI (profiles : list Profile) : UI :=
  mkUI "" None "" (status "idle" "") (status "idle" "") None profiles false None [] [].

Definition start (w : ScriptW) (profiles : list Profile) : St ScriptW :=
  mkSt w (initialUI profiles) [].

(** *** A profile and a device *)

Definition manyOutputs : list Output :=
  repeat (mkOutput "Tellyo Studio" None JUndef None) 101.

Definition tellyoOutput : Output := mkOutput "Tellyo Studio" (Some "main") JUndef None.
Definition cloudportOutput : Output := mkOutput "Amagi CLOUDPORT" None JUndef None.

Definition studioA (outs : list Output) : Profile :=
  mkProfile (JStr "p1") (Some "Studio-A")
    (Some (mkEncoderSettings
             (Some (mkVideoEnc (Some "h264") (Some 6000) (Some "CBR") None None
                      None None None false false None))
             (Some (mkAudioEnc (Some "aac") None (Some 48000) (JStr "stereo")))))
    outs
    (Some (mkTellyoCfg
             (mkTellyoConfig None (Some "live-1080") JUndef false JUndef None)
             JUndef None))
    None.

Definition sampleProps (safe bypass : bool) (cur : option Profile) : Props :=
  mkProps (mkDevice "edge-tx-a23" (Some "Edge TX A23") (Some "203.0.113.7") None)
    safe bypass
    (Some (mkCloudportSettings (Some "acme.cloudport.example") (Some "secret")))
    (Some (mkTellyoSettings (Some "https://tellyo.example/api") (Some "token")))
    None "" "" cur.

(** Shadow entries and shadows as the device reports them. *)
Definition reportedEntry (id : Z) (type nm : option string) (port : option Z) : Entry :=
  mkEntry (JNum id) JUndef JUndef type nm
    (Some (mkEntryConfig None None None port BodyReported)) None.

Definition shadowOf (nm : string) (v : Z) (st : ShadowState) : Shadow :=
  mkShadow (Some nm) (Some v) None (Some st).

(** The device of the example scenario: one input, no encoder, no output;
    then the two encoders; then the listener on port 10001, reported as an
    array ([readOutputs]) or as a map ([readOutputsMap]). *)
Definition readEmpty : ShadowsRes :=
  ResWrapped (SlArray
    [shadowOf "Inputs" 3 (StArray [reportedEntry 1 None None None]);
     shadowOf "Encoders" 4 (StArray []);
     shadowOf "Outputs" 5 (StArray [])]).

Definition encodersCreated : ShadowState :=
  StArray [reportedEntry 10 (Some "video") (Some "Studio-A_video") None;
           reportedEntry 11 (Some "audio") (Some "Studio-A_audio") None].

Definition readEncoders : ShadowsRes :=
  ResWrapped (SlArray
    [shadowOf "Inputs" 3 (StArray [reportedEntry 1 None None None]);
     shadowOf "Encoders" 5 encodersCreated;
     shadowOf "Outputs" 5 (StArray [])]).

(** A device that already had a video encoder (id 5) and reports the new
    video encoder under a name of its own. *)
Definition shadowsBefore : list Shadow :=
  [shadowOf "Encoders" 4 (StArray [reportedEntry 5 (Some "video") (Some "old") None])].

Definition shadowsRenamed : list Shadow :=
  [shadowOf "Encoders" 5
     (StObject [("a", reportedEntry 5 (Some "video") (Some "old") None);
                ("b", reportedEntry 12 (Some "video") (Some "encoder-12") None);
                ("c", reportedEntry 13 (Some "audio") (Some "Studio-A_audio") None)])].

Definition shadowsEmpty : list Shadow :=
  [shadowOf "Inputs" 3 (StArray [reportedEntry 1 None None None]);
   shadowOf "Encoders" 4 (StArray []);
   shadowOf "Outputs" 5 (StArray [])].

Definition listener20 : Entry := reportedEntry 20 (Some "srt") None (Some 10001).

Definition readOutputs : ShadowsRes :=
  ResWrapped (SlArray [shadowOf "Outputs" 6 (StArray [listener20])]).

Definition readOutputsMap : ShadowsRes :=
  ResWrapped (SlArray [shadowOf "Outputs" 6 (StObject [("20", listener20)])]).

Definition deviceWorld (reads : list ShadowsRes) : ScriptW :=
  mkScriptW reads [] [] false false.

(** A stand-in for [parseOutputs]: one row per entry of the Outputs shadow. *)
Definition rowsOf (res : ShadowsRes) : list OutRow :=
  match outputsShadowOf res with
  | Some s =>
      List.map (fun e => mkOutRow (match e_id e with JNum n => n | _ => 0 end) ""
                           (isEnabled e))
        (match reported_state s with Some st => stateItems st | None => [] end)
  | None => []
  end.

Definition outputRead (enable : bool) : ShadowsRes :=
  ResWrapped (SlArray
    [shadowOf "Outputs" 6
       (StArray [mkEntry (JNum 20) JUndef (JNum 20) (Some "srt") None
                   (Some (mkEntryConfig None None (Some enable) (Some 10001) BodyReported))
                   None])]).

(** [list => { const o = list.find(x => x.output_id === 20); return !!o &&
    o.enabled === true }] *)
Definition isOn20 (list : list OutRow) : bool :=
  match List.find (fun x => seq (JNum (r_output_id x)) (JNum 20)) list with
  | Some o => Bool.eqb (r_enabled o) true
  | None => false
  end.

(** A device that refuses every write. *)
Definition refusing : ScriptW := mkScriptW [readEmpty] [] [] true false.

(** A stand-in for the account domain of the CLOUDPORT host. *)
Definition firstLabel (host : string) : string := "acme".

(** The example scenario run to its end against a device that answers the
    three shadow reads with [reads]. *)
Definition exampleProfile : Profile := studioA [tellyoOutput].

Definition exampleRun (reads : list ShadowsRes) : St ScriptW :=
  snd (handleConfigure scripted firstLabel 1700000000
         (sampleProps false false (Some exampleProfile))
         (start (deviceWorld reads) [exampleProfile])).

(** The device ids the profiles remember for their outputs. *)
Definition remembered (s : St ScriptW) : list jsval :=
  flat_map (fun p => List.map videonId (p_outputs p)) (ui_profiles (ui s)).


(** The orchestrator run a second time against the same device: the state
    the first run of the example left, the profile as the first run stored
    it, and the device answering as before. *)
Definition firstRun : St ScriptW := exampleRun [readEmpty; readEncoders; readOutputs].

Definition storedProfile : Profile := default exampleProfile (head (ui_profiles (ui firstRun))).

Definition secondStart : St ScriptW :=
  mkSt (mkScriptW [readEncoders; readEncoders; readOutputs]
          (sw_channels (world firstRun)) (sw_ingests (world firstRun)) false false)
       (ui firstRun) [].

Definition secondProps : Props := sampleProps false false (Some storedProfile).

Definition secondRun : St ScriptW :=
  snd (handleConfigure scripted firstLabel 1700000000 secondProps secondStart).

(** The channel the first run created. *)
Definition createdChannel : Channel :=
  mkChannel (JNum 1) (Some "studio-a") (Some "srt://203.0.113.7:10001").

End Fixtures.
Import Fixtures.

(** * Vocabulary of the further statements, and sample data *)

Module Cases.
Import Detail.

(** *** Stream URLs *)

(** The character [c] occurs in [s]. *)
Fixpoint hasChar (c : ascii) (s : string) : bool :=
  match s with
  | String x rest => Ascii.eqb x c || hasChar c rest
  | EmptyString => false
  end.

(** The value of a run of decimal digits read from the left, [acc] being the
    value of the digits already read. *)
Fixpoint uintVal (d : Decimal.uint) (acc : Z) : Z :=
  match d with
  | Decimal.Nil => acc
  | Decimal.D0 l => uintVal l (10 * acc)
  | Decimal.D1 l => uintVal l (10 * acc + 1)
  | Decimal.D2 l => uintVal l (10 * acc + 2)
  | Decimal.D3 l => uintVal l (10 * acc + 3)
  | Decimal.D4 l => uintVal l (10 * acc + 4)
  | Decimal.D5 l => uintVal l (10 * acc + 5)
  | Decimal.D6 l => uintVal l (10 * acc + 6)
  | Decimal.D7 l => uintVal l (10 * acc + 7)
  | Decimal.D8 l => uintVal l (10 * acc + 8)
  | Decimal.D9 l => uintVal l (10 * acc + 9)
  end.

(** [s] is empty or begins with a character that is not a digit. *)
Definition noDigitAhead (s : string) : bool :=
  match s with
  | String c _ => negb (isDigit c)
  | EmptyString => true
  end.

(** The listing [chans'] holds the channels of [chans] and the channel [c],
    in any order. *)
Definition listedWith (c : Channel) (chans chans' : list Channel) : Prop :=
  forall x, In x chans' <-> x = c \/ In x chans.

(** A channel on port 10042, and the channel created next on the device of
    the example. *)
Definition channel42 : Channel :=
  mkChannel (JNum 7) (Some "a") (Some "srt://198.51.100.9:10042").

Definition channel43 : Channel :=
  mkChannel (JNum 8) (Some "b") (Some (getSrtUrl (Some "203.0.113.7") [channel42] JUndef)).

(** The header names a scheme. *)
Definition hasScheme (h : string) : bool :=
  startsWith h "PAT " || startsWith h "Bearer ".

(** *** Labels *)

(** A character of the class [[a-z0-9_-]]. *)
Definition isSafeChar (c : ascii) : bool :=
  let n := nat_of_ascii c in
  ((97 <=? n)%nat && (n <=? 122)%nat) || isDigit c
  || Ascii.eqb c "_" || Ascii.eqb c "-".

(** Every character of [s] satisfies [p]. *)
Fixpoint allChars (p : ascii -> bool) (s : string) : bool :=
  match s with
  | String c rest => p c && allChars p rest
  | EmptyString => true
  end.

(** The ingest [x] carries the label [label], exactly or up to case. *)
Definition labelled (label : string) (x : Ingest) : bool :=
  optStrEq (ingestLabelField x) label
  || String.eqb (toLowerCase (strOr (ingestLabelField x) "")) (toLowerCase label).

(** *** Handlers of the detail view *)

(** The id the CLOUDPORT delete addresses: the id of the ingest the lookup
    by label returned, else the id the profile remembers. *)
Definition deleteTarget (label : string) (ingests : list Ingest)
    (lastIngestId : jsval) : jsval :=
  jor (match matchIngest label ingests with
       | Some i => ingestIdOf i
       | None => JUndef
       end) lastIngestId.

(** The two writes of a restart: the targets switched off, then on. *)
Definition stopCommand (version : Z) (targets : list Entry) : Event :=
  EvUpdateShadow "Outputs" version (List.map (enableCommand false) targets).

Definition startCommand (version2 : Z) (targets : list Entry) : Event :=
  EvUpdateShadow "Outputs" version2 (List.map (enableCommand true) targets).

(** The version the second write of a restart targets: the one of the
    Outputs shadow read after the wait, else the first one plus one. *)
Definition secondVersion (version : Z) (shRes2 : ShadowsRes) : Z :=
  match outputsShadowOf shRes2 with
  | Some s2 =>
      match current_version s2 with
      | Some v => v
      | None => default (version + 1) (Model.version s2)
      end
  | None => version + 1
  end.

(** The state a toggle asks for, and the test it polls with. *)
Definition wantedOf (it : MappedRow) : bool :=
  negb (bool_decide (enabled it = Some true)).

Definition toggleCheck (id : jsval) (wanted : bool) (list : list OutRow) : bool :=
  match List.find (fun x => seq (JNum (r_output_id x)) id) list with
  | Some o => Bool.eqb (r_enabled o) wanted
  | None => false
  end.

(** The mark the toggle left on the output [id]. *)
Definition markOf (id : jsval) (u : UI) : option (option string) :=
  snd <$> List.find (fun kv => seq (fst kv) id) (ui_opStatus u).

(** The row of the mapped table linked to output 20, shown as off. *)
Definition row20 : MappedRow := mkMappedRow (JNum 20) (Some false).

(** Output 20 as the device reports it while it is on, and the Outputs
    shadow that holds it. *)
Definition enabled20 : Entry :=
  mkEntry (JNum 20) JUndef (JNum 20) (Some "srt") None
    (Some (mkEntryConfig None None (Some true) (Some 10001) BodyReported)) None.

Definition shadow20 : Shadow := shadowOf "Outputs" 6 (StArray [enabled20]).

(** A device that answers two shadow reads with output 20 on. *)
Definition restartStart : St ScriptW :=
  start (deviceWorld [outputRead true; outputRead true]) [].

(** A CLOUDPORT registry whose only ingest carries another label. *)
Definition otherIngest : Ingest := mkIngest (JNum 5) JUndef (Some "lobby") None None.

Definition registryStart : St ScriptW :=
  start (mkScriptW [] [] [otherIngest] false false) [exampleProfile].

(** *** Rows parsed from the shadows *)

(** The row kept for the key [k] among the rows [out] pushed by the walk:
    the first one with that key that has a port and, when none has, the
    first one with that key. *)
Definition chosenRow `{EqDecision K} (k : K) (out : list (ParseOutputs.Row (K := K)))
  : option ParseOutputs.Row :=
  match List.find (fun r => bool_decide (ParseOutputs.po_output_id r = k)
                            && jtruthy (Some (ParseOutputs.po_port r))) out with
  | Some r => Some r
  | None => List.find (fun r => bool_decide (ParseOutputs.po_output_id r = k)) out
  end.

(** *** The states written to the device *)

(** The encoder [e] goes by the name [nm] ([e.config?.name || e.name]). *)
Definition named (nm : string) (e : Entry) : bool := optStrEq (entryName e) nm.

(** The output intent [out] tracks the device output [o]: it remembers an
    id, and [o] goes by it. *)
Definition tracks (out : Output) (o : Entry) : bool :=
  truthy (videonId out) && seq (streamIdOf o) (videonId out).

(** The listener written for the platform intent at position [index]. *)
Definition listenerOf (vidId audId : jsval) (index : nat) (output : Output) : Entry :=
  srtEntry (strOr (name output) (target output +:+ " " +:+ showZ (Z.of_nat index + 1)))
    "" (_tempPort output) "LISTENER" vidId audId.

(** The listeners of a working copy, in its order, [index] being the
    position of its first intent. *)
Fixpoint listenersFrom (vidId audId : jsval) (index : nat) (newOutputs : list Output)
  : list Entry :=
  match newOutputs with
  | [] => []
  | output :: rest =>
      ((if isPlatform (target output) then [listenerOf vidId audId index output] else [])
       ++ listenersFrom vidId audId (S index) rest)%list
  end.

(** The entries the output loop appends: a listener per platform intent
    and, when a manual endpoint is given, a caller per other intent. *)
Fixpoint appendedFrom (manualIp manualPort : string) (vidId audId : jsval)
    (index : nat) (newOutputs : list Output) : list Entry :=
  match newOutputs with
  | [] => []
  | output :: rest =>
      ((if isPlatform (target output) then [listenerOf vidId audId index output]
        else if negb (String.eqb manualIp "") && negb (String.eqb manualPort "")
             then [srtEntry (strOr (name output)
                               ("Manual Output " +:+ showZ (Z.of_nat index + 1)))
                     manualIp
                     ((fun n => n + Z.of_nat index) <$> toNumber (JStr manualPort))
                     "CALLER" vidId audId]
             else [])
       ++ appendedFrom manualIp manualPort vidId audId (S index) rest)%list
  end.

(** *** The progress list *)

Definition running (st : ConfigStep) : bool := String.eqb (step_status st) "running".

(** The progress list is shown and none of its steps is running. *)
Definition settled (steps : option (list ConfigStep)) : Prop :=
  match steps with
  | Some l => Forall (fun st => running st = false) l
  | None => False
  end.

(** The progress list is shown and only its last step may be running. *)
Definition orderly (steps : option (list ConfigStep)) : Prop :=
  match steps with
  | Some l => Forall (fun st => running st = false) (removelast l)
  | None => False
  end.

(** Running [m] from a browser state that satisfies [I] ends in one that
    satisfies [I], whether [m] ends normally or throws. *)
Definition maintains {W A} (I : UI -> Prop) (m : M W A) : Prop :=
  forall s, I (ui s) -> I (ui (snd (m s))).

(** The progress list as [handleConfigure] sets it at its start. *)
Definition initialSteps : list ConfigStep :=
  [mkConfigStep "Initializing configuration..." "running" None].

(** *** Shadows as JSON *)

(** [demoOutputsShadow()] of [src/api/mockData.js] *)
Definition demoOutputsShadow : json :=
  JsArr [JsObj [("Outputs", JsObj [("list", JsArr [
    JsObj [("output_id", JsNum 1); ("name", JsStr "primary"); ("type", JsStr "srt");
           ("enabled", JsBool true)];
    JsObj [("output_id", JsNum 2); ("name", JsStr "backup"); ("type", JsStr "srt");
           ("enabled", JsBool false)]])])]].

(** An Outputs shadow that carries output 1 twice: reported without a port,
    desired with one. *)
Definition reportedTwice : json :=
  JsArr [JsObj [
    ("shadow_name", JsStr "Outputs");
    ("reported", JsObj [("state", JsArr [
       JsObj [("output_id", JsNum 1); ("name", JsStr "primary"); ("type", JsStr "SRT");
              ("enabled", JsBool true)]])]);
    ("desired", JsObj [("state", JsArr [
       JsObj [("output_id", JsNum 1); ("name", JsStr "primary"); ("type", JsStr "srt");
              ("config", JsObj [("destination_port", JsNum 10001)])]])])]].

(** *** Answers of the external APIs *)

(** The answer [res] declares a JSON body. *)
Definition declaresJson (res : VideonApi.Response) : bool :=
  includes (strOr (VideonApi.res_contentType res) "") "application/json".

(** The text, with the white space around it removed, opens an object or an
    array. *)
Definition looksLikeJson (text : string) : bool :=
  startsWith (trim text) "{" || startsWith (trim text) "[".

(** The double quote *)
Definition dq : string := String (Ascii.ascii_of_nat 34) "".

(** The body of a refusal that names its reason in [error]. *)
Definition quotaText : string :=
  "{" +:+ dq +:+ "error" +:+ dq +:+ ":" +:+ dq +:+ "quota exceeded" +:+ dq +:+ "}".

Definition quotaJson : json := JsObj [("error", JsStr "quota exceeded")].

(** A stand-in for [JSON.parse] that reads the sample body and the empty
    object. *)
Definition readsQuota (text : string) : Exc json :=
  if String.eqb text quotaText then Ok quotaJson
  else if String.eqb text "{}" then Ok (JsObj [])
  else Throw "Unexpected token".

Definition refusal : VideonApi.Response :=
  VideonApi.mkResponse false 429 "Too Many Requests" (Some "application/json; charset=utf-8")
    (Ok quotaText).

(** *** Tellyo endpoints *)

(** [info.baseV1 || info.base] *)
Definition v1Base (info : TellyoEndpoint.TellyoInfo) : string :=
  if String.eqb (TellyoEndpoint.ti_baseV1 info) "" then TellyoEndpoint.ti_base info
  else TellyoEndpoint.ti_baseV1 info.

(** The organization number the endpoint is built with: [info.orgIdNumeric]
    where that is a number, else what [parseInt] reads at the head of
    [info.orgId]. *)
Definition orgNumberOf (info : TellyoEndpoint.TellyoInfo) : option Z :=
  match TellyoEndpoint.ti_orgIdNumeric info with
  | Some n => n
  | None =>
      parseInt10 (match TellyoEndpoint.ti_orgId info with
                  | Some s => JStr s
                  | None => JUndef
                  end)
  end.

(** An organization given by name, after the API methods found no number
    for it. *)
Definition namedOrg : TellyoEndpoint.TellyoInfo :=
  TellyoEndpoint.mkTellyoInfo "https://api.tellyo.example/rest/open/v2" "v2" (Some "acme")
    None "secret" "https://api.tellyo.example/rest/open/v1"
    "https://api.tellyo.example/rest/open/v2".

(** *** The feed and the channel of a profile *)

(** The payload [toggleCloudport] sends for the profile [c]. *)
Definition togglePayload (accountDomainOf : string -> string) (props : Props)
    (c : Profile) : IngestPayload :=
  ingestPayloadOf c (cloudportOf c) (ingestLabelOf c)
    (accountDomainOf (baseHostOf props))
    (orStr (c_lastStreamUrl (cloudportOf c)) (c_streamUrl (cloudportOf c)))
    (negb (c_alwaysOn (cloudportOf c))).

(** The payload [p] with [always_on] set to [b]. *)
Definition withAlwaysOn (b : bool) (p : IngestPayload) : IngestPayload :=
  {| ip_ingest_label := ip_ingest_label p;
     ip_account_domain := ip_account_domain p;
     ip_compute_profile := ip_compute_profile p;
     ip_stream_url := ip_stream_url p;
     ip_protocol := ip_protocol p;
     ip_stream_mode := ip_stream_mode p;
     ip_source_head_start := ip_source_head_start p;
     ip_source_elic_delay := ip_source_elic_delay p;
     ip_enable_stream_parsing := ip_enable_stream_parsing p;
     ip_record := ip_record p;
     ip_always_on := b;
     ip_enable_low_res := ip_enable_low_res p;
     ip_tracks := ip_tracks p |}.

(** The status shown after an accepted toggle to [nextState]. *)
Definition feedStatus (c : Profile) (nextState : bool) : Status :=
  mkStatus "success" (if nextState then "Feed enabled" else "Feed disabled")
    (c_ingestLabel (cloudportOf c)) (c_lastIngestId (cloudportOf c)) None.

(** The example profile with the ingest 5 remembered. *)
Definition feedProfile : Profile :=
  withCloudport (cpSetLast (JNum 5) (Some "srt://203.0.113.7:10001")) exampleProfile.

(** The example profile with the channel 42 remembered. *)
Definition channelProfile : Profile :=
  withTellyoLast (JNum 42) (Some "srt://203.0.113.7:10001") exampleProfile.

(** *** The settings kept in the browser *)

(** The keys of [localStorage] that the persist effect writes or removes. *)
Definition storedKeys : list string :=
  ["lec.remember"; "lec.jwt"; "lec.orgGuid"; "lec.base"; "lec.bearer"; "lec.safeMode";
   "lec.bypassVideonError"; "lec.pollRate"; "lec.accent"; "lec.tellyo"; "lec.cloudport";
   "lec.cfgBearer"; "lec.compact"; "lec.profiles"].

Definition isText (v : json) : bool :=
  match v with JsStr _ => true | _ => false end.

(** Settings as the form makes them: the secrets and the fields of the two
    platforms are strings, the API version, the release and the accent are
    not empty, and the poll rate is positive. *)
Definition formed (s : AppSettings.Settings) : bool :=
  isText (AppSettings.s_jwt s) && isText (AppSettings.s_bearer s)
  && isText (AppSettings.tl_apiEndpoint (AppSettings.s_tellyo s))
  && isText (AppSettings.tl_apiVersion (AppSettings.s_tellyo s))
  && jtruthy (Some (AppSettings.tl_apiVersion (AppSettings.s_tellyo s)))
  && isText (AppSettings.tl_organizationId (AppSettings.s_tellyo s))
  && isText (AppSettings.tl_token (AppSettings.s_tellyo s))
  && isText (AppSettings.cl_release (AppSettings.s_cloudport s))
  && jtruthy (Some (AppSettings.cl_release (AppSettings.s_cloudport s)))
  && isText (AppSettings.cl_baseHost (AppSettings.s_cloudport s))
  && isText (AppSettings.cl_userAuthToken (AppSettings.s_cloudport s))
  && negb (String.eqb (AppSettings.s_accent s) "")
  && (0 <? AppSettings.s_pollRate s).

(** The settings [s] with safe mode on and the organization read from
    [lec.org]. *)
Definition reloaded (ls : AppSettings.Storage) (s : AppSettings.Settings)
  : AppSettings.Settings :=
  {| AppSettings.s_jwt := AppSettings.s_jwt s;
     AppSettings.s_orgGuid := strOr (ls !! "lec.org") "";
     AppSettings.s_base := AppSettings.s_base s;
     AppSettings.s_bearer := AppSettings.s_bearer s;
     AppSettings.s_safeMode := true;
     AppSettings.s_bypassVideonError := AppSettings.s_bypassVideonError s;
     AppSettings.s_rememberSecrets := AppSettings.s_rememberSecrets s;
     AppSettings.s_pollRate := AppSettings.s_pollRate s;
     AppSettings.s_accent := AppSettings.s_accent s;
     AppSettings.s_tellyo := AppSettings.s_tellyo s;
     AppSettings.s_cloudport := AppSettings.s_cloudport s |}.

(** [JSON.parse] reads back what [JSON.stringify] wrote for [j], which is
    not the empty text. *)
Definition readsBack (parse : string -> Exc json) (stringify : json -> string)
    (j : json) : Prop :=
  stringify j <> "" /\ parse (stringify j) = Ok j.

(** The [tellyo] and [cloudport] objects as the persist effect stores them
    for the settings [s]. *)
Definition storedTellyo (s : AppSettings.Settings) : json :=
  AppSettings.tellyoJson
    (if AppSettings.s_rememberSecrets s then AppSettings.s_tellyo s
     else AppSettings.withoutToken (AppSettings.s_tellyo s)).

Definition storedCloudport (s : AppSettings.Settings) : json :=
  AppSettings.cloudportJson
    (if AppSettings.s_rememberSecrets s then AppSettings.s_cloudport s
     else AppSettings.withoutAuthToken (AppSettings.s_cloudport s)).

(** [JSON.stringify] on text without quotes, backslashes or control
    characters. *)
Fixpoint printJson (j : json) : string :=
  match j with
  | JsNull => "null"
  | JsBool b => AppSettings.showBool b
  | JsNum n => showZ n
  | JsStr s => dq +:+ s +:+ dq
  | JsArr items => "[" +:+ String.concat "," (List.map printJson items) +:+ "]"
  | JsObj props =>
      "{" +:+ String.concat ","
                (List.map (fun kv => dq +:+ fst kv +:+ dq +:+ ":" +:+ printJson (snd kv))
                   props)
      +:+ "}"
  end.

(** Settings with safe mode off and the secrets not to be remembered. *)
Definition sampleSettings : AppSettings.Settings :=
  {| AppSettings.s_jwt := JsStr "PAT 0123";
     AppSettings.s_orgGuid := "fe2b";
     AppSettings.s_base := "https://cfg.example";
     AppSettings.s_bearer := JsStr "cfg-secret";
     AppSettings.s_safeMode := false;
     AppSettings.s_bypassVideonError := false;
     AppSettings.s_rememberSecrets := false;
     AppSettings.s_pollRate := 5000;
     AppSettings.s_accent := "#f97316";
     AppSettings.s_tellyo :=
       AppSettings.mkTellyoPrefs (JsStr "https://api.tellyo.example") (JsStr "v2")
         (JsStr "12345") (JsStr "tellyo-secret");
     AppSettings.s_cloudport :=
       AppSettings.mkCloudportPrefs (JsStr "older") (JsStr "cp.example")
         (JsStr "cp-secret") |}.

(** A stand-in for [JSON.parse] that reads the texts stored for the sample
    settings and an empty list of profiles. *)
Definition readsStored (text : string) : Exc json :=
  match List.find (fun j => String.eqb (printJson j) text)
          [AppSettings.sessionJson sampleSettings; storedTellyo sampleSettings;
           storedCloudport sampleSettings; JsArr []] with
  | Some j => Ok j
  | None => Throw "Unexpected token"
  end.

(** *** The rows shown for the demo shadow *)

Definition demoRows : list (ParseOutputs.Row (K := option Z)) :=
  [ParseOutputs.mkRow (Some 1) (JsStr "primary") "srt" true JsNull JsNull;
   ParseOutputs.mkRow (Some 2) (JsStr "backup") "srt" false JsNull JsNull].

(** What [fetch] settled to ends as an error in [vx]. *)
Definition failing (parse : string -> Exc json) (fetched : Exc VideonApi.Response) : Prop :=
  match fetched with
  | Ok r => exists msg, VideonApi.vx parse r = Throw msg
  | Throw _ => True
  end.

(** The device API answering 503 with a page of text. *)
Definition unavailable : VideonApi.Response :=
  VideonApi.mkResponse false 503 "Service Unavailable" (Some "text/html")
    (Ok "upstream connect error").

(** *** The rows of the outputs table *)

(** The first row that goes by the name of the output intent [p]. *)
Definition firstNamed (p : Output) (outs : list OutRow) : option OutRow :=
  List.find (fun o => optStrEq (name p) (r_name o)) outs.

(** Two intents of one name, and the rows of a device whose output of that
    name has the id 0. *)
Definition twinProfile : Profile :=
  studioA [mkOutput "Tellyo Studio" (Some "main") JUndef None;
           mkOutput "Amagi CLOUDPORT" (Some "main") JUndef None;
           mkOutput "Amagi CLOUDPORT" (Some "spare") JUndef None].

Definition twinRows : list OutRow :=
  [mkOutRow 0 "main" true; mkOutRow 3 "main" false].

End Cases.
Import Cases.

(** * Properties *)

(** ** Running the effect monad *)

Module Run.

Section Laws.

Context {W : Type}.
Implicit Types (s : St W) (e : Event) (f : UI -> UI).

Lemma bind_ret {A B} (a : A) (k : A -> M W B) s : bind (ret a) k s = k a s.
Proof. reflexivity. Qed.

Lemma bind_throw {A B} (msg : string) (k : A -> M W B) s :
  bind (throw msg) k s = (Throw msg, s).
Proof. reflexivity. Qed.

Lemma bind_update {B} f (k : unit -> M W B) s :
  bind (update f) k s = k tt (updateS f s).
Proof. reflexivity. Qed.

Lemma bind_emit {B} e (k : unit -> M W B) s :
  bind (emit e) k s = k tt (emitS e s).
Proof. reflexivity. Qed.

Lemma bind_sleep {B} (ms : Z) (k : unit -> M W B) s :
  bind (sleep ms) k s = k tt (emitS (EvSleep ms) s).
Proof. reflexivity. Qed.

Lemma bind_liftExc_ok {A B} (a : A) (k : A -> M W B) s :
  bind (liftExc (Ok a)) k s = k a s.
Proof. reflexivity. Qed.

Lemma bind_liftExc_throw {A B} (msg : string) (k : A -> M W B) s :
  bind (liftExc (Throw msg)) k s = (Throw msg, s).
Proof. reflexivity. Qed.

Lemma bind_assoc {A B C} (m : M W A) (k : A -> M W B) (h : B -> M W C) s :
  bind (bind m k) h s = bind m (fun a => bind (k a) h) s.
Proof. unfold bind. destruct (m s) as [[a|msg] s']; reflexivity. Qed.

Lemma world_updateS f s : world (updateS f s) = world s.
Proof. reflexivity. Qed.
Lemma log_updateS f s : log (updateS f s) = log s.
Proof. reflexivity. Qed.
Lemma ui_updateS f s : ui (updateS f s) = f (ui s).
Proof. reflexivity. Qed.
Lemma world_emitS e s : world (emitS e s) = world s.
Proof. reflexivity. Qed.
Lemma log_emitS e s : log (emitS e s) = (log s ++ [e])%list.
Proof. reflexivity. Qed.
Lemma ui_emitS e s : ui (emitS e s) = ui s.
Proof. reflexivity. Qed.

Lemma update_run f s : update f s = (Ok tt, updateS f s).
Proof. reflexivity. Qed.

Lemma emit_run e s : emit e s = (Ok tt, emitS e s).
Proof. reflexivity. Qed.

Lemma ret_run {A} (a : A) s : ret a s = (Ok a, s).
Proof. reflexivity. Qed.

Lemma throw_run {A} (msg : string) s : @throw W A msg s = (Throw msg, s).
Proof. reflexivity. Qed.

(** A call: the event is logged, then the backend answers. *)
Lemma call_run {A} e (f : W -> Exc A * W) s :
  call e f s =
    (fst (f (world s)), mkSt (snd (f (world s))) (ui s) (log s ++ [e])%list).
Proof.
  unfold call, bind, emit, request. cbn. destruct (f (world s)); reflexivity.
Qed.

Lemma bind_call_ok {A B} e (f : W -> Exc A * W) (k : A -> M W B) s a w' :
  f (world s) = (Ok a, w') ->
  bind (call e f) k s = k a (mkSt w' (ui s) (log s ++ [e])%list).
Proof. intros H. unfold bind at 1. rewrite call_run, H. reflexivity. Qed.

Lemma bind_deviceShadows (be : Backend W) {B} (k : ShadowsRes -> M W B) s :
  bind (Detail.deviceShadows be) k s =
    k (nthRead be (world s) 0)
      (mkSt (afterReads be (world s) 1) (ui s) (log s ++ [EvDeviceShadows])%list).
Proof.
  unfold bind at 1, Detail.deviceShadows. rewrite call_run. cbn.
  unfold nthRead. cbn. destruct (beDeviceShadows be (world s)); reflexivity.
Qed.

Lemma bind_setDeviceShadows_ok (be : Backend W) {B} (k : unit -> M W B)
    (shadow : string) (v : Z) (state : list Entry) s w' :
  beShadowCommand be shadow v state (world s) = (Ok tt, w') ->
  bind (Detail.setDeviceShadows be shadow v state) k s =
    k tt (mkSt w' (ui s) (log s ++ [EvSetDeviceShadows shadow v state])%list).
Proof. intros H. unfold Detail.setDeviceShadows. apply bind_call_ok. exact H. Qed.

End Laws.

Create Rewrite HintDb run.

#[export] Hint Rewrite @bind_ret @bind_throw @bind_update @bind_emit @bind_sleep
  @bind_liftExc_ok @bind_liftExc_throw @update_run @emit_run @ret_run @throw_run
  @bind_deviceShadows @world_updateS @log_updateS @ui_updateS @world_emitS
  @log_emitS @ui_emitS : run.

End Run.
Import Run.

(** Rewrites a handler applied to a state until an effect is met whose
    outcome depends on the backend. *)
Ltac run := repeat (progress (autorewrite with run; cbn [world ui log fst snd])).

(** ** The Tellyo port allocator ([getSrtUrl]) *)

Module TellyoProps.

Lemma fold_max_bound (ps : list Z) (p b : Z) :
  p < b -> Forall (fun q => q < b) ps -> fold_left Z.max ps p < b.
Proof.
  revert p. induction ps as [|q ps IH]; intros p Hp Hall; simpl; [exact Hp|].
  inversion Hall; subst. apply IH; [lia | assumption].
Qed.

Lemma usedPorts_lt (chans : list Channel) :
  Forall (fun q => q < PORT_MAX) (usedPorts chans).
Proof.
  unfold usedPorts. apply List.Forall_forall. intros q Hq.
  apply List.filter_In in Hq. destruct Hq as [_ Hq].
  apply andb_true_iff in Hq. destruct Hq as [_ Hq]. lia.
Qed.

(** The port computed for a new channel never leaves the range, so the
    wrap-around branch of [getSrtUrl] is never taken. *)
Lemma nextPort_le_max (chans : list Channel) : nextPort chans <= PORT_MAX.
Proof.
  unfold nextPort. pose proof (usedPorts_lt chans) as H.
  destruct (usedPorts chans) as [|p ps]; [unfold PORT_MIN, PORT_MAX; lia|].
  inversion H; subst. simpl.
  pose proof (fold_max_bound ps p PORT_MAX ltac:(assumption) ltac:(assumption)). lia.
Qed.

Lemma nextPort_ge_min (chans : list Channel) : PORT_MIN <= nextPort chans.
Proof.
  unfold nextPort.
  assert (Hall : Forall (fun q => PORT_MIN <= q) (usedPorts chans)).
  { unfold usedPorts. apply List.Forall_forall. intros q Hq.
    apply List.filter_In in Hq. destruct Hq as [_ Hq].
    apply andb_true_iff in Hq. destruct Hq as [Hq _]. lia. }
  destruct (usedPorts chans) as [|p ps]; [lia|].
  inversion Hall; subst. simpl.
  assert (Hm : forall l a, PORT_MIN <= a -> PORT_MIN <= fold_left Z.max l a).
  { induction l as [|x l IH]; intros a Ha; simpl; [exact Ha|]. apply IH. lia. }
  specialize (Hm ps p ltac:(assumption)). lia.
Qed.

(** The URL generated for a channel: the port of the edited channel when it
    has one, else the port after the highest one used in [10006, 10100). *)
Lemma getSrtUrl_port (ip : string) (chans : list Channel) (channelId : jsval) :
  ip <> "" ->
  getSrtUrl (Some ip) chans channelId =
    srtUrl ip (match reusedPort chans channelId with
               | Some p => p
               | None => nextPort chans
               end).
Proof.
  intros Hip. unfold getSrtUrl.
  destruct (String.eqb_spec ip "") as [->|_]; [contradiction|].
  destruct (reusedPort chans channelId); [reflexivity|].
  pose proof (nextPort_le_max chans).
  destruct (Z.ltb_spec PORT_MAX (nextPort chans)); [lia | reflexivity].
Qed.

(** A URL the operator typed is kept; only an empty or blank one is
    replaced by a generated one. *)
Lemma buildTellyoChannelPayload_streamUrl {P} (now : Z) (profile : P)
    (config : TellyoConfig) (ip : option string) (chans : list Channel)
    (channelId : jsval) (pl : ChannelPayload) :
  buildTellyoChannelPayload now profile config ip chans channelId = Ok pl ->
  pl_streamUrl pl =
    match tc_streamUrl config with
    | Some u => if String.eqb u "" || isBlank u then getSrtUrl ip chans channelId else u
    | None => getSrtUrl ip chans channelId
    end.
Proof.
  unfold buildTellyoChannelPayload.
  destruct (negb (strTruthy (tc_profile config))); [discriminate|].
  intros H. inversion H. reflexivity.
Qed.

Lemma fold_max_spec (ps : list Z) : forall p,
  (fold_left Z.max ps p = p \/ In (fold_left Z.max ps p) ps)
  /\ p <= fold_left Z.max ps p
  /\ Forall (fun q => q <= fold_left Z.max ps p) ps.
Proof.
  induction ps as [|q ps IH]; intros p; cbn [fold_left].
  - split; [left; reflexivity|]. split; [lia | constructor].
  - destruct (IH (Z.max p q)) as (Hin & Hle & Hall).
    split; [|split].
    + destruct Hin as [Hm | Hm]; [|right; right; exact Hm].
      destruct (Z.max_spec p q) as [[_ Hq] | [_ Hq]].
      * right. left. rewrite Hm. symmetry. exact Hq.
      * left. rewrite Hm. exact Hq.
    + lia.
    + constructor; [lia | exact Hall].
Qed.

(** X1 -- the port [getSrtUrl] chooses.  For a device with an IP address:
    when the id of a channel being edited is given and the listed channel
    with that id has a stream URL with a non-zero port, that port is kept;
    otherwise the port is 10006 when no listed channel uses a port of
    [10006, 10100), and else one more than the highest port used in that
    interval.  The ports counted as used are exactly the ports of listed
    stream URLs that lie in [10006, 10100). *)
Theorem tellyo_port_choice (ip : string) (chans : list Channel) (channelId : jsval) :
  ip <> "" ->
  (forall c p,
     truthy channelId = true ->
     List.find (fun c => seq (ch_id c) channelId) chans = Some c ->
     extractPort (ch_streamUrl c) = Some p -> p <> 0 ->
     getSrtUrl (Some ip) chans channelId = srtUrl ip p)
  /\ (reusedPort chans channelId = None -> usedPorts chans = [] ->
      getSrtUrl (Some ip) chans channelId = srtUrl ip 10006)
  /\ (reusedPort chans channelId = None -> usedPorts chans <> [] ->
      exists m,
        getSrtUrl (Some ip) chans channelId = srtUrl ip (m + 1)
        /\ In m (usedPorts chans)
        /\ Forall (fun q => q <= m) (usedPorts chans))
  /\ (forall q, In q (usedPorts chans) <->
        (10006 <= q < 10100
         /\ exists c, In c chans /\ extractPort (ch_streamUrl c) = Some q)).
Proof.
  intros Hip. split; [|split; [|split]].
  - intros c p Hid Hfind Hport Hnz. rewrite getSrtUrl_port by exact Hip.
    unfold reusedPort. rewrite Hid, Hfind, Hport.
    assert (Hurl : strTruthy (ch_streamUrl c) = true).
    { destruct (ch_streamUrl c) as [u|]; [|discriminate]. cbn in Hport |- *.
      destruct (String.eqb u ""); [discriminate | reflexivity]. }
    rewrite Hurl. destruct (Z.eqb_spec p 0); [contradiction | reflexivity].
  - intros Hnone Hused. rewrite getSrtUrl_port by exact Hip.
    rewrite Hnone. unfold nextPort. rewrite Hused. reflexivity.
  - intros Hnone Hused. rewrite getSrtUrl_port by exact Hip. rewrite Hnone.
    unfold nextPort. destruct (usedPorts chans) as [|p ps]; [contradiction|].
    cbn [maxPort]. destruct (fold_max_spec ps p) as (Hin & Hle & Hall).
    exists (fold_left Z.max ps p). split; [reflexivity|]. split.
    + destruct Hin as [-> | Hin]; [left; reflexivity | right; exact Hin].
    + constructor; assumption.
  - intros q. unfold usedPorts. rewrite List.filter_In.
    rewrite <- list_elem_of_In, list_elem_of_omap. split.
    + intros ((c & Hc & Hq) & Hr). apply andb_true_iff in Hr. split; [unfold PORT_MIN, PORT_MAX in Hr; lia|].
      exists c. split; [apply list_elem_of_In; exact Hc | exact Hq].
    + intros (Hr & c & Hc & Hq). split.
      * exists c. split; [apply list_elem_of_In; exact Hc | exact Hq].
      * apply andb_true_iff. unfold PORT_MIN, PORT_MAX. lia.
Qed.

(** One channel on port 10042, edited: the port is kept.  A new channel
    beside it: port 10043. *)
Lemma tellyo_port_choice_witness :
  "203.0.113.7" <> ""
  /\ getSrtUrl (Some "203.0.113.7")
       [mkChannel (JNum 7) (Some "a") (Some "srt://198.51.100.9:10042")] (JNum 7)
     = "srt://203.0.113.7:10042"
  /\ exists m,
       getSrtUrl (Some "203.0.113.7")
         [mkChannel (JNum 7) (Some "a") (Some "srt://198.51.100.9:10042")] JNull
       = srtUrl "203.0.113.7" (m + 1)
       /\ In m [10042].
Proof.
  assert (Hip : "203.0.113.7" <> "") by discriminate.
  split; [exact Hip|]. split.
  - exact (proj1 (tellyo_port_choice "203.0.113.7"
                    [mkChannel (JNum 7) (Some "a") (Some "srt://198.51.100.9:10042")]
                    (JNum 7) Hip)
             (mkChannel (JNum 7) (Some "a") (Some "srt://198.51.100.9:10042")) 10042
             eq_refl eq_refl eq_refl ltac:(discriminate)).
  - destruct (proj1 (proj2 (proj2 (tellyo_port_choice "203.0.113.7"
                    [mkChannel (JNum 7) (Some "a") (Some "srt://198.51.100.9:10042")]
                    JNull Hip))) eq_refl ltac:(discriminate))
      as (m & Hm & Hin & _).
    exists m. split; [exact Hm | exact Hin].
Defined.


End TellyoProps.

(** ** Port pre-assignment *)

Module PortProps.
Import Detail.

Lemma seqZ_cons_len (c : Z) (n : nat) :
  seqZ c (Z.of_nat (S n)) = c :: seqZ (c + 1) (Z.of_nat n).
Proof.
  rewrite seqZ_cons by lia. f_equal. f_equal; lia.
Qed.

Lemma preAssign_ok (outs : list Output) : forall c,
  allPlatform outs -> c + Z.of_nat (length outs) - 1 <= 10100 ->
  preAssign c outs = Ok (assigned c outs).
Proof.
  induction outs as [|o rest IH]; intros c Hall Hfit; [reflexivity|].
  inversion Hall as [|? ? Ho Hrest]; subst.
  cbn [preAssign]. rewrite Ho.
  cbn [length] in Hfit.
  destruct (Z.ltb_spec 10100 c); [lia|].
  rewrite IH by (try assumption; lia).
  unfold assigned. cbn [length]. rewrite seqZ_cons_len. reflexivity.
Qed.

Lemma preAssign_exhausted (outs : list Output) : forall c,
  allPlatform outs -> c <= 10101 -> 10100 < c + Z.of_nat (length outs) - 1 ->
  preAssign c outs = Throw rangeError.
Proof.
  induction outs as [|o rest IH]; intros c Hall Hc Hover.
  - cbn [length] in Hover. lia.
  - inversion Hall as [|? ? Ho Hrest]; subst.
    cbn [preAssign]. rewrite Ho.
    destruct (Z.ltb_spec 10100 c); [reflexivity|].
    rewrite IH; [reflexivity | assumption | lia |].
    cbn [length] in Hover. lia.
Qed.

Lemma assigned_ports (outs : list Output) (c : Z) :
  List.map _tempPort (assigned c outs) =
  List.map Some (seqZ c (Z.of_nat (length outs))).
Proof.
  revert c. induction outs as [|o rest IH]; intros c; [reflexivity|].
  unfold assigned. cbn [length]. rewrite seqZ_cons_len. cbn.
  f_equal. apply IH.
Qed.

Lemma assigned_keeps (outs : list Output) (c : Z) :
  List.map target (assigned c outs) = List.map target outs
  /\ List.map name (assigned c outs) = List.map name outs
  /\ List.map videonId (assigned c outs) = List.map videonId outs.
Proof.
  revert c. induction outs as [|o rest IH]; intros c; [repeat split|].
  unfold assigned. cbn [length]. rewrite seqZ_cons_len. cbn.
  destruct (IH (c + 1)) as (Ht & Hn & Hv). unfold assigned in Ht, Hn, Hv.
  rewrite Ht, Hn, Hv. repeat split.
Qed.

Lemma NoDup_map_Some (l : list Z) : NoDup l -> NoDup (List.map Some l).
Proof.
  induction 1 as [|x l Hx Hl IH]; cbn; constructor; [|exact IH].
  intros Hin. apply Hx. apply list_elem_of_In in Hin.
  apply in_map_iff in Hin. destruct Hin as (y & Hy & Hin). inversion Hy; subst.
  apply list_elem_of_In. exact Hin.
Qed.

(** A handler run that stops at the pre-assignment: nothing was called and
    no profile was touched. *)
Lemma handleConfigure_exhausted {W} (be : Backend W) accountDomainOf now
    (props : Props) (cur : Profile) (s : St W) :
  Detail.cur props = Some cur -> safeMode props = false ->
  preAssign 10001 (p_outputs cur) = Throw rangeError ->
  exists s',
    handleConfigure be accountDomainOf now props s = (Throw rangeError, s')
    /\ world s' = world s /\ log s' = log s
    /\ ui_profiles (ui s') = ui_profiles (ui s).
Proof.
  intros Hcur Hsafe Hpre. unfold handleConfigure. rewrite Hcur, Hsafe.
  unfold bind, update, liftExc. cbn. rewrite Hpre.
  eexists. split; [reflexivity|]. cbn. repeat split.
Qed.

(** C2 -- port pre-assignment.  For a list of output intents that all target
    one of the two delivery platforms: when it holds at most 100 intents (the
    size of the range 10001..10100) the pre-assignment succeeds, the [k]-th
    intent gets port [10001 + k] (so the ports are sequential, pairwise
    distinct and within the range) and nothing else of an intent changes;
    when it holds more, the pre-assignment throws the range-exhausted error,
    and the handler ends on that error having called nothing and leaving the
    profiles as they were. *)
Theorem port_preassignment (outs : list Output) :
  allPlatform outs ->
  ((length outs <= 100)%nat ->
     exists outs',
       preAssign 10001 outs = Ok outs'
       /\ List.map _tempPort outs' = List.map Some (seqZ 10001 (Z.of_nat (length outs)))
       /\ NoDup (List.map _tempPort outs')
       /\ Forall (fun p => exists q, p = Some q /\ 10001 <= q <= 10100)
                 (List.map _tempPort outs')
       /\ List.map target outs' = List.map target outs
       /\ List.map name outs' = List.map name outs
       /\ List.map videonId outs' = List.map videonId outs)
  /\ ((100 < length outs)%nat ->
        preAssign 10001 outs = Throw rangeError
        /\ forall W (be : Backend W) accountDomainOf now props cur (s : St W),
             Detail.cur props = Some cur -> p_outputs cur = outs ->
             safeMode props = false ->
             exists s',
               handleConfigure be accountDomainOf now props s = (Throw rangeError, s')
               /\ world s' = world s /\ log s' = log s
               /\ ui_profiles (ui s') = ui_profiles (ui s)).
Proof.
  intros Hall. split.
  - intros Hlen. exists (assigned 10001 outs).
    pose proof (assigned_keeps outs 10001) as (Ht & Hn & Hv).
    rewrite assigned_ports.
    repeat split; try assumption.
    + apply preAssign_ok; [assumption | lia].
    + apply NoDup_map_Some, NoDup_seqZ.
    + apply List.Forall_forall. intros p Hp.
      apply in_map_iff in Hp. destruct Hp as (q & <- & Hq).
      exists q. split; [reflexivity|].
      apply list_elem_of_In, elem_of_seqZ in Hq. lia.
  - intros Hlen.
    assert (Hthrow : preAssign 10001 outs = Throw rangeError)
      by (apply preAssign_exhausted; [assumption | lia | lia]).
    split; [exact Hthrow|].
    intros W be accountDomainOf now props cur s Hcur Houts Hsafe.
    apply (handleConfigure_exhausted be accountDomainOf now props cur s);
      [assumption | assumption |].
    rewrite Houts. exact Hthrow.
Qed.

Lemma manyOutputs_platform : allPlatform manyOutputs.
Proof.
  apply List.Forall_forall. intros o Ho.
  apply repeat_spec in Ho. subst o. reflexivity.
Defined.

(** Two intents get 10001 and 10002; 101 intents get nothing. *)
Lemma port_preassignment_witness :
  (allPlatform [tellyoOutput; cloudportOutput]
   /\ exists outs',
        preAssign 10001 [tellyoOutput; cloudportOutput] = Ok outs'
        /\ List.map _tempPort outs' = [Some 10001; Some 10002])
  /\ (allPlatform manyOutputs
      /\ preAssign 10001 manyOutputs = Throw rangeError).
Proof.
  split.
  - assert (H : allPlatform [tellyoOutput; cloudportOutput])
      by (repeat constructor).
    split; [exact H|].
    destruct (proj1 (port_preassignment _ H)) as (outs' & Hok & Hports & _).
    + cbn. lia.
    + exists outs'. split; [exact Hok | exact Hports].
  - split; [exact manyOutputs_platform|].
    apply (proj2 (port_preassignment _ manyOutputs_platform)).
    unfold manyOutputs. rewrite repeat_length. lia.
Defined.

End PortProps.

(** ** The confirmation poller *)

Module PollProps.
Import Detail.

Section Poller.

Context {W : Type} (be : Backend W) (parseOutputs : ShadowsRes -> list OutRow).
Variable check : list OutRow -> bool.

Local Abbreviation seen w k := (seenAt be parseOutputs check w k).

Lemma deviceShadows_run (s : St W) :
  deviceShadows be s =
    (Ok (nthRead be (world s) 0),
     mkSt (afterReads be (world s) 1) (ui s) (log s ++ [EvDeviceShadows])%list).
Proof.
  unfold deviceShadows, call, bind, emit, request, nthRead. cbn.
  destruct (beDeviceShadows be (world s)); reflexivity.
Qed.

(** The predicate first holds at read [k], one of the reads that follow a
    delay: the loop stops there, after [k + 1] waits. *)
Lemma confirmLoop_hit (delays : list Z) : forall (k : nat) (s : St W),
  (k < length delays)%nat ->
  (forall j, (j < k)%nat -> seen (world s) j = false) ->
  seen (world s) k = true ->
  confirmLoop be parseOutputs check delays s =
    (Ok (true, parseOutputs (nthRead be (world s) k)),
     mkSt (afterReads be (world s) (S k)) (ui s)
          (log s ++ polls (take (S k) delays))%list).
Proof.
  induction delays as [|d rest IH]; intros k s Hk Hbefore Hat; [cbn in Hk; lia|].
  cbn [confirmLoop]. unfold bind at 1, sleep, emit. cbn.
  unfold bind at 1. rewrite deviceShadows_run. cbn [world ui log].
  unfold seenAt in *.
  destruct k as [|k].
  - rewrite Hat. unfold ret. cbn. rewrite <- app_assoc. reflexivity.
  - rewrite (Hbefore 0%nat) by lia.
    rewrite IH with (k := k); cbn [world ui log].
    + cbn. rewrite <- !app_assoc. reflexivity.
    + cbn in Hk. lia.
    + intros j Hj. apply (Hbefore (S j)). lia.
    + exact Hat.
Qed.

(** The predicate holds at none of the reads that follow a delay: one more
    read is made and its verdict is the answer. *)
Lemma confirmLoop_timeout (delays : list Z) : forall (s : St W),
  (forall j, (j < length delays)%nat -> seen (world s) j = false) ->
  confirmLoop be parseOutputs check delays s =
    (Ok (seen (world s) (length delays),
         parseOutputs (nthRead be (world s) (length delays))),
     mkSt (afterReads be (world s) (S (length delays))) (ui s)
          (log s ++ polls delays ++ [EvDeviceShadows])%list).
Proof.
  induction delays as [|d rest IH]; intros s Hnever; unfold seenAt in *.
  - cbn [confirmLoop]. unfold bind. rewrite deviceShadows_run. reflexivity.
  - cbn [confirmLoop]. unfold bind at 1, sleep, emit. cbn.
    unfold bind at 1. rewrite deviceShadows_run. cbn [world ui log].
    rewrite (Hnever 0%nat) by (cbn; lia).
    rewrite IH; cbn [world ui log].
    + cbn. rewrite <- !app_assoc. reflexivity.
    + intros j Hj. apply (Hnever (S j)). cbn. lia.
Qed.


End Poller.


End PollProps.

(** ** Reading shadows: arrays and maps *)

Module ShapeProps.

Lemma getShadow_arrayShaped (shadows : list Shadow) (nm : string) :
  getShadow (List.map arrayShaped shadows) nm = arrayShaped <$> getShadow shadows nm.
Proof.
  unfold getShadow. induction shadows as [|s rest IH]; [reflexivity|].
  cbn. destruct (optStrEq (shadow_name s) nm); [reflexivity | exact IH].
Qed.

(** [getItems] and the list of [findId2] do not see the shape. *)
Lemma getItems_arrayShaped (shadows : list Shadow) (nm : string) :
  getItems (List.map arrayShaped shadows) nm = getItems shadows nm.
Proof.
  unfold getItems. rewrite getShadow_arrayShaped.
  destruct (getShadow shadows nm) as [s|]; [|reflexivity].
  cbn. destruct (reported_state s) as [st|]; reflexivity.
Qed.

Lemma versionOf_arrayShaped (shadows : list Shadow) (nm : string) :
  versionOf (getShadow (List.map arrayShaped shadows) nm)
  = versionOf (getShadow shadows nm).
Proof.
  rewrite getShadow_arrayShaped. destruct (getShadow shadows nm); reflexivity.
Qed.

Lemma findId2_arrayShaped (shadows2 : list Shadow) (sName iName : string) :
  findId2 (List.map arrayShaped shadows2) sName iName = findId2 shadows2 sName iName.
Proof. unfold findId2. rewrite getItems_arrayShaped. reflexivity. Qed.

(** VerifyEncoders resolves the same ids from a map as from the array of its
    values. *)
Lemma verifyEncoders_arrayShaped (shadows2 : list Shadow) (videoName audioName : string)
    (preVideoIds preAudioIds : gset jsval) :
  verifyEncoders (List.map arrayShaped shadows2) videoName audioName
    preVideoIds preAudioIds
  = verifyEncoders shadows2 videoName audioName preVideoIds preAudioIds.
Proof.
  unfold verifyEncoders, resolveEncoders.
  rewrite !findId2_arrayShaped, getItems_arrayShaped. reflexivity.
Qed.

(** The ids seen before the write and the Encoders state written do not
    depend on the shape either. *)
Lemma nextEncodersOf_arrayShaped (cur : Profile) (shadows : list Shadow) :
  nextEncodersOf cur (List.map arrayShaped shadows) = nextEncodersOf cur shadows.
Proof. unfold nextEncodersOf. rewrite !getItems_arrayShaped. reflexivity. Qed.

Lemma buildOutputs_arrayShaped (mi mp : string) (vid aud : jsval)
    (shadows2 : list Shadow) (outs : list Output) :
  buildOutputs mi mp vid aud (List.map arrayShaped shadows2) outs
  = buildOutputs mi mp vid aud shadows2 outs.
Proof.
  unfold buildOutputs, currentOutputsOf. rewrite getItems_arrayShaped. reflexivity.
Qed.

(** C4 -- array or map.  VerifyEncoders resolves the same ids whether the
    Encoders state is an array or a map of the same entries.  VerifyOutputs
    does not: in the example scenario the listener reported as the array
    [[{id: 20, type: 'srt', config: {destination_port: 10001}}]] gives the
    intent the id 20, and the same entry reported in a map leaves the intent
    without an id. *)
Theorem shape_invariance_fails_for_outputs :
  (forall shadows2 videoName audioName preVideoIds preAudioIds,
     verifyEncoders (List.map arrayShaped shadows2) videoName audioName
       preVideoIds preAudioIds
     = verifyEncoders shadows2 videoName audioName preVideoIds preAudioIds)
  /\ remembered (exampleRun [readEmpty; readEncoders; readOutputs]) = [JNum 20]
  /\ remembered (exampleRun [readEmpty; readEncoders; readOutputsMap]) = [JUndef].
Proof.
  split; [exact verifyEncoders_arrayShaped|].
  split; vm_compute; reflexivity.
Qed.

End ShapeProps.

(** ** VerifyEncoders *)

Module EncoderProps.
Import Detail.

Lemma fallbackId_truthy (kind : string) (pre : gset jsval) (l : list Entry) (id : jsval) :
  truthy id = true -> fallbackId kind pre l id = id.
Proof. intros H. unfold fallbackId. rewrite H. reflexivity. Qed.

(** What the two ids are after the name lookup and the fallback. *)
Lemma resolveEncoders_fst (shadows2 : list Shadow) (videoName audioName : string)
    (preV preA : gset jsval) :
  fst (resolveEncoders shadows2 videoName audioName preV preA)
  = fallbackId "video" preV (getItems shadows2 "Encoders") (idByName shadows2 videoName).
Proof.
  unfold resolveEncoders, idByName, findId2.
  set (v := idOfFound _). set (a := idOfFound _).
  destruct (truthy v) eqn:Hv, (truthy a) eqn:Ha; cbn; try reflexivity.
  symmetry. apply fallbackId_truthy. exact Hv.
Qed.

Lemma resolveEncoders_snd (shadows2 : list Shadow) (videoName audioName : string)
    (preV preA : gset jsval) :
  snd (resolveEncoders shadows2 videoName audioName preV preA)
  = fallbackId "audio" preA (getItems shadows2 "Encoders") (idByName shadows2 audioName).
Proof.
  unfold resolveEncoders, idByName, findId2.
  set (v := idOfFound _). set (a := idOfFound _).
  destruct (truthy v) eqn:Hv, (truthy a) eqn:Ha; cbn; try reflexivity.
  symmetry. apply fallbackId_truthy. exact Ha.
Qed.

Lemma verifyEncoders_cases (shadows2 : list Shadow) (videoName audioName : string)
    (preV preA : gset jsval) :
  verifyEncoders shadows2 videoName audioName preV preA =
    let vid := fst (resolveEncoders shadows2 videoName audioName preV preA) in
    let aud := snd (resolveEncoders shadows2 videoName audioName preV preA) in
    if negb (truthy vid) then Throw "Video encoder '' not found after creation."
    else if negb (truthy aud) then Throw "Audio encoder '' not found after creation."
    else Ok (vid, aud).
Proof.
  unfold verifyEncoders.
  destruct (resolveEncoders shadows2 videoName audioName preV preA). reflexivity.
Qed.

Section Run.

Context {W : Type} (be : Backend W).
Variables (accountDomainOf : string -> string) (now : Z).

(** The handler after the device part has thrown: it stops, or with bypass
    goes on to the downstream part with the pre-assigned outputs. *)
Lemma handleConfigure_device_failure (props : Props) (cur : Profile)
    (outs : list Output) (e : string) (s s1 : St W) :
  Detail.cur props = Some cur -> safeMode props = false ->
  preAssign 10001 (p_outputs cur) = Ok outs ->
  configureVideon be props cur outs (initConfigure s) = (Throw e, s1) ->
  handleConfigure be accountDomainOf now props s =
    if bypassVideonError props
    then configureDownstream be accountDomainOf now props cur outs (bypassed e s1)
    else (Ok tt, failed e s1).
Proof.
  intros Hcur Hsafe Hpre Hdev. unfold handleConfigure. rewrite Hcur, Hsafe.
  run. rewrite Hpre. run. fold (initConfigure s).
  unfold bind at 1, guardedVideon, tryCatch. unfold bind at 1. rewrite Hdev.
  destruct (bypassVideonError props); run; reflexivity.
Qed.

Lemma handleConfigure_device_success (props : Props) (cur : Profile)
    (outs outs' : list Output) (s s1 : St W) :
  Detail.cur props = Some cur -> safeMode props = false ->
  preAssign 10001 (p_outputs cur) = Ok outs ->
  configureVideon be props cur outs (initConfigure s) = (Ok outs', s1) ->
  handleConfigure be accountDomainOf now props s =
    configureDownstream be accountDomainOf now props cur outs'
      (updateS (setToast "Videon configured. Setting up remotes...") s1).
Proof.
  intros Hcur Hsafe Hpre Hdev. unfold handleConfigure. rewrite Hcur, Hsafe.
  run. rewrite Hpre. run. fold (initConfigure s).
  unfold bind at 1, guardedVideon, tryCatch. unfold bind at 1. rewrite Hdev.
  run. reflexivity.
Qed.

(** The device part stops at VerifyEncoders when the ids cannot be
    resolved: two reads, the Encoders write and the wait were issued, the
    Outputs shadow was not written. *)
Lemma configureVideon_stops_at_verifyEncoders (props : Props) (cur : Profile)
    (outs : list Output) (shadows shadows2 : list Shadow) (w3 : W) (msg : string)
    (s : St W) :
  encodersWritten be cur (world s) shadows shadows2 w3 ->
  verifyEncoders shadows2 (videoNameOf cur) (audioNameOf cur)
    (preIds "video" (getItems shadows "Encoders"))
    (preIds "audio" (getItems shadows "Encoders")) = Throw msg ->
  exists s1,
    configureVideon be props cur outs s = (Throw msg, s1)
    /\ world s1 = w3
    /\ log s1 = (log s ++ upToVerifyEncoders cur shadows)%list
    /\ ui_profiles (ui s1) = ui_profiles (ui s)
    /\ ui_err (ui s1) = ui_err (ui s).
Proof.
  intros (Hsh & w2 & Hwrite & Hsh2 & Hw3) Hver.
  unfold configureVideon. run. rewrite Hsh. run.
  erewrite bind_setDeviceShadows_ok by exact Hwrite. run.
  unfold nthRead, afterReads. cbn [world]. rewrite Hsh2. run.
  rewrite Hver. run.
  eexists. split; [reflexivity|]. cbn [world log ui].
  split; [exact Hw3|]. split; [|split; reflexivity].
  unfold upToVerifyEncoders. rewrite <- !app_assoc. reflexivity.
Qed.

Lemma firstNew_sound (kind : string) (pre : gset jsval) (shadows2 : list Shadow)
    (e : Entry) :
  firstNew kind pre shadows2 (Some e) ->
  In e (getItems shadows2 "Encoders") /\ isKind kind e = true /\ e_id e ∉ pre.
Proof.
  unfold firstNew. intros H. apply List.find_some in H. destruct H as [Hin H].
  apply andb_true_iff in H. destruct H as [Hk Hn].
  split; [exact Hin|]. split; [exact Hk|].
  apply negb_true_iff, bool_decide_eq_false in Hn. exact Hn.
Qed.

Lemma fallbackId_falsy (kind : string) (pre : gset jsval) (shadows2 : list Shadow)
    (id : jsval) (n : option Entry) :
  truthy id = false -> firstNew kind pre shadows2 n ->
  fallbackId kind pre (getItems shadows2 "Encoders") id
  = match n with Some e => e_id e | None => id end.
Proof.
  unfold firstNew, fallbackId. intros Hid Hn. rewrite Hid, Hn. reflexivity.
Qed.

(** C5 -- VerifyEncoders.  The two encoders are looked up under the names
    [<profile name>_video] and [<profile name>_audio]; an id found by name
    is the one kept.  When the lookup of a kind gives no usable id, the id
    is that of the first entry of that kind whose id was not among the ids
    of that kind read before the write.  When the video id, or else the
    audio id, is still unusable the step throws the matching not-found
    error; the run then ends there, the Outputs shadow unwritten and no
    downstream call made, unless bypass is on, in which case it goes on to
    the downstream part. *)
Theorem verify_encoders (props : Props) (cur : Profile) (outs : list Output)
    (shadows shadows2 : list Shadow) (w3 : W) (s : St W) :
  let videoName := videoNameOf cur in
  let audioName := audioNameOf cur in
  let preV := preIds "video" (getItems shadows "Encoders") in
  let preA := preIds "audio" (getItems shadows "Encoders") in
  let resolved := resolveEncoders shadows2 videoName audioName preV preA in
  let verdict := verifyEncoders shadows2 videoName audioName preV preA in
  (videoName = strOr (p_name cur) "Profile" +:+ "_video"
   /\ audioName = strOr (p_name cur) "Profile" +:+ "_audio")
  /\ (truthy (idByName shadows2 videoName) = true ->
      fst resolved = idByName shadows2 videoName)
  /\ (truthy (idByName shadows2 audioName) = true ->
      snd resolved = idByName shadows2 audioName)
  /\ (truthy (idByName shadows2 videoName) = false ->
      forall n, firstNew "video" preV shadows2 n ->
        fst resolved = match n with Some e => e_id e
                                  | None => idByName shadows2 videoName end)
  /\ (truthy (idByName shadows2 audioName) = false ->
      forall n, firstNew "audio" preA shadows2 n ->
        snd resolved = match n with Some e => e_id e
                                  | None => idByName shadows2 audioName end)
  /\ (forall kind pre e, firstNew kind pre shadows2 (Some e) ->
        In e (getItems shadows2 "Encoders") /\ isKind kind e = true /\ e_id e ∉ pre)
  /\ (truthy (fst resolved) = true -> truthy (snd resolved) = true ->
      verdict = Ok resolved)
  /\ (truthy (fst resolved) = false ->
      verdict = Throw "Video encoder '' not found after creation.")
  /\ (truthy (fst resolved) = true -> truthy (snd resolved) = false ->
      verdict = Throw "Audio encoder '' not found after creation.")
  /\ (forall msg,
        Detail.cur props = Some cur -> safeMode props = false ->
        preAssign 10001 (p_outputs cur) = Ok outs ->
        encodersWritten be cur (world s) shadows shadows2 w3 ->
        verdict = Throw msg ->
        exists s1,
          world s1 = w3
          /\ log s1 = (log s ++ upToVerifyEncoders cur shadows)%list
          /\ ui_profiles (ui s1) = ui_profiles (ui s)
          /\ handleConfigure be accountDomainOf now props s =
               if bypassVideonError props
               then configureDownstream be accountDomainOf now props cur outs
                      (bypassed msg s1)
               else (Ok tt, failed msg s1)).
Proof.
  intros videoName audioName preV preA resolved verdict.
  subst resolved verdict.
  rewrite verifyEncoders_cases, resolveEncoders_fst, resolveEncoders_snd. cbn zeta.
  split; [split; reflexivity|].
  split; [intros H; apply fallbackId_truthy, H|].
  split; [intros H; apply fallbackId_truthy, H|].
  split; [intros H n Hn; apply fallbackId_falsy; assumption|].
  split; [intros H n Hn; apply fallbackId_falsy; assumption|].
  split; [intros kind pre e; apply firstNew_sound|].
  split.
  { intros Hv Ha. rewrite Hv, Ha. cbn.
    destruct (resolveEncoders shadows2 videoName audioName preV preA) eqn:Hr.
    f_equal. f_equal.
    - change j with (fst (j, j0)). rewrite <- Hr. symmetry. apply resolveEncoders_fst.
    - change j0 with (snd (j, j0)). rewrite <- Hr. symmetry. apply resolveEncoders_snd. }
  split; [intros Hv; rewrite Hv; reflexivity|].
  split; [intros Hv Ha; rewrite Hv, Ha; reflexivity|].
  intros msg Hcur Hsafe Hpre Henc Hver.
  destruct (configureVideon_stops_at_verifyEncoders props cur outs shadows shadows2
              w3 msg (initConfigure s)) as (s1 & Hrun & Hw & Hlog & Hprof & _).
  - exact Henc.
  - rewrite verifyEncoders_cases, resolveEncoders_fst, resolveEncoders_snd. exact Hver.
  - exists s1. split; [exact Hw|]. split; [exact Hlog|]. split; [exact Hprof|].
    apply (handleConfigure_device_failure props cur outs msg s s1); assumption.
Qed.

End Run.

(** The new video encoder comes back under another name: its id, 12, is
    the one not seen before.  No encoder comes back at all: the run stops
    after the second read. *)
Lemma verify_encoders_witness :
  (truthy (idByName shadowsRenamed "Studio-A_video") = false
   /\ firstNew "video" (preIds "video" (getItems shadowsBefore "Encoders"))
        shadowsRenamed (Some (reportedEntry 12 (Some "video") (Some "encoder-12") None))
   /\ fst (resolveEncoders shadowsRenamed "Studio-A_video" "Studio-A_audio"
             (preIds "video" (getItems shadowsBefore "Encoders"))
             (preIds "audio" (getItems shadowsBefore "Encoders"))) = JNum 12)
  /\ (encodersWritten scripted exampleProfile (deviceWorld [readEmpty; readEmpty])
        shadowsEmpty shadowsEmpty (deviceWorld [])
      /\ exists s1,
           log s1 = upToVerifyEncoders exampleProfile shadowsEmpty
           /\ handleConfigure scripted firstLabel 1700000000
                (sampleProps false false (Some exampleProfile))
                (start (deviceWorld [readEmpty; readEmpty]) [exampleProfile])
              = (Ok tt, failed "Video encoder '' not found after creation." s1)).
Proof.
  split.
  - assert (Hname : truthy (idByName shadowsRenamed "Studio-A_video") = false)
      by reflexivity.
    assert (Hnew : firstNew "video" (preIds "video" (getItems shadowsBefore "Encoders"))
                     shadowsRenamed
                     (Some (reportedEntry 12 (Some "video") (Some "encoder-12") None)))
      by (vm_compute; reflexivity).
    split; [exact Hname|]. split; [exact Hnew|].
    exact (proj1 (proj2 (proj2 (proj2
             (verify_encoders scripted firstLabel 1700000000
                (sampleProps false false (Some exampleProfile)) exampleProfile
                [] shadowsBefore shadowsRenamed (deviceWorld [])
                (start (deviceWorld []) [])))))
             Hname _ Hnew).
  - assert (Henc : encodersWritten scripted exampleProfile
                     (deviceWorld [readEmpty; readEmpty])
                     shadowsEmpty shadowsEmpty (deviceWorld [])).
    { split; [reflexivity|]. exists (deviceWorld [readEmpty]).
      split; [reflexivity|]. split; reflexivity. }
    split; [exact Henc|].
    destruct ((proj2 (proj2 (proj2 (proj2 (proj2 (proj2 (proj2 (proj2 (proj2
                (verify_encoders scripted firstLabel 1700000000
                   (sampleProps false false (Some exampleProfile)) exampleProfile
                   [setTempPort tellyoOutput (Some 10001)] shadowsEmpty shadowsEmpty
                   (deviceWorld [])
                   (start (deviceWorld [readEmpty; readEmpty]) [exampleProfile])))))))))))
                "Video encoder '' not found after creation."
                eq_refl eq_refl eq_refl Henc eq_refl)
      as (s1 & _ & Hlog & _ & Hrun).
    exists s1. split; [exact Hlog | exact Hrun].
Defined.

End EncoderProps.

(** ** WriteOutputs and VerifyOutputs *)

Module OutputProps.

Section PortMap.

Variables (mi mp : string) (vid aud : jsval).

Lemma outputStep_snd (acc : list Entry * gmap Z nat) (o : Output) (idx : nat) :
  snd (outputStep mi mp vid aud acc o idx)
  = match keyOf o with
    | Some p => <[p := idx]> (snd acc)
    | None => snd acc
    end.
Proof.
  unfold outputStep, keyOf. destruct acc as [nextOutputs portMap]. cbn [snd].
  destruct (isPlatform (target o)).
  - destruct (_tempPort o); reflexivity.
  - destruct (negb (String.eqb mi "") && negb (String.eqb mp "")); reflexivity.
Qed.

(** A port that is the key of an intent is in the map. *)
Lemma outputLoop_is_Some (outs : list Output) : forall acc idx p,
  is_Some (snd acc !! p) \/ (exists o, In o outs /\ keyOf o = Some p) ->
  is_Some (snd (outputLoop mi mp vid aud acc outs idx) !! p).
Proof.
  induction outs as [|o rest IH]; intros acc idx p H; cbn [outputLoop].
  - destruct H as [H | (o & [] & _)]. exact H.
  - apply IH. rewrite outputStep_snd.
    destruct H as [H | (o' & [-> | Hin] & Hk)].
    + left. destruct (keyOf o) as [k|]; [|exact H].
      destruct (decide (k = p)) as [->|Hne].
      * rewrite lookup_insert_eq. eauto.
      * rewrite lookup_insert_ne by exact Hne. exact H.
    + left. rewrite Hk. rewrite lookup_insert_eq. eauto.
    + right. exists o'. split; assumption.
Qed.

(** An index found in the map is the index of an intent with that key. *)
Lemma outputLoop_lookup_inv (outs : list Output) : forall acc idx p j,
  snd (outputLoop mi mp vid aud acc outs idx) !! p = Some j ->
  snd acc !! p = Some j
  \/ ((idx <= j)%nat /\ exists o, outs !! (j - idx)%nat = Some o /\ keyOf o = Some p).
Proof.
  induction outs as [|o rest IH]; intros acc idx p j H; cbn [outputLoop] in H.
  - left. exact H.
  - apply IH in H. rewrite outputStep_snd in H.
    destruct H as [H | (Hle & o' & Hat & Hk)].
    + destruct (keyOf o) as [k|] eqn:Hko; [|left; exact H].
      destruct (decide (k = p)) as [->|Hne].
      * rewrite lookup_insert_eq in H. inversion H; subst j.
        right. split; [lia|]. exists o. rewrite Nat.sub_diag. split; [reflexivity | exact Hko].
      * rewrite lookup_insert_ne in H by exact Hne. left. exact H.
    + right. split; [lia|]. exists o'. split; [|exact Hk].
      replace (j - idx)%nat with (S (j - S idx)) by lia. exact Hat.
Qed.

End PortMap.

Lemma omap_NoDup_index {A B} (f : A -> option B) (l : list A) :
  NoDup (omap f l) ->
  forall i j a b k, l !! i = Some a -> l !! j = Some b ->
    f a = Some k -> f b = Some k -> i = j.
Proof.
  induction l as [|x l IH]; intros Hnd i j a b k Hi Hj Ha Hb; [inversion Hi|].
  assert (Hin : forall n c, l !! n = Some c -> f c = Some k -> k ∈ omap f l).
  { intros n c Hn Hc. apply list_elem_of_omap. exists c. split; [|exact Hc].
    eapply list_elem_of_lookup_2. exact Hn. }
  cbn in Hnd. destruct i as [|i], j as [|j]; cbn in Hi, Hj.
  - reflexivity.
  - inversion Hi; subst x. rewrite Ha in Hnd. apply NoDup_cons in Hnd.
    destruct Hnd as [Hnot _]. exfalso. apply Hnot. eapply Hin; eassumption.
  - inversion Hj; subst x. rewrite Hb in Hnd. apply NoDup_cons in Hnd.
    destruct Hnd as [Hnot _]. exfalso. apply Hnot. eapply Hin; eassumption.
  - f_equal. apply (IH ltac:(destruct (f x); [apply NoDup_cons in Hnd; tauto | exact Hnd])
                       i j a b k); assumption.
Qed.

(** With pairwise distinct provisional ports, the port map built by
    WriteOutputs sends exactly the port of each platform intent to the index
    of that intent. *)
Lemma buildOutputs_portMap (mi mp : string) (vid aud : jsval) (shadows2 : list Shadow)
    (outs : list Output) (i : nat) (o : Output) (q p : Z) :
  NoDup (omap keyOf outs) ->
  outs !! i = Some o -> keyOf o = Some q ->
  (snd (buildOutputs mi mp vid aud shadows2 outs) !! p = Some i <-> p = q).
Proof.
  intros Hnd Hat Hk. unfold buildOutputs. split.
  - intros H. apply outputLoop_lookup_inv in H. cbn [snd] in H.
    destruct H as [H | (_ & o' & Hat' & Hk')]; [rewrite lookup_empty in H; discriminate|].
    rewrite Nat.sub_0_r in Hat'. rewrite Hat in Hat'. inversion Hat'; subst o'.
    congruence.
  - intros ->.
    destruct (outputLoop_is_Some mi mp vid aud outs (currentOutputsOf shadows2, ∅) 0%nat q)
      as [j Hj].
    { right. exists o. split; [|exact Hk]. apply list_elem_of_In.
      eapply list_elem_of_lookup_2. exact Hat. }
    rewrite Hj. f_equal.
    apply outputLoop_lookup_inv in Hj. cbn [snd] in Hj.
    destruct Hj as [Hj | (_ & o' & Hat' & Hk')]; [rewrite lookup_empty in Hj; discriminate|].
    rewrite Nat.sub_0_r in Hat'.
    eapply (omap_NoDup_index keyOf outs Hnd); eassumption.
Qed.

Lemma fold_left_pointwise {A B} (f g : A -> B -> A) (l : list B) :
  (forall a b, f a b = g a b) -> forall a, fold_left f l a = fold_left g l a.
Proof.
  intros H. induction l as [|b l IH]; intros a; cbn; [reflexivity|].
  rewrite H. apply IH.
Qed.

Lemma setVideonId_twice (o : Output) (a b : jsval) :
  setVideonId (setVideonId o a) b = setVideonId o b.
Proof. reflexivity. Qed.

(** Matching the reported entries one after the other leaves on an intent
    the id of the last entry that hit it. *)
Lemma fold_hits (h : Entry -> bool) (entries : list Entry) (o : Output) :
  fold_left (fun o ro => if h ro then setVideonId o (streamIdOf ro) else o) entries o
  = withLastId o (List.filter h entries).
Proof.
  induction entries as [|ro entries IH] using rev_ind; [reflexivity|].
  rewrite fold_left_app, IH, List.filter_app. cbn.
  unfold withLastId. destruct (h ro).
  - rewrite last_snoc. destruct (last (List.filter h entries)); reflexivity.
  - rewrite app_nil_r. reflexivity.
Qed.

(** [matchReported] read at one index of [newOutputs]. *)
Lemma matchReported_lookup (pm : gmap Z nat) (outs : list Output) (ro : Entry) (i : nat) :
  matchReported pm outs ro !! i
  = (fun o =>
       if match roPortOf ro with
          | Some p => optStrEq (roTypeOf ro) "srt" && negb (p =? 0)
                      && bool_decide (pm !! p = Some i)
          | None => false
          end
       then setVideonId o (streamIdOf ro) else o) <$> outs !! i.
Proof.
  unfold matchReported. destruct (roPortOf ro) as [p|]; [|destruct (outs !! i); reflexivity].
  destruct (optStrEq (roTypeOf ro) "srt" && negb (p =? 0)) eqn:Hsrt; cbn [andb];
    [|destruct (outs !! i); reflexivity].
  destruct (pm !! p) as [j|] eqn:Hp.
  - unfold assignVideonId. destruct (decide (j = i)) as [->|Hne].
    + rewrite list_lookup_alter_eq, bool_decide_eq_true_2 by reflexivity. reflexivity.
    + rewrite list_lookup_alter_ne by exact Hne.
      rewrite bool_decide_eq_false_2 by congruence. destruct (outs !! i); reflexivity.
  - rewrite bool_decide_eq_false_2 by congruence. destruct (outs !! i); reflexivity.
Qed.

Lemma fold_matchReported_lookup (pm : gmap Z nat) (entries : list Entry) :
  forall (outs : list Output) (i : nat),
  fold_left (matchReported pm) entries outs !! i
  = (fun o =>
       fold_left
         (fun o ro =>
            if match roPortOf ro with
               | Some p => optStrEq (roTypeOf ro) "srt" && negb (p =? 0)
                           && bool_decide (pm !! p = Some i)
               | None => false
               end
            then setVideonId o (streamIdOf ro) else o) entries o) <$> outs !! i.
Proof.
  induction entries as [|ro entries IH]; intros outs i; cbn [fold_left].
  - destruct (outs !! i); reflexivity.
  - rewrite IH, matchReported_lookup. destruct (outs !! i); reflexivity.
Qed.

(** The ports given out by the pre-assignment are pairwise distinct, also
    when intents with other targets stand between the platform intents. *)
Lemma preAssign_keys (outs : list Output) : forall c outs',
  preAssign c outs = Ok outs' ->
  exists n, 0 <= n /\ omap keyOf outs' = seqZ c n.
Proof.
  induction outs as [|o rest IH]; intros c outs' H; cbn [preAssign] in H.
  - inversion H; subst. exists 0. split; [lia | reflexivity].
  - destruct (isPlatform (target o)) eqn:Hp.
    + destruct (10100 <? c); [discriminate|].
      destruct (preAssign (c + 1) rest) as [rest'|] eqn:Hrest; [|discriminate].
      inversion H; subst outs'. destruct (IH _ _ Hrest) as (n & Hpos & Hn).
      exists (n + 1). split; [lia|]. cbn. unfold keyOf at 1. cbn. rewrite Hp, Hn.
      rewrite (seqZ_cons c (n + 1)) by lia. f_equal. f_equal; lia.
    + destruct (preAssign c rest) as [rest'|] eqn:Hrest; [|discriminate].
      inversion H; subst outs'. destruct (IH _ _ Hrest) as (n & Hpos & Hn).
      exists n. split; [lia|]. cbn. unfold keyOf at 1. rewrite Hp. exact Hn.
Qed.

Lemma preAssign_keys_NoDup (outs outs' : list Output) (c : Z) :
  preAssign c outs = Ok outs' -> NoDup (omap keyOf outs').
Proof.
  intros H. destruct (preAssign_keys _ _ _ H) as (n & _ & ->). apply NoDup_seqZ.
Qed.

(** X2 -- VerifyOutputs on a state reported as an array.  With pairwise
    distinct provisional ports (as the pre-assignment gives them), after the
    matching every platform intent remembers the id ([out_stream_id || id])
    of the last reported entry of type srt whose non-zero port is the port
    given to that intent, or is as before when no entry reports that port;
    intents with other targets are as before. *)
Theorem verify_outputs_by_port (mi mp : string) (vid aud : jsval)
    (shadows2 : list Shadow) (outs : list Output) (entries : list Entry)
    (i : nat) (o : Output) :
  NoDup (omap keyOf outs) -> outs !! i = Some o ->
  verifyOutputs (Some (StArray entries))
    (snd (buildOutputs mi mp vid aud shadows2 outs)) outs !! i
  = Some match keyOf o with
         | Some q => withLastId o (List.filter (reportsPort q) entries)
         | None => o
         end.
Proof.
  intros Hnd Hat. cbn [verifyOutputs].
  rewrite fold_matchReported_lookup, Hat. cbn [fmap option_fmap option_map]. f_equal.
  set (pm := snd (buildOutputs mi mp vid aud shadows2 outs)).
  destruct (keyOf o) as [q|] eqn:Hk.
  - rewrite <- fold_hits. apply fold_left_pointwise. intros o' ro.
    replace (reportsPort q ro) with
      (match roPortOf ro with
       | Some p => optStrEq (roTypeOf ro) "srt" && negb (p =? 0)
                   && bool_decide (pm !! p = Some i)
       | None => false
       end); [reflexivity|].
    unfold reportsPort. destruct (roPortOf ro) as [p|].
    + destruct (decide (p = q)) as [->|Hne].
      * rewrite (bool_decide_eq_true_2 (Some q = Some q)) by reflexivity.
        rewrite bool_decide_eq_true_2
          by (apply (buildOutputs_portMap mi mp vid aud shadows2 outs i o q q); auto).
        destruct (optStrEq (roTypeOf ro) "srt"), (q =? 0); reflexivity.
      * rewrite (bool_decide_eq_false_2 (Some p = Some q)) by congruence.
        rewrite bool_decide_eq_false_2.
        -- destruct (optStrEq (roTypeOf ro) "srt"), (p =? 0), (q =? 0); reflexivity.
        -- intros H. apply Hne.
           apply (buildOutputs_portMap mi mp vid aud shadows2 outs i o q p); auto.
    + rewrite bool_decide_eq_false_2 by discriminate.
      destruct (optStrEq (roTypeOf ro) "srt"); reflexivity.
  - transitivity (fold_left (fun (o' : Output) (_ : Entry) => o') entries o).
    + apply fold_left_pointwise. intros o' ro.
      destruct (roPortOf ro) as [p|]; [|reflexivity].
      rewrite bool_decide_eq_false_2; [rewrite andb_false_r; reflexivity|].
      intros H. unfold pm, buildOutputs in H.
      apply outputLoop_lookup_inv in H. cbn [snd] in H.
      destruct H as [H | (_ & o2 & Hat' & Hk')]; [rewrite lookup_empty in H; discriminate|].
      rewrite Nat.sub_0_r, Hat in Hat'. inversion Hat'; subst o2. congruence.
    + clear. induction entries; [reflexivity | assumption].
Qed.

(** The example: the intent on port 10001 and the listener 20. *)
Lemma verify_outputs_by_port_witness :
  NoDup (omap keyOf [setTempPort tellyoOutput (Some 10001)])
  /\ verifyOutputs (Some (StArray [listener20]))
       (snd (buildOutputs "" "" (JNum 10) (JNum 11) shadowsEmpty
               [setTempPort tellyoOutput (Some 10001)]))
       [setTempPort tellyoOutput (Some 10001)] !! 0%nat
     = Some (setVideonId (setTempPort tellyoOutput (Some 10001)) (JNum 20)).
Proof.
  assert (Hnd : NoDup (omap keyOf [setTempPort tellyoOutput (Some 10001)])).
  { cbn. apply NoDup_singleton. }
  split; [exact Hnd|].
  exact (verify_outputs_by_port "" "" (JNum 10) (JNum 11) shadowsEmpty
           [setTempPort tellyoOutput (Some 10001)] [listener20] 0
           (setTempPort tellyoOutput (Some 10001)) Hnd eq_refl).
Defined.

(** C6 -- VerifyOutputs.  The example scenario: the intent was
    given port 10001 and the Outputs shadow read back holds the srt entry
    with id 20 on port 10001.  Reported in an array, the entry gives the
    intent [videonId = 20].  Reported in a map, the same entry is not looked
    at: a state that is not an array leaves every intent as it was, so the
    intent stays without an id. *)
Theorem verify_outputs_example :
  (forall props portMap newOutputs,
     verifyOutputs (Some (StObject props)) portMap newOutputs = newOutputs)
  /\ (let outs := [setTempPort tellyoOutput (Some 10001)] in
      let portMap := snd (buildOutputs "" "" (JNum 10) (JNum 11) shadowsEmpty outs) in
      List.map videonId (verifyOutputs (Some (StArray [listener20])) portMap outs)
        = [JNum 20]
      /\ List.map videonId
           (verifyOutputs (Some (StObject [("20", listener20)])) portMap outs)
        = [JUndef]).
Proof.
  split; [reflexivity|]. split; vm_compute; reflexivity.
Qed.

End OutputProps.

(** ** Bulk restart *)

Module RestartProps.
Import Detail.

Lemma filter_none {A} (p : A -> bool) (l : list A) :
  Forall (fun x => p x = false) l -> List.filter p l = [].
Proof.
  induction 1 as [|x l Hx _ IH]; cbn; [reflexivity|]. rewrite Hx. exact IH.
Qed.



End RestartProps.

(** ** Safe mode *)

Module SafeModeProps.
Import Detail.

Section Blocked.

Context {W : Type} (be : Backend W).
Variables (parseOutputs : ShadowsRes -> list OutRow)
          (accountDomainOf : string -> string) (now : Z).

Lemma blocked_signal (s : St W) : blocked true s (emitS EvWriteBlocked s).
Proof. repeat split. Qed.

Lemma blocked_silent (s : St W) : blocked false s s.
Proof. repeat split. cbn. rewrite app_nil_r. reflexivity. Qed.

(** C9 -- safe mode, as the handlers have it.  With [safeMode] on, every
    handler of the detail view that would write -- configure, restart,
    toggle of one output, device command, rename, Tellyo delete, CLOUDPORT
    toggle and delete -- ends at once without error, having called no
    backend and changed neither the profiles nor the pending confirmation.
    Restart, toggle, command and rename always signal the write-blocked
    handler first; configure and CLOUDPORT delete signal it when a profile
    is selected, Tellyo delete and CLOUDPORT toggle when the selected
    profile remembers a channel id, respectively an ingest id; otherwise
    these four return without a signal, their own guard coming first. *)
Theorem safe_mode_blocks (props : Props) (s : St W) :
  safeMode props = true ->
  (exists s', handleConfigure be accountDomainOf now props s = (Ok tt, s')
              /\ blocked (hasProfile props) s s')
  /\ (exists s', handleRestart be props s = (Ok tt, s') /\ blocked true s s')
  /\ (forall it, exists s',
        toggleOut be parseOutputs props it s = (Ok tt, s') /\ blocked true s s')
  /\ (forall label payload, exists s',
        doCmd be props label payload s = (Ok tt, s') /\ blocked true s s')
  /\ (forall devName, exists s',
        doRename be props devName s = (Ok tt, s') /\ blocked true s s')
  /\ (exists s', deleteTellyoChannel props s = (Ok tt, s')
                 /\ blocked (hasChannel props) s s')
  /\ (exists s', toggleCloudport be accountDomainOf props s = (Ok tt, s')
                 /\ blocked (hasIngest props) s s')
  /\ (exists s', deleteCloudportIngest props s = (Ok tt, s')
                 /\ blocked (hasProfile props) s s').
Proof.
  intros Hsafe.
  split; [|split; [|split; [|split; [|split; [|split; [|split]]]]]].
  - unfold handleConfigure, hasProfile. destruct (cur props); [|eexists; split; [reflexivity | apply blocked_silent]].
    rewrite Hsafe. run. eexists. split; [reflexivity|]. repeat split.
  - unfold handleRestart. rewrite Hsafe. eexists. split; [reflexivity | apply blocked_signal].
  - intros it. unfold toggleOut. rewrite Hsafe.
    eexists. split; [reflexivity | apply blocked_signal].
  - intros label payload. unfold doCmd. rewrite Hsafe.
    eexists. split; [reflexivity | apply blocked_signal].
  - intros devName. unfold doRename. rewrite Hsafe.
    eexists. split; [reflexivity | apply blocked_signal].
  - unfold deleteTellyoChannel, hasChannel.
    destruct (cur props) as [c|]; [|eexists; split; [reflexivity | apply blocked_silent]].
    destruct (truthy (lastChannelIdOf c)); cbn [negb];
      [|eexists; split; [reflexivity | apply blocked_silent]].
    rewrite Hsafe. eexists. split; [reflexivity | apply blocked_signal].
  - unfold toggleCloudport, hasIngest.
    destruct (cur props) as [c|]; [|eexists; split; [reflexivity | apply blocked_silent]].
    destruct (truthy (lastIngestIdOf c)); cbn [negb];
      [|eexists; split; [reflexivity | apply blocked_silent]].
    rewrite Hsafe. eexists. split; [reflexivity | apply blocked_signal].
  - unfold deleteCloudportIngest, hasProfile.
    destruct (cur props) as [c|]; [|eexists; split; [reflexivity | apply blocked_silent]].
    rewrite Hsafe. eexists. split; [reflexivity | apply blocked_signal].
Qed.

End Blocked.

(** Safe mode on and no profile selected: [handleConfigure] returns without
    having signalled the write-blocked handler. *)
Lemma safe_mode_silent_return :
  handleConfigure scripted firstLabel 1700000000 (sampleProps true false None)
    (start (deviceWorld []) [exampleProfile])
  = (Ok tt, start (deviceWorld []) [exampleProfile])
  /\ log (start (deviceWorld []) [exampleProfile]) = [].
Proof. split; reflexivity. Qed.

(** Safe mode on with the example profile selected: configure signals and
    stops, with no call logged. *)
Lemma safe_mode_blocks_witness :
  safeMode (sampleProps true false (Some exampleProfile)) = true
  /\ exists s',
       handleConfigure scripted firstLabel 1700000000
         (sampleProps true false (Some exampleProfile))
         (start (deviceWorld []) [exampleProfile]) = (Ok tt, s')
       /\ blocked true (start (deviceWorld []) [exampleProfile]) s'.
Proof.
  split; [reflexivity|].
  exact (proj1 (safe_mode_blocks scripted rowsOf firstLabel 1700000000
                  (sampleProps true false (Some exampleProfile))
                  (start (deviceWorld []) [exampleProfile]) eq_refl)).
Defined.

End SafeModeProps.

(** ** ConfigureDownstream *)

Module DownstreamProps.
Import Detail.

Section Keeps.

Context {W : Type} {X : Type} (proj : UI -> X).

Lemma keeps_ret {A} (a : A) : keeps (W := W) proj (ret a).
Proof. intros s. reflexivity. Qed.

Lemma keeps_throw {A} (msg : string) : keeps (W := W) (A := A) proj (throw msg).
Proof. intros s. reflexivity. Qed.

Lemma keeps_liftExc {A} (r : Exc A) : keeps (W := W) proj (liftExc r).
Proof. intros s. reflexivity. Qed.

Lemma keeps_emit (e : Event) : keeps (W := W) proj (emit e).
Proof. intros s. reflexivity. Qed.

Lemma keeps_update (f : UI -> UI) :
  (forall u, proj (f u) = proj u) -> keeps (W := W) proj (update f).
Proof. intros H s. cbn. apply H. Qed.

Lemma keeps_request {A} (f : W -> Exc A * W) : keeps proj (request f).
Proof. intros s. unfold request. destruct (f (world s)). reflexivity. Qed.

Lemma keeps_bind {A B} (m : M W A) (k : A -> M W B) :
  keeps proj m -> (forall a, keeps proj (k a)) -> keeps proj (bind m k).
Proof.
  intros Hm Hk s. unfold bind. specialize (Hm s).
  destruct (m s) as [[a|msg] s']; cbn in *.
  - rewrite Hk. exact Hm.
  - exact Hm.
Qed.

Lemma keeps_call {A} (e : Event) (f : W -> Exc A * W) : keeps proj (call e f).
Proof. apply keeps_bind; [apply keeps_emit | intros; apply keeps_request]. Qed.

Lemma keeps_tryCatch {A} (m : M W A) (h : string -> M W A) :
  keeps proj m -> (forall msg, keeps proj (h msg)) -> keeps proj (tryCatch m h).
Proof.
  intros Hm Hh s. unfold tryCatch. specialize (Hm s).
  destruct (m s) as [[a|msg] s']; cbn in *.
  - exact Hm.
  - rewrite Hh. exact Hm.
Qed.

End Keeps.

Section Emits.

Context {W : Type} (P : Event -> bool).

Lemma emits_nothing {A} (m : M W A) :
  (forall s, log (snd (m s)) = log s) -> emits P m.
Proof.
  intros H s. exists []. rewrite H, app_nil_r. split; [reflexivity | constructor].
Qed.

Lemma emits_ret {A} (a : A) : emits (W := W) P (ret a).
Proof. apply emits_nothing. reflexivity. Qed.

Lemma emits_throw {A} (msg : string) : emits (W := W) (A := A) P (throw msg).
Proof. apply emits_nothing. reflexivity. Qed.

Lemma emits_liftExc {A} (r : Exc A) : emits (W := W) P (liftExc r).
Proof. apply emits_nothing. reflexivity. Qed.

Lemma emits_update (f : UI -> UI) : emits (W := W) P (update f).
Proof. apply emits_nothing. reflexivity. Qed.

Lemma emits_request {A} (f : W -> Exc A * W) : emits P (request f).
Proof.
  apply emits_nothing. intros s. unfold request. destruct (f (world s)). reflexivity.
Qed.

Lemma emits_emit (e : Event) : P e = true -> emits (W := W) P (emit e).
Proof. intros H s. exists [e]. split; [reflexivity | repeat constructor; exact H]. Qed.

Lemma emits_bind {A B} (m : M W A) (k : A -> M W B) :
  emits P m -> (forall a, emits P (k a)) -> emits P (bind m k).
Proof.
  intros Hm Hk s. unfold bind. destruct (Hm s) as (l & Hl & HP).
  destruct (m s) as [[a|msg] s']; cbn [snd] in *.
  - destruct (Hk a s') as (l' & Hl' & HP'). exists (l ++ l')%list.
    rewrite Hl', Hl, app_assoc. split; [reflexivity | apply Forall_app; split; assumption].
  - exists l. split; assumption.
Qed.

Lemma emits_call {A} (e : Event) (f : W -> Exc A * W) :
  P e = true -> emits P (call e f).
Proof.
  intros H. apply emits_bind; [apply emits_emit, H | intros; apply emits_request].
Qed.

End Emits.

(** Proves [keeps proj m] for a handler [m] by going through its text. *)
Ltac keeps_step :=
  first
    [ apply keeps_ret | apply keeps_throw | apply keeps_liftExc | apply keeps_emit
    | apply keeps_call | apply keeps_request
    | apply keeps_update; intros ?; reflexivity
    | apply keeps_bind; [|intros ?]
    | apply keeps_tryCatch; [|intros ?]
    | match goal with
      | |- keeps _ (if ?b then _ else _) => destruct b
      | |- keeps _ (match ?x with _ => _ end) => destruct x
      end ].

Ltac keeps_all := repeat keeps_step.

Section Platforms.

Context {W : Type} (be : Backend W).
Variables (accountDomainOf : string -> string) (now : Z).
Variables (props : Props) (cur : Profile) (deviceIp : option string).

Lemma configureTellyo_keeps_cloudStatus (newOutputs : list Output) :
  keeps ui_cloudStatus (configureTellyo be now props cur deviceIp newOutputs).
Proof. unfold configureTellyo, upsertChannel. keeps_all. Qed.

Lemma configureTellyo_keeps_err (newOutputs : list Output) :
  keeps ui_err (configureTellyo be now props cur deviceIp newOutputs).
Proof. unfold configureTellyo, upsertChannel. keeps_all. Qed.

Lemma configureCloudport_keeps_tellyoStatus (newOutputs : list Output) :
  keeps ui_tellyoStatus
    (configureCloudport be accountDomainOf props cur deviceIp newOutputs).
Proof.
  unfold configureCloudport, upsertIngest, cloudportFetchByLabel, cloudportUpdate, sleep.
  keeps_all.
Qed.

Lemma configureCloudport_keeps_err (newOutputs : list Output) :
  keeps ui_err (configureCloudport be accountDomainOf props cur deviceIp newOutputs).
Proof.
  unfold configureCloudport, upsertIngest, cloudportFetchByLabel, cloudportUpdate, sleep.
  keeps_all.
Qed.

(** Neither platform part lets an error out: what its [try] throws ends in
    its own status. *)
Lemma configureTellyo_total (newOutputs : list Output) (s : St W) :
  fst (configureTellyo be now props cur deviceIp newOutputs s) = Ok tt.
Proof.
  unfold configureTellyo.
  destruct (List.filter (isTarget "Tellyo Studio") newOutputs) as [|out rest];
    [reflexivity|].
  destruct (numTruthy (_tempPort out)); [|reflexivity].
  unfold tryCatch. destruct (upsertChannel _ _ _ _ _ _ s) as [[[]|msg] s']; reflexivity.
Qed.

Lemma configureCloudport_total (newOutputs : list Output) (s : St W) :
  fst (configureCloudport be accountDomainOf props cur deviceIp newOutputs s) = Ok tt.
Proof.
  unfold configureCloudport.
  destruct (List.filter (isTarget "Amagi CLOUDPORT") newOutputs) as [|out rest];
    [reflexivity|].
  destruct (numTruthy (_tempPort out)); [|reflexivity].
  unfold tryCatch. destruct (upsertIngest _ _ _ _ _ _ s) as [[[]|msg] s']; reflexivity.
Qed.

(** A failure of a platform part is what its status then shows. *)
Lemma configureTellyo_failure (newOutputs : list Output) (port : Z) (msg : string)
    (s s1 : St W) :
  firstPort "Tellyo Studio" newOutputs port ->
  upsertChannel be now props cur deviceIp port s = (Throw msg, s1) ->
  configureTellyo be now props cur deviceIp newOutputs s
  = (Ok tt, updateS (setTellyoStatus (status "error" (errText msg))) s1).
Proof.
  intros (out & rest & Hf & Hp & Hnz) Hrun. unfold configureTellyo.
  rewrite Hf. unfold numTruthy. rewrite Hp.
  destruct (Z.eqb_spec port 0) as [|_]; [contradiction|]. cbn [negb].
  change (default 0 (Some port)) with port.
  unfold tryCatch. rewrite Hrun. reflexivity.
Qed.

Lemma configureCloudport_failure (newOutputs : list Output) (port : Z) (msg : string)
    (s s1 : St W) :
  firstPort "Amagi CLOUDPORT" newOutputs port ->
  upsertIngest be accountDomainOf props cur deviceIp port s = (Throw msg, s1) ->
  configureCloudport be accountDomainOf props cur deviceIp newOutputs s
  = (Ok tt, updateS (setCloudStatus (status "error" (errText msg))) s1).
Proof.
  intros (out & rest & Hf & Hp & Hnz) Hrun. unfold configureCloudport.
  rewrite Hf. unfold numTruthy. rewrite Hp.
  destruct (Z.eqb_spec port 0) as [|_]; [contradiction|]. cbn [negb].
  change (default 0 (Some port)) with port.
  unfold tryCatch. rewrite Hrun. reflexivity.
Qed.

End Platforms.

Section Device.

Context {W : Type} (be : Backend W).

(** The device part only reads and writes shadows and waits. *)
Lemma configureVideon_device_only (props : Props) (cur : Profile)
    (newOutputs : list Output) :
  emits isDeviceStep (configureVideon be props cur newOutputs).
Proof.
  unfold configureVideon, deviceShadows, setDeviceShadows, sleep.
  repeat first
    [ apply emits_ret | apply emits_liftExc | apply emits_update
    | apply emits_emit; reflexivity | apply emits_call; reflexivity
    | apply emits_bind; [|intros ?] ].
Qed.

End Device.

Section Downstream.

Context {W : Type} (be : Backend W).
Variables (accountDomainOf : string -> string) (now : Z).

(** The downstream part runs the Tellyo part and then, from wherever that
    one ended, the CLOUDPORT part. *)
Lemma configureDownstream_both (props : Props) (cur : Profile)
    (newOutputs : list Output) (s : St W) :
  exists s2 s3,
    configureTellyo be now props cur (deviceIpOf props) newOutputs
      (updateS (pushStep "Configuring external services...") s) = (Ok tt, s2)
    /\ configureCloudport be accountDomainOf props cur (deviceIpOf props) newOutputs s2
       = (Ok tt, s3)
    /\ configureDownstream be accountDomainOf now props cur newOutputs s
       = (Ok tt, updateS doneSteps s3)
    /\ ui_cloudStatus (ui s2) = ui_cloudStatus (ui s)
    /\ ui_tellyoStatus (ui s3) = ui_tellyoStatus (ui s2)
    /\ ui_err (ui s3) = ui_err (ui s).
Proof.
  pose proof (configureTellyo_total be now props cur (deviceIpOf props) newOutputs
                (updateS (pushStep "Configuring external services...") s)) as Ht.
  pose proof (configureTellyo_keeps_cloudStatus be now props cur (deviceIpOf props)
                newOutputs (updateS (pushStep "Configuring external services...") s)) as Hkc.
  pose proof (configureTellyo_keeps_err be now props cur (deviceIpOf props)
                newOutputs (updateS (pushStep "Configuring external services...") s)) as Hke.
  destruct (configureTellyo be now props cur (deviceIpOf props) newOutputs
              (updateS (pushStep "Configuring external services...") s))
    as [r2 s2] eqn:Htel.
  cbn [fst snd] in Ht, Hkc, Hke. subst r2.
  pose proof (configureCloudport_total be accountDomainOf props cur (deviceIpOf props)
                newOutputs s2) as Hc.
  pose proof (configureCloudport_keeps_tellyoStatus be accountDomainOf props cur
                (deviceIpOf props) newOutputs s2) as Hkt.
  pose proof (configureCloudport_keeps_err be accountDomainOf props cur
                (deviceIpOf props) newOutputs s2) as Hke2.
  destruct (configureCloudport be accountDomainOf props cur (deviceIpOf props)
              newOutputs s2) as [r3 s3] eqn:Hcp.
  cbn [fst snd] in Hc, Hkt, Hke2. subst r3.
  exists s2, s3. split; [reflexivity|]. split; [exact Hcp|].
  split.
  - unfold configureDownstream. run. unfold bind at 1. rewrite Htel.
    unfold bind at 1. rewrite Hcp. run. reflexivity.
  - split; [exact Hkc|]. split; [exact Hkt|]. rewrite Hke2, Hke. reflexivity.
Qed.

(** The payload of a run of the orchestrator can be built as soon as the
    Tellyo profile name is set; it carries the channel name and the stream
    URL of the provisional port. *)
Lemma payload_built (cur : Profile) (deviceIp : option string) (port : Z)
    (channels : list Channel) (channelId : jsval) :
  tellyoProfileSet cur = true ->
  exists pl,
    buildTellyoChannelPayload now cur
      (telConfigOf cur (channelNameOf cur) (streamUrlOf deviceIp port))
      deviceIp channels channelId = Ok pl
    /\ pl_name pl = Some (channelNameOf cur)
    /\ pl_streamUrl pl = streamUrlOf deviceIp port.
Proof.
  intros Hset. unfold buildTellyoChannelPayload, telConfigOf.
  cbn [tc_profile tc_streamUrl tc_channelName].
  assert (Hp : strTruthy (Some (strOr
                 (tc_profile match p_tellyo cur with
                             | Some t => t_config t
                             | None => emptyTellyoConfig
                             end) "")) = true).
  { unfold tellyoProfileSet in Hset. destruct (p_tellyo cur) as [t|]; [|discriminate].
    cbn in Hset |- *. destruct (tc_profile (t_config t)) as [x|]; [|discriminate].
    cbn in Hset |- *. destruct (String.eqb x "") eqn:Hx; [discriminate|].
    cbn. rewrite Hx. reflexivity. }
  rewrite Hp. cbn [negb].
  eexists. split; [reflexivity|]. split; reflexivity.
Qed.

(** The Tellyo part when the channel is found: the listing, then the update
    of the channel found, whatever the backend answers to it. *)
Lemma upsertChannel_found (props : Props) (cur : Profile) (deviceIp : option string)
    (port : Z) (channels : list Channel) (w1 : W) (ch : Channel) (s : St W) :
  tellyoSettingsMissing props = false ->
  beTellyoListChannels be (world s) = (Ok channels, w1) ->
  findChannel cur (channelNameOf cur) channels = Some ch ->
  (exists r s' l,
     upsertChannel be now props cur deviceIp port s = (r, s')
     /\ added s s' l /\ Forall (fun e => isCreate e = false) l)
  /\ (tellyoProfileSet cur = true ->
      exists pl r s',
        upsertChannel be now props cur deviceIp port s = (r, s')
        /\ added s s' [EvTellyoListChannels; EvTellyoUpdateChannel (ch_id ch) pl]
        /\ pl_name pl = Some (channelNameOf cur)
        /\ pl_streamUrl pl = streamUrlOf deviceIp port).
Proof.
  intros Hset Hlist Hfind.
  assert (Hvalid : tellyoProfileSet cur = true ->
            exists pl r s',
              upsertChannel be now props cur deviceIp port s = (r, s')
              /\ added s s' [EvTellyoListChannels; EvTellyoUpdateChannel (ch_id ch) pl]
              /\ pl_name pl = Some (channelNameOf cur)
              /\ pl_streamUrl pl = streamUrlOf deviceIp port).
  { intros Hprof.
    destruct (payload_built cur deviceIp port channels (ch_id ch) Hprof)
      as (pl & Hpl & Hname & Hurl).
    exists pl. unfold upsertChannel. rewrite Hset. run.
    erewrite bind_call_ok by (cbn [world]; exact Hlist). run.
    rewrite Hfind, Hpl. run. unfold bind at 1. unfold bind at 1. rewrite call_run.
    cbn [world ui log].
    destruct (beTellyoUpdateChannel be (ch_id ch) pl w1) as [[[]|msg] w2]; cbn [fst snd].
    - run. destruct (truthy (ch_id ch)); run;
        (eexists _, _; split; [reflexivity|]; split; [|split; assumption];
         unfold added; run; rewrite <- !app_assoc; reflexivity).
    - eexists _, _. split; [reflexivity|]. split; [|split; assumption].
      unfold added. cbn [log]. rewrite <- !app_assoc. reflexivity. }
  split; [|exact Hvalid].
  destruct (tellyoProfileSet cur) eqn:Hprof.
  - destruct (Hvalid eq_refl) as (pl & r & s' & Hrun & Hadd & _).
    exists r, s', [EvTellyoListChannels; EvTellyoUpdateChannel (ch_id ch) pl].
    split; [exact Hrun|]. split; [exact Hadd|]. repeat constructor.
  - unfold upsertChannel. rewrite Hset. run.
    erewrite bind_call_ok by (cbn [world]; exact Hlist). run.
    rewrite Hfind.
    assert (Hthrow : exists msg,
              buildTellyoChannelPayload now cur
                (telConfigOf cur (channelNameOf cur) (streamUrlOf deviceIp port))
                deviceIp channels (ch_id ch) = Throw msg).
    { unfold buildTellyoChannelPayload, telConfigOf. cbn [tc_profile].
      unfold tellyoProfileSet in Hprof.
      assert (Hp : strTruthy (Some (strOr
                     (tc_profile match p_tellyo cur with
                                 | Some t => t_config t
                                 | None => emptyTellyoConfig
                                 end) "")) = false).
      { destruct (p_tellyo cur) as [t|]; [|reflexivity].
        cbn in Hprof |- *. destruct (tc_profile (t_config t)) as [x|]; [|reflexivity].
        cbn in Hprof |- *. destruct (String.eqb x "") eqn:Hx; [reflexivity|].
        discriminate. }
      rewrite Hp. eexists. reflexivity. }
    destruct Hthrow as (msg & Hmsg). rewrite Hmsg. run.
    eexists _, _, [EvTellyoListChannels]. split; [reflexivity|].
    split; [unfold added; run; reflexivity | repeat constructor].
Qed.

(** The CLOUDPORT part when the ingest is found: the wait, the lookup, then
    the update of the ingest found. *)
Lemma upsertIngest_found (props : Props) (cur : Profile) (port : Z)
    (ingests : list Ingest) (w1 : W) (ing : Ingest) (s : St W) :
  cloudportSettingsMissing props = false ->
  beCloudportList be (ingestLabelOf cur) (world s) = (Ok ingests, w1) ->
  matchIngest (ingestLabelOf cur) ingests = Some ing ->
  exists r s',
    upsertIngest be accountDomainOf props cur (deviceIpOf props) port s = (r, s')
    /\ added s s' [EvSleep 1000; EvCloudportFetchByLabel (ingestLabelOf cur);
                   EvCloudportUpdate (ingestIdOf ing)
                     (ingestPayloadFor accountDomainOf props cur port)].
Proof.
  intros Hset Hlist Hmatch. unfold upsertIngest. rewrite Hset. run.
  unfold cloudportFetchByLabel. rewrite bind_assoc.
  erewrite bind_call_ok by (cbn [world]; exact Hlist). run.
  rewrite Hmatch. unfold cloudportUpdate. rewrite bind_assoc. run.
  fold (ingestPayloadFor accountDomainOf props cur port).
  assert (Hlog : forall (r : Exc unit) (s' : St W),
            log s' = (((log s ++ [EvSleep 1000]) ++ [EvCloudportFetchByLabel (ingestLabelOf cur)])
                      ++ [EvCloudportUpdate (ingestIdOf ing)
                            (ingestPayloadFor accountDomainOf props cur port)])%list ->
            added s s' [EvSleep 1000; EvCloudportFetchByLabel (ingestLabelOf cur);
                        EvCloudportUpdate (ingestIdOf ing)
                          (ingestPayloadFor accountDomainOf props cur port)]).
  { intros _ s' H. unfold added. rewrite H, <- !app_assoc. reflexivity. }
  destruct (ingestIdOf ing) eqn:Hid; run;
    try (eexists _, _; split; [reflexivity|]; apply (Hlog (Ok tt)); reflexivity);
    (unfold bind at 1, request; cbn [world ui log];
     match goal with
     | |- context [beCloudportPut be ?i ?p ?w] =>
         destruct (beCloudportPut be i p w) as [[[]|msg] w2]
     end; run;
     eexists _, _; (split; [reflexivity|]); apply (Hlog (Ok tt)); reflexivity).
Qed.


(** C7 -- the failure policy of [handleConfigure].  Let the device part
    (from the first shadow read to the verification of the outputs) throw
    [e].  Without bypass the handler stops there: it reports the failure,
    resets both platform statuses and calls nothing more, so that all it
    has called are shadow reads, shadow writes and waits.  With bypass it
    records the failure as "(Bypassed)" and runs the downstream part on the
    working copy of the outputs as the pre-assignment left it, each platform
    intent carrying its provisional port.  In the downstream part the
    CLOUDPORT part always runs after the Tellyo part, whatever happened
    there; neither part throws; a failure inside a part ends as the error
    status of that platform, and the Tellyo part leaves the CLOUDPORT status
    alone, the CLOUDPORT part the Tellyo status, and both the device
    error. *)
Theorem device_failure_policy (props : Props) (cur : Profile) (outs : list Output)
    (e : string) (s s1 : St W) :
  Detail.cur props = Some cur -> safeMode props = false ->
  preAssign 10001 (p_outputs cur) = Ok outs ->
  configureVideon be props cur outs (initConfigure s) = (Throw e, s1) ->
  (bypassVideonError props = false ->
     handleConfigure be accountDomainOf now props s = (Ok tt, failed e s1)
     /\ (exists l, log (failed e s1) = (log s ++ l)%list
                    /\ Forall (fun ev => isDeviceStep ev = true) l)
     /\ world (failed e s1) = world s1
     /\ ui_profiles (ui (failed e s1)) = ui_profiles (ui s1)
     /\ ui_err (ui (failed e s1)) = "Videon config failed: " +:+ errText e
     /\ ui_tellyoStatus (ui (failed e s1)) = status "idle" ""
     /\ ui_cloudStatus (ui (failed e s1)) = status "idle" "")
  /\ (bypassVideonError props = true ->
        handleConfigure be accountDomainOf now props s
        = configureDownstream be accountDomainOf now props cur outs (bypassed e s1)
        /\ log (bypassed e s1) = log s1
        /\ ui_err (ui (bypassed e s1))
           = "Videon config failed (Bypassed): " +:+ errText e
        /\ exists n, 0 <= n /\ omap keyOf outs = seqZ 10001 n)
  /\ (forall newOutputs s0, exists s2 s3,
        configureTellyo be now props cur (deviceIpOf props) newOutputs
          (updateS (pushStep "Configuring external services...") s0) = (Ok tt, s2)
        /\ configureCloudport be accountDomainOf props cur (deviceIpOf props)
             newOutputs s2 = (Ok tt, s3)
        /\ configureDownstream be accountDomainOf now props cur newOutputs s0
           = (Ok tt, updateS doneSteps s3)
        /\ ui_cloudStatus (ui s2) = ui_cloudStatus (ui s0)
        /\ ui_tellyoStatus (ui s3) = ui_tellyoStatus (ui s2)
        /\ ui_err (ui s3) = ui_err (ui s0))
  /\ (forall newOutputs port msg s0 s',
        firstPort "Tellyo Studio" newOutputs port ->
        upsertChannel be now props cur (deviceIpOf props) port s0 = (Throw msg, s') ->
        configureTellyo be now props cur (deviceIpOf props) newOutputs s0
        = (Ok tt, updateS (setTellyoStatus (status "error" (errText msg))) s'))
  /\ (forall newOutputs port msg s0 s',
        firstPort "Amagi CLOUDPORT" newOutputs port ->
        upsertIngest be accountDomainOf props cur (deviceIpOf props) port s0
        = (Throw msg, s') ->
        configureCloudport be accountDomainOf props cur (deviceIpOf props) newOutputs s0
        = (Ok tt, updateS (setCloudStatus (status "error" (errText msg))) s')).
Proof.
  intros Hcur Hsafe Hpre Hdev.
  pose proof (EncoderProps.handleConfigure_device_failure be accountDomainOf now
                props cur outs e s s1 Hcur Hsafe Hpre Hdev) as Hrun.
  split; [|split; [|split; [|split]]].
  - intros Hb. rewrite Hb in Hrun. split; [exact Hrun|].
    split; [|repeat split].
    destruct (configureVideon_device_only be props cur outs (initConfigure s))
      as (l & Hl & HP).
    rewrite Hdev in Hl. exists l. split; [exact Hl | exact HP].
  - intros Hb. rewrite Hb in Hrun. split; [exact Hrun|].
    split; [reflexivity|]. split; [reflexivity|].
    apply (OutputProps.preAssign_keys _ _ _ Hpre).
  - intros newOutputs s0. apply configureDownstream_both.
  - intros newOutputs port msg s0 s'. apply configureTellyo_failure.
  - intros newOutputs port msg s0 s'. apply configureCloudport_failure.
Qed.

End Downstream.


(** The device refuses the Encoders write.  Without bypass the handler has
    made the first read and that write and nothing else; with bypass it goes
    on and creates the channel for port 10001. *)
Lemma device_failure_policy_witness :
  (configureVideon scripted (sampleProps false false (Some exampleProfile)) exampleProfile
     [setTempPort tellyoOutput (Some 10001)]
     (initConfigure (start refusing [exampleProfile]))
   = (Throw "503 Service Unavailable",
      snd (configureVideon scripted (sampleProps false false (Some exampleProfile))
             exampleProfile [setTempPort tellyoOutput (Some 10001)]
             (initConfigure (start refusing [exampleProfile]))))
   /\ List.filter isWrite
        (log (snd (handleConfigure scripted firstLabel 1700000000
                     (sampleProps false false (Some exampleProfile))
                     (start refusing [exampleProfile]))))
      = [EvSetDeviceShadows "Encoders" 4 (nextEncodersOf exampleProfile shadowsEmpty)])
  /\ (handleConfigure scripted firstLabel 1700000000
        (sampleProps false true (Some exampleProfile)) (start refusing [exampleProfile])
      = configureDownstream scripted firstLabel 1700000000
          (sampleProps false true (Some exampleProfile)) exampleProfile
          [setTempPort tellyoOutput (Some 10001)]
          (bypassed "503 Service Unavailable"
             (snd (configureVideon scripted (sampleProps false true (Some exampleProfile))
                     exampleProfile [setTempPort tellyoOutput (Some 10001)]
                     (initConfigure (start refusing [exampleProfile])))))).
Proof.
  split.
  - assert (Hdev :
      configureVideon scripted (sampleProps false false (Some exampleProfile))
        exampleProfile [setTempPort tellyoOutput (Some 10001)]
        (initConfigure (start refusing [exampleProfile]))
      = (Throw "503 Service Unavailable",
         snd (configureVideon scripted (sampleProps false false (Some exampleProfile))
                exampleProfile [setTempPort tellyoOutput (Some 10001)]
                (initConfigure (start refusing [exampleProfile])))))
      by (vm_compute; reflexivity).
    split; [exact Hdev|].
    rewrite (proj1 (proj1 (device_failure_policy scripted firstLabel 1700000000
                             (sampleProps false false (Some exampleProfile))
                             exampleProfile [setTempPort tellyoOutput (Some 10001)]
                             "503 Service Unavailable"
                             (start refusing [exampleProfile]) _
                             eq_refl eq_refl eq_refl Hdev) eq_refl)).
    vm_compute. reflexivity.
  - assert (Hdev :
      configureVideon scripted (sampleProps false true (Some exampleProfile))
        exampleProfile [setTempPort tellyoOutput (Some 10001)]
        (initConfigure (start refusing [exampleProfile]))
      = (Throw "503 Service Unavailable",
         snd (configureVideon scripted (sampleProps false true (Some exampleProfile))
                exampleProfile [setTempPort tellyoOutput (Some 10001)]
                (initConfigure (start refusing [exampleProfile])))))
      by (vm_compute; reflexivity).
    exact (proj1 (proj1 (proj2 (device_failure_policy scripted firstLabel 1700000000
                                  (sampleProps false true (Some exampleProfile))
                                  exampleProfile [setTempPort tellyoOutput (Some 10001)]
                                  "503 Service Unavailable"
                                  (start refusing [exampleProfile]) _
                                  eq_refl eq_refl eq_refl Hdev)) eq_refl)).
Defined.

End DownstreamProps.

(** ** Stream URLs written and read back *)

Module UrlProps.

Lemma append_nil_l (s : string) : "" +:+ s = s.
Proof. reflexivity. Qed.

Lemma append_cons (c : ascii) (s t : string) : String c s +:+ t = String c (s +:+ t).
Proof. reflexivity. Qed.

Lemma readDigits_uint (d : Decimal.uint) : forall (rest : string) (acc : Z) (k : nat),
  noDigitAhead rest = true ->
  readDigits (NilEmpty.string_of_uint d +:+ rest) acc k
  = (uintVal d acc, (k + Decimal.nb_digits d)%nat, rest).
Proof.
  induction d; intros rest acc k Hrest; cbn [NilEmpty.string_of_uint uintVal Decimal.nb_digits];
    try (rewrite append_cons; cbn [readDigits]; match goal with |- context [isDigit ?c] => change (isDigit c) with true end; cbv iota;
         rewrite IHd by exact Hrest;
         replace (S k + Decimal.nb_digits d)%nat with (k + S (Decimal.nb_digits d))%nat by lia;
         do 3 f_equal;
         match goal with
         | |- context [digitVal ?c] =>
             let v := eval vm_compute in (digitVal c) in change (digitVal c) with v
         end; lia).
  rewrite append_nil_l, Nat.add_0_r.
  destruct rest as [|c rest]; [reflexivity|]. cbn [noDigitAhead] in Hrest.
  cbn [readDigits]. destruct (isDigit c); [discriminate | reflexivity].
Qed.

Lemma uintVal_acc (d : Decimal.uint) : forall p : positive,
  Z.pos (Pos.of_uint_acc d p) = uintVal d (Z.pos p).
Proof.
  induction d; intros p; cbn [Pos.of_uint_acc uintVal]; try reflexivity;
    rewrite IHd; f_equal; lia.
Qed.

Lemma uintVal_of_uint (d : Decimal.uint) : uintVal d 0 = Z.of_uint d.
Proof.
  unfold Z.of_uint.
  induction d; cbn [uintVal Pos.of_uint]; try reflexivity;
    try (rewrite <- IHd; reflexivity);
    cbn [Z.of_N]; rewrite uintVal_acc; reflexivity.
Qed.

(** The decimal numeral of a natural number, read back. *)
Lemma readDigits_showZ (n : Z) (rest : string) :
  0 <= n -> noDigitAhead rest = true ->
  exists k, readDigits (showZ n +:+ rest) 0 0 = (n, S k, rest).
Proof.
  intros Hn Hrest. unfold showZ.
  assert (Hval : forall d, Z.to_int n = Decimal.Pos d -> uintVal d 0 = n).
  { intros d Hd. rewrite uintVal_of_uint.
    pose proof (DecimalZ.of_to n) as H. rewrite Hd in H. exact H. }
  destruct n as [|p|p]; [| |lia].
  - exists 0%nat. cbn [Z.to_int NilZero.string_of_int NilZero.string_of_uint].
    rewrite readDigits_uint by exact Hrest. reflexivity.
  - cbn [Z.to_int NilZero.string_of_int]. specialize (Hval _ eq_refl).
    destruct (Pos.to_uint p) eqn:Hd;
      cbn [NilZero.string_of_uint];
      try (rewrite readDigits_uint by exact Hrest; rewrite Hval;
           cbn [Decimal.nb_digits Nat.add]; eexists; reflexivity).
    cbn in Hval. lia.
Qed.

Lemma append_nil_r (s : string) : s +:+ "" = s.
Proof. induction s as [|c s IH]; [reflexivity|]. rewrite append_cons, IH. reflexivity. Qed.

Lemma append_assoc (a b c : string) : (a +:+ b) +:+ c = a +:+ (b +:+ c).
Proof. induction a as [|x a IH]; [reflexivity|]. rewrite !append_cons, IH. reflexivity. Qed.

(** A port number after a colon is matched when the text ends there or goes
    on with anything but a digit that is [/] or [?]. *)
Lemma matchAfterColon_showZ (n : Z) (rest : string) :
  0 <= n ->
  match rest with
  | EmptyString => true
  | String c _ => Ascii.eqb c "/" || Ascii.eqb c "?"
  end = true ->
  matchAfterColon (showZ n +:+ rest) = Some n.
Proof.
  intros Hn Hrest.
  assert (Hnd : noDigitAhead rest = true).
  { destruct rest as [|c rest]; [reflexivity|]. cbn [noDigitAhead].
    apply orb_true_iff in Hrest. destruct Hrest as [H | H];
      apply Ascii.eqb_eq in H; subst c; reflexivity. }
  destruct (readDigits_showZ n rest Hn Hnd) as (k & Hk).
  unfold matchAfterColon. rewrite Hk.
  destruct rest as [|c rest]; [reflexivity|]. rewrite Hrest. reflexivity.
Qed.

(** Scanning for a port passes over text without a colon. *)
Lemma scanPort_skip (ip rest : string) :
  hasChar ":" ip = false -> scanPort (ip +:+ rest) = scanPort rest.
Proof.
  induction ip as [|c ip IH]; intros Hc; [reflexivity|].
  cbn [hasChar] in Hc. apply orb_false_iff in Hc. destruct Hc as [Hc Hip].
  rewrite append_cons. cbn [scanPort]. rewrite Hc. apply IH. exact Hip.
Qed.

Lemma extractPort_srtUrl (ip : string) (port : Z) (rest : string) :
  0 <= port -> hasChar ":" ip = false ->
  match rest with
  | EmptyString => true
  | String c _ => Ascii.eqb c "/" || Ascii.eqb c "?"
  end = true ->
  extractPort (Some (srtUrl ip port +:+ rest)) = Some port.
Proof.
  intros Hp Hip Hrest. unfold srtUrl.
  rewrite !append_assoc. rewrite !append_cons, append_nil_l.
  cbn [extractPort String.eqb Ascii.eqb Bool.eqb scanPort].
  change (matchAfterColon (String "/" (String "/" (ip +:+ String ":" ("" +:+ showZ port +:+ rest)))))
    with (@None Z).
  cbv iota. rewrite scanPort_skip by exact Hip.
  cbn [scanPort Ascii.eqb Bool.eqb]. rewrite append_nil_l.
  rewrite matchAfterColon_showZ by assumption. reflexivity.
Qed.

Lemma extractPort_bare (ip : string) (port : Z) :
  0 <= port -> hasChar ":" ip = false ->
  extractPort (Some (srtUrl ip port)) = Some port.
Proof.
  intros Hp Hip. rewrite <- (append_nil_r (srtUrl ip port)).
  apply extractPort_srtUrl; [assumption | assumption | reflexivity].
Qed.



End UrlProps.

(** ** The Tellyo port allocator over successive channels *)

Module AllocProps.

Lemma usedPorts_In (chans : list Channel) (q : Z) :
  In q (usedPorts chans) <->
  (PORT_MIN <= q < PORT_MAX
   /\ exists c, In c chans /\ extractPort (ch_streamUrl c) = Some q).
Proof.
  unfold usedPorts. rewrite List.filter_In.
  rewrite <- list_elem_of_In, list_elem_of_omap. split.
  - intros ((c & Hc & Hq) & Hr). apply andb_true_iff in Hr. split; [lia|].
    exists c. split; [apply list_elem_of_In; exact Hc | exact Hq].
  - intros (Hr & c & Hc & Hq). split.
    + exists c. split; [apply list_elem_of_In; exact Hc | exact Hq].
    + apply andb_true_iff. lia.
Qed.

(** The next port is one more than the highest port in use. *)
Lemma nextPort_max (chans : list Channel) (m : Z) :
  In m (usedPorts chans) -> (forall q, In q (usedPorts chans) -> q <= m) ->
  nextPort chans = m + 1.
Proof.
  intros Hin Hmax. unfold nextPort.
  destruct (usedPorts chans) as [|p ps] eqn:Hused; [destruct Hin|].
  cbn [maxPort].
  destruct (TellyoProps.fold_max_spec ps p) as (Hm & Hle & Hall).
  assert (Hin' : In (fold_left Z.max ps p) (p :: ps)).
  { destruct Hm as [-> | Hm]; [left; reflexivity | right; exact Hm]. }
  pose proof (Hmax _ Hin') as H1.
  assert (H2 : m <= fold_left Z.max ps p).
  { destruct Hin as [<- | Hin]; [exact Hle|].
    rewrite List.Forall_forall in Hall. apply Hall. exact Hin. }
  lia.
Qed.

Lemma nextPort_cases (chans : list Channel) :
  (usedPorts chans = [] /\ nextPort chans = PORT_MIN)
  \/ (In (nextPort chans - 1) (usedPorts chans)
      /\ forall q, In q (usedPorts chans) -> q <= nextPort chans - 1).
Proof.
  unfold nextPort. destruct (usedPorts chans) as [|p ps]; [left; split; reflexivity|].
  right. cbn [maxPort].
  destruct (TellyoProps.fold_max_spec ps p) as (Hm & Hle & Hall).
  replace (fold_left Z.max ps p + 1 - 1) with (fold_left Z.max ps p) by lia.
  split.
  - destruct Hm as [-> | Hm]; [left; reflexivity | right; exact Hm].
  - intros q [<- | Hq]; [exact Hle|].
    rewrite List.Forall_forall in Hall. apply Hall. exact Hq.
Qed.

(** X4 -- successive new channels.  Let a channel be created with the URL
    that [getSrtUrl] generated for it, on a host without a colon, and let
    the next listing hold it beside the channels listed before.  As long as
    the generated port was below 10100, the next new channel is given the
    following port; once it was 10100, the next new channel is given 10100
    again. *)
Theorem tellyo_ports_advance (ip : string) (chans chans' : list Channel) (c : Channel) :
  ip <> "" -> hasChar ":" ip = false ->
  ch_streamUrl c = Some (getSrtUrl (Some ip) chans JUndef) ->
  listedWith c chans chans' ->
  getSrtUrl (Some ip) chans JUndef = srtUrl ip (nextPort chans)
  /\ (nextPort chans < PORT_MAX ->
      getSrtUrl (Some ip) chans' JUndef = srtUrl ip (nextPort chans + 1))
  /\ (nextPort chans = PORT_MAX ->
      getSrtUrl (Some ip) chans' JUndef = srtUrl ip PORT_MAX).
Proof.
  intros Hip Hcolon Hurl Hlisted.
  assert (Hgen : forall l, getSrtUrl (Some ip) l JUndef = srtUrl ip (nextPort l)).
  { intros l. rewrite TellyoProps.getSrtUrl_port by exact Hip. reflexivity. }
  pose proof (TellyoProps.nextPort_ge_min chans) as Hmin.
  assert (Hport : extractPort (ch_streamUrl c) = Some (nextPort chans)).
  { rewrite Hurl, Hgen.
    apply UrlProps.extractPort_bare; [unfold PORT_MIN in Hmin; lia | exact Hcolon]. }
  assert (Hused : forall q, In q (usedPorts chans') <->
            (q = nextPort chans /\ nextPort chans < PORT_MAX) \/ In q (usedPorts chans)).
  { intros q. rewrite !usedPorts_In. split.
    - intros (Hr & x & Hx & Hq). apply Hlisted in Hx. destruct Hx as [-> | Hx].
      + left. rewrite Hport in Hq. inversion Hq; subst q. split; [reflexivity | lia].
      + right. split; [exact Hr|]. exists x. split; assumption.
    - intros [(-> & Hlt) | (Hr & x & Hx & Hq)].
      + split; [lia|]. exists c. split; [apply Hlisted; left; reflexivity | exact Hport].
      + split; [exact Hr|]. exists x. split; [apply Hlisted; right; exact Hx | exact Hq]. }
  split; [apply Hgen|]. split.
  - intros Hlt. rewrite Hgen. f_equal. apply nextPort_max.
    + apply Hused. left. split; [reflexivity | exact Hlt].
    + intros q Hq. apply Hused in Hq. destruct Hq as [(-> & _) | Hq]; [lia|].
      destruct (nextPort_cases chans) as [(Hnil & _) | (_ & Hle)].
      * rewrite Hnil in Hq. destruct Hq.
      * specialize (Hle q Hq). lia.
  - intros Heq. rewrite Hgen. f_equal. rewrite <- Heq.
    destruct (nextPort_cases chans) as [(_ & Hbad) | (Hin & Hle)].
    + unfold PORT_MIN, PORT_MAX in *. lia.
    + transitivity (nextPort chans - 1 + 1); [|lia].
      apply nextPort_max.
      * apply Hused. right. exact Hin.
      * intros q Hq. apply Hused in Hq. destruct Hq as [(_ & Hlt) | Hq]; [lia|].
        apply Hle. exact Hq.
Qed.

(** A channel on port 10042; the channel created next is given 10043, and
    with both listed the one after it is given 10044. *)
Lemma tellyo_ports_advance_witness :
  "203.0.113.7" <> "" /\ hasChar ":" "203.0.113.7" = false
  /\ ch_streamUrl channel43 = Some "srt://203.0.113.7:10043"
  /\ listedWith channel43 [channel42] [channel43; channel42]
  /\ getSrtUrl (Some "203.0.113.7") [channel43; channel42] JUndef
     = "srt://203.0.113.7:10044".
Proof.
  assert (Hip : "203.0.113.7" <> "") by discriminate.
  assert (Hl : listedWith channel43 [channel42] [channel43; channel42]).
  { intros x. cbn [In]. intuition congruence. }
  split; [exact Hip|]. split; [reflexivity|]. split; [reflexivity|].
  split; [exact Hl|].
  exact (proj1 (proj2 (tellyo_ports_advance "203.0.113.7" [channel42]
                         [channel43; channel42] channel43 Hip eq_refl eq_refl Hl))
           ltac:(vm_compute; reflexivity)).
Defined.

End AllocProps.

(** ** The [Authorization] header ([auth]) *)

Module AuthProps.

Lemma auth_scheme_kept (t : string) : hasScheme t = true -> auth t = t.
Proof.
  unfold hasScheme, auth. intros H. rewrite H.
  destruct (String.eqb_spec t "") as [-> | _]; reflexivity.
Qed.

Lemma auth_has_scheme (t : string) : t <> "" -> hasScheme (auth t) = true.
Proof.
  intros Ht. unfold auth. destruct (String.eqb_spec t "") as [-> | _]; [contradiction|].
  destruct (startsWith t "PAT " || startsWith t "Bearer ") eqn:Hs; [exact Hs|].
  destruct (includes t "."); vm_compute; reflexivity.
Qed.

(** X5 -- the [Authorization] value of the Videon calls.  [auth] maps the
    empty token, and only it, to the empty string; every other token comes
    out with one of the two schemes [PAT] and [Bearer] in front; a token
    that already names a scheme is passed on unchanged, so that applying
    [auth] twice is the same as applying it once. *)
Theorem auth_normal_form (t : string) :
  auth (auth t) = auth t
  /\ (auth t = "" <-> t = "")
  /\ (t <> "" -> hasScheme (auth t) = true)
  /\ (hasScheme t = true -> auth t = t).
Proof.
  split; [|split; [|split]].
  - destruct (String.eqb_spec t "") as [-> | Ht]; [reflexivity|].
    apply auth_scheme_kept, auth_has_scheme. exact Ht.
  - split; [|intros ->; reflexivity].
    intros H. destruct (String.eqb_spec t "") as [-> | Ht]; [reflexivity|].
    pose proof (auth_has_scheme t Ht) as Hs. rewrite H in Hs. discriminate.
  - apply auth_has_scheme.
  - apply auth_scheme_kept.
Qed.

End AuthProps.

(** ** Labels ([sanitizeLabel]) *)

Module LabelProps.

Lemma safe_lower (c : ascii) :
  isSafeChar (toLowerAscii (if isLabelChar c then c else "_"%char)) = true.
Proof.
  destruct c as [[] [] [] [] [] [] [] []]; vm_compute; reflexivity.
Qed.

Lemma safe_fixed (c : ascii) :
  isSafeChar c = true ->
  isSpace c = false /\ isLabelChar c = true /\ toLowerAscii c = c.
Proof.
  destruct c as [[] [] [] [] [] [] [] []]; vm_compute; intros H;
    first [discriminate H | repeat split].
Qed.

Lemma sanitized_safe (base : string) :
  allChars isSafeChar (toLowerCase (replaceNonLabel base)) = true.
Proof.
  induction base as [|c base IH]; [reflexivity|].
  cbn [replaceNonLabel toLowerCase allChars]. rewrite safe_lower. exact IH.
Qed.

Lemma skipSpaces_safe (s : string) :
  match s with String c _ => isSpace c = false | EmptyString => True end ->
  skipSpaces s = s.
Proof. destruct s as [|c s]; [reflexivity|]. cbn [skipSpaces]. intros ->. reflexivity. Qed.

Lemma revString_involutive (s : string) : revString (revString s) = s.
Proof.
  unfold revString. rewrite list_ascii_of_string_of_list_ascii, rev_involutive.
  apply string_of_list_ascii_of_string.
Qed.

Lemma allChars_Forall (p : ascii -> bool) (s : string) :
  allChars p s = true <-> Forall (fun c => p c = true) (list_ascii_of_string s).
Proof.
  induction s as [|c s IH]; cbn [allChars list_ascii_of_string].
  - split; [constructor | reflexivity].
  - rewrite andb_true_iff, IH. split.
    + intros [H1 H2]. constructor; assumption.
    + intros H. inversion H; subst. split; assumption.
Qed.

Lemma allChars_head (p : ascii -> bool) (s : string) :
  allChars p s = true ->
  match s with String c _ => p c = true | EmptyString => True end.
Proof.
  destruct s as [|c s]; [trivial|]. cbn [allChars]. intros H.
  apply andb_true_iff in H. exact (proj1 H).
Qed.

Lemma allChars_revString (p : ascii -> bool) (s : string) :
  allChars p s = true -> allChars p (revString s) = true.
Proof.
  rewrite !allChars_Forall. unfold revString.
  rewrite list_ascii_of_string_of_list_ascii. intros H.
  apply List.Forall_forall. intros c Hc. apply List.in_rev in Hc.
  rewrite List.Forall_forall in H. apply H. exact Hc.
Qed.

Lemma trim_safe (s : string) : allChars isSafeChar s = true -> trim s = s.
Proof.
  intros Hs. unfold trim.
  assert (Hhead : forall t, allChars isSafeChar t = true -> skipSpaces t = t).
  { intros t Ht. apply skipSpaces_safe. pose proof (allChars_head _ _ Ht) as H.
    destruct t as [|c t]; [trivial|]. apply (safe_fixed c H). }
  rewrite (Hhead s Hs).
  rewrite (Hhead (revString s)) by (apply allChars_revString; exact Hs).
  apply revString_involutive.
Qed.

Lemma replace_lower_safe (s : string) :
  allChars isSafeChar s = true -> toLowerCase (replaceNonLabel s) = s.
Proof.
  induction s as [|c s IH]; [reflexivity|]. cbn [allChars]. intros H.
  apply andb_true_iff in H. destruct H as [Hc Hs].
  destruct (safe_fixed c Hc) as (_ & Hl & Hlow).
  cbn [replaceNonLabel toLowerCase]. rewrite Hl, Hlow, (IH Hs). reflexivity.
Qed.

(** X6 -- labels.  Whatever the label and the fallback, [sanitizeLabel]
    returns a string over [a-z], [0-9], [_] and [-].  A non-empty string
    over these characters is returned as it is, so that sanitizing a
    sanitized label changes nothing.  A label that is not empty but holds
    only white space gives the empty label: the fallback is not used. *)
Theorem sanitizeLabel_safe (label : option string) (fallback : string) :
  allChars isSafeChar (sanitizeLabel label fallback) = true
  /\ (forall s, allChars isSafeChar s = true -> s <> "" ->
        sanitizeLabel (Some s) fallback = s)
  /\ (sanitizeLabel label fallback <> "" ->
      forall fallback',
        sanitizeLabel (Some (sanitizeLabel label fallback)) fallback'
        = sanitizeLabel label fallback)
  /\ (forall s, s <> "" -> trim s = "" -> sanitizeLabel (Some s) fallback = "").
Proof.
  assert (Hfix : forall s fb, allChars isSafeChar s = true -> s <> "" ->
            sanitizeLabel (Some s) fb = s).
  { intros s fb Hs Hne. unfold sanitizeLabel. cbn [strOr].
    destruct (String.eqb_spec s "") as [-> | _]; [contradiction|].
    rewrite (trim_safe s Hs). apply replace_lower_safe. exact Hs. }
  split; [apply sanitized_safe|]. split; [intros s; apply Hfix|]. split.
  - intros Hne fallback'. apply Hfix; [apply sanitized_safe | exact Hne].
  - intros s Hne Hblank. unfold sanitizeLabel. cbn [strOr].
    destruct (String.eqb_spec s "") as [-> | _]; [contradiction|].
    rewrite Hblank. reflexivity.
Qed.

End LabelProps.

(** ** The lookup of an ingest by label ([cloudportFetchByLabel]) *)

Module IngestProps.
Import Detail.

Lemma find_none_Forall {A} (p : A -> bool) (l : list A) :
  List.find p l = None <-> Forall (fun x => p x = false) l.
Proof.
  induction l as [|x l IH]; cbn [List.find].
  - split; [constructor | reflexivity].
  - destruct (p x) eqn:Hx.
    + split; [discriminate|]. intros H. inversion H; subst. congruence.
    + rewrite IH. split; [intros H; constructor; assumption|].
      intros H. inversion H; subst. assumption.
Qed.

Lemma find_first {A} (p : A -> bool) (l : list A) (m : A) :
  List.find p l = Some m ->
  exists before after,
    l = (before ++ m :: after)%list /\ p m = true
    /\ Forall (fun x => p x = false) before.
Proof.
  induction l as [|x l IH]; cbn [List.find]; [discriminate|].
  destruct (p x) eqn:Hx.
  - intros H. inversion H; subst. exists [], l. repeat split; [exact Hx | constructor].
  - intros H. destruct (IH H) as (b & a & -> & Hm & Hb).
    exists (x :: b), a. repeat split; [exact Hm | constructor; assumption].
Qed.

(** With an empty label, or when no ingest carries the label, the lookup
    falls back on the first ingest listed. *)
Lemma matchIngest_first (label : string) (first : Ingest) (rest : list Ingest) :
  label = "" \/ Forall (fun x => labelled label x = false) (first :: rest) ->
  matchIngest label (first :: rest) = Some first.
Proof.
  intros Hcase. unfold matchIngest.
  destruct (String.eqb_spec label "") as [-> | Hne]; [reflexivity|].
  destruct Hcase as [-> | Hnone]; [contradiction|].
  assert (H1 : List.find (fun x => optStrEq (ingestLabelField x) label) (first :: rest) = None).
  { apply find_none_Forall. eapply List.Forall_impl; [|exact Hnone].
    intros x Hx. unfold labelled in Hx. apply orb_false_iff in Hx. exact (proj1 Hx). }
  assert (H2 : List.find
            (fun x => String.eqb (toLowerCase (strOr (ingestLabelField x) ""))
                        (toLowerCase label)) (first :: rest) = None).
  { apply find_none_Forall. eapply List.Forall_impl; [|exact Hnone].
    intros x Hx. unfold labelled in Hx. apply orb_false_iff in Hx. exact (proj2 Hx). }
  rewrite H1, H2. reflexivity.
Qed.


End IngestProps.

(** ** The handlers of the detail view, step by step *)

Module HandlerProps.
Import Detail.

Section Handlers.

Context {W : Type} (be : Backend W).
Variable parseOutputs : ShadowsRes -> list OutRow.

(** The poller reads and waits; it leaves the browser state alone and never
    throws. *)
Lemma confirmLoop_ui (check : list OutRow -> bool) (delays : list Z) :
  forall s, exists r s',
    confirmLoop be parseOutputs check delays s = (Ok r, s') /\ ui s' = ui s.
Proof.
  induction delays as [|d delays IH]; intros s; cbn [confirmLoop]; run.
  - eexists _, _. split; reflexivity.
  - destruct (check (parseOutputs (nthRead be (world s) 0))).
    + run. eexists _, _. split; reflexivity.
    + destruct (IH (mkSt (afterReads be (world s) 1) (ui s)
                      ((log s ++ [EvSleep d]) ++ [EvDeviceShadows])%list))
        as (r & s' & Hrun & Hui).
      exists r, s'. split; [exact Hrun | exact Hui].
Qed.

Lemma markOf_markOutputs (id : jsval) (st : option string) (u : UI) :
  markOf id (markOutputs id st u) = Some st.
Proof.
  unfold markOf, markOutputs. cbn [ui_opStatus List.find fst snd].
  unfold seq at 1. rewrite bool_decide_eq_true_2 by reflexivity. reflexivity.
Qed.


(** X9 -- the course of a restart with active outputs.  Outside safe
    mode, when the Outputs shadow read at the start holds enabled entries,
    [handleRestart] writes them switched off, addressing each by
    [id || output_id].  When the device refuses that write, nothing follows:
    the restart ends as [restart-err] with the refusal as the error.  When
    it accepts, the handler waits two seconds, reads the shadows again for
    the version, and writes the same entries -- those read at the start --
    switched on.  It reports [restart-ok] only when the second write was
    accepted too; when that one is refused the outputs stay switched off and
    the restart ends as [restart-err].  In each case the handler ends
    normally and schedules the reset of the indicator last. *)
Theorem restart_course (props : Props) (s : St W) (outputsShadow : Shadow)
    (t : Entry) (ts : list Entry) (r1 : Exc unit) (w2 : W) :
  safeMode props = false ->
  outputsShadowOf (nthRead be (world s) 0) = Some outputsShadow ->
  restartTargets outputsShadow = t :: ts ->
  beShadowCommand be "Outputs" (versionOf (Some outputsShadow))
    (List.map (enableCommand false) (t :: ts)) (afterReads be (world s) 1) = (r1, w2) ->
  match r1 with
  | Throw msg =>
      exists s',
        handleRestart be props s = (Ok tt, s')
        /\ log s' = (log s ++ [EvDeviceShadows;
                               stopCommand (versionOf (Some outputsShadow)) (t :: ts);
                               EvSetTimeout 2000])%list
        /\ world s' = w2
        /\ ui_op (ui s') = "restart-err"
        /\ ui_err (ui s') = "Restart failed: " +:+ errText msg
  | Ok _ =>
      forall (r2 : Exc unit) (w4 : W),
        beShadowCommand be "Outputs"
          (secondVersion (versionOf (Some outputsShadow)) (nthRead be w2 0))
          (List.map (enableCommand true) (t :: ts)) (afterReads be w2 1) = (r2, w4) ->
        exists s',
          handleRestart be props s = (Ok tt, s')
          /\ log s' = (log s ++ [EvDeviceShadows;
                                 stopCommand (versionOf (Some outputsShadow)) (t :: ts);
                                 EvSleep 2000;
                                 EvDeviceShadows;
                                 startCommand
                                   (secondVersion (versionOf (Some outputsShadow))
                                      (nthRead be w2 0)) (t :: ts);
                                 EvSetTimeout 2000])%list
          /\ world s' = w4
          /\ match r2 with
             | Ok _ =>
                 ui_op (ui s') = "restart-ok"
                 /\ ui_toast (ui s') = Some "Restart sequence completed"
                 /\ ui_err (ui s') = ""
             | Throw msg =>
                 ui_op (ui s') = "restart-err"
                 /\ ui_err (ui s') = "Restart failed: " +:+ errText msg
             end
  end.
Proof.
  intros Hsafe Hshadow Htargets Hstop.
  assert (Hgo : handleRestart be props s
          = (let '(r0, s0) :=
               match r1 with
               | Ok _ =>
                   match
                     (sleep 2000 ;;
                      shRes2 <- deviceShadows be ;;
                      updateShadow be "Outputs"
                        (secondVersion (versionOf (Some outputsShadow)) shRes2)
                        (List.map (enableCommand true) (t :: ts)) ;;
                      update (setOp "restart-ok") ;;
                      update (setToast "Restart sequence completed"))%monad
                       (mkSt w2 (setErr "" (setOp "restart" (ui s)))
                          ((log s ++ [EvDeviceShadows])
                           ++ [stopCommand (versionOf (Some outputsShadow)) (t :: ts)])%list)
                   with
                   | (Ok a, s0) => (Ok a, s0)
                   | (Throw m, s0) =>
                       (update (setOp "restart-err") ;;
                        update (setErr ("Restart failed: " +:+ errText m)))%monad s0
                   end
               | Throw m =>
                   (update (setOp "restart-err") ;;
                    update (setErr ("Restart failed: " +:+ errText m)))%monad
                     (mkSt w2 (setErr "" (setOp "restart" (ui s)))
                        ((log s ++ [EvDeviceShadows])
                         ++ [stopCommand (versionOf (Some outputsShadow)) (t :: ts)])%list)
               end in
             (r0, emitS (EvSetTimeout 2000) s0))).
  { unfold handleRestart. rewrite Hsafe. run. unfold finally, tryCatch. run.
    rewrite Hshadow, Htargets. unfold updateShadow at 1. unfold bind at 1.
    rewrite call_run. cbn [world ui log]. rewrite Hstop. cbn [fst snd].
    destruct r1 as [[]|m]; run; reflexivity. }
  rewrite Hgo. clear Hgo.
  destruct r1 as [[]|msg].
  - intros r2 w4 Hstart. run. unfold updateShadow. unfold bind at 1.
    rewrite call_run. cbn [world ui log]. rewrite Hstart. cbn [fst snd].
    destruct r2 as [[]|msg]; run; eexists; (split; [reflexivity|]); run;
      (split; [unfold stopCommand, startCommand; rewrite <- !app_assoc; reflexivity|]);
      (split; [reflexivity|]); repeat split.
  - run. eexists. split; [reflexivity|]. run.
    split; [rewrite <- !app_assoc; reflexivity|]. repeat split.
Qed.

(** X10 -- renaming the device.  Outside safe mode [doRename] sends the
    name with the white space around it removed, and nothing at all when
    nothing is left of it.  The parent component is told of the new name
    only after the device API accepted it; a refusal ends as the error
    shown, with no rename signalled. *)
Theorem rename_course (props : Props) (devName : string) (s : St W) :
  safeMode props = false ->
  (trim devName = "" -> doRename be props devName s = (Ok tt, s))
  /\ (trim devName <> "" ->
      forall (r : Exc unit) (w1 : W),
        beRenameDevice be (trim devName) (world s) = (r, w1) ->
        exists s',
          doRename be props devName s = (Ok tt, s')
          /\ world s' = w1
          /\ match r with
             | Ok _ =>
                 log s' = (log s ++ [EvRenameDevice (trim devName);
                                     EvRenamed (trim devName)])%list
                 /\ ui_toast (ui s') = Some "Device renamed"
                 /\ ui_err (ui s') = ui_err (ui s)
             | Throw msg =>
                 log s' = (log s ++ [EvRenameDevice (trim devName)])%list
                 /\ ui_toast (ui s') = ui_toast (ui s)
                 /\ ui_err (ui s') = errText msg
             end).
Proof.
  intros Hsafe. unfold doRename. rewrite Hsafe. split.
  - intros ->. reflexivity.
  - intros Hne r w1 Hreq.
    destruct (String.eqb_spec (trim devName) "") as [|_]; [contradiction|].
    unfold tryCatch. unfold bind at 1. rewrite call_run. rewrite Hreq. cbn [fst snd].
    destruct r as [[]|msg]; run; eexists; (split; [reflexivity|]); run;
      (split; [reflexivity|]); (split; [rewrite <- ?app_assoc; reflexivity|]);
      split; reflexivity.
Qed.


End Handlers.


(** Output 20 is on: it is written off, then on again. *)
Lemma restart_course_witness :
  safeMode (sampleProps false false None) = false
  /\ restartTargets shadow20 = [enabled20]
  /\ exists s',
       handleRestart scripted (sampleProps false false None) restartStart = (Ok tt, s')
       /\ log s' = [EvDeviceShadows; stopCommand 6 [enabled20]; EvSleep 2000;
                    EvDeviceShadows; startCommand 6 [enabled20]; EvSetTimeout 2000]
       /\ ui_op (ui s') = "restart-ok".
Proof.
  split; [reflexivity|]. split; [reflexivity|].
  destruct (restart_course scripted (sampleProps false false None) restartStart
              shadow20 enabled20 [] (Ok tt) (deviceWorld [outputRead true])
              eq_refl eq_refl eq_refl eq_refl (Ok tt) (deviceWorld []) eq_refl)
    as (s' & Hrun & Hlog & _ & Hop & _).
  exists s'. split; [exact Hrun|]. split; [exact Hlog | exact Hop].
Defined.

(** A name typed with blanks around it. *)
Lemma rename_course_witness :
  safeMode (sampleProps false false None) = false
  /\ trim "  Studio 7 " = "Studio 7"
  /\ exists s',
       doRename scripted (sampleProps false false None) "  Studio 7 "
         (start (deviceWorld []) []) = (Ok tt, s')
       /\ log s' = [EvRenameDevice "Studio 7"; EvRenamed "Studio 7"].
Proof.
  split; [reflexivity|]. split; [reflexivity|].
  destruct (proj2 (rename_course scripted (sampleProps false false None) "  Studio 7 "
                     (start (deviceWorld []) []) eq_refl)
              ltac:(vm_compute; discriminate) (Ok tt) (deviceWorld []) eq_refl)
    as (s' & Hrun & _ & Hlog & _).
  exists s'. split; [exact Hrun | exact Hlog].
Defined.


End HandlerProps.

(** ** The progress list of [handleConfigure] *)

Module ProgressProps.
Import Detail.

Section Maintains.

Context {W : Type} (I : UI -> Prop).

Lemma maintains_ret {A} (a : A) : maintains (W := W) I (ret a).
Proof. intros s H. exact H. Qed.

Lemma maintains_throw {A} (msg : string) : maintains (W := W) (A := A) I (throw msg).
Proof. intros s H. exact H. Qed.

Lemma maintains_liftExc {A} (r : Exc A) : maintains (W := W) I (liftExc r).
Proof. intros s H. exact H. Qed.

Lemma maintains_emit (e : Event) : maintains (W := W) I (emit e).
Proof. intros s H. exact H. Qed.

Lemma maintains_update (f : UI -> UI) :
  (forall u, I u -> I (f u)) -> maintains (W := W) I (update f).
Proof. intros H s Hs. cbn. apply H. exact Hs. Qed.

Lemma maintains_request {A} (f : W -> Exc A * W) : maintains I (request f).
Proof. intros s H. unfold request. destruct (f (world s)). exact H. Qed.

Lemma maintains_bind {A B} (m : M W A) (k : A -> M W B) :
  maintains I m -> (forall a, maintains I (k a)) -> maintains I (bind m k).
Proof.
  intros Hm Hk s Hs. unfold bind. specialize (Hm s Hs).
  destruct (m s) as [[a|msg] s']; cbn [snd] in *; [apply Hk|]; exact Hm.
Qed.

Lemma maintains_call {A} (e : Event) (f : W -> Exc A * W) : maintains I (call e f).
Proof.
  apply maintains_bind; [apply maintains_emit | intros; apply maintains_request].
Qed.

Lemma maintains_keeps {A X} (proj : UI -> X) (m : M W A) :
  keeps proj m -> (forall u u', proj u' = proj u -> I u -> I u') -> maintains I m.
Proof. intros Hk HI s Hs. apply (HI (ui s)); [apply Hk | exact Hs]. Qed.

End Maintains.

Lemma mapLast_removelast {A} (f : A -> A) (l : list A) :
  removelast (mapLast f l) = removelast l.
Proof.
  induction l as [|x l IH]; [reflexivity|].
  destruct l as [|y l]; [reflexivity|].
  change (mapLast f (x :: y :: l)) with (x :: mapLast f (y :: l)).
  change (removelast (x :: y :: l)) with (x :: removelast (y :: l)).
  rewrite <- IH. cbn [mapLast]. destruct l; reflexivity.
Qed.

Lemma mapLast_Forall {A} (f : A -> A) (P : A -> Prop) (l : list A) :
  Forall P (removelast l) -> (forall x, P (f x)) -> Forall P (mapLast f l).
Proof.
  intros Hl Hf. induction l as [|x l IH]; [constructor|].
  destruct l as [|y l]; [repeat constructor; apply Hf|].
  change (mapLast f (x :: y :: l)) with (x :: mapLast f (y :: l)).
  change (removelast (x :: y :: l)) with (x :: removelast (y :: l)) in Hl.
  inversion Hl; subst. constructor; [assumption | apply IH; assumption].
Qed.

Lemma finishRunning_stops (st : ConfigStep) : running (finishRunning st) = false.
Proof.
  unfold finishRunning, running.
  destruct (String.eqb (step_status st) "running") eqn:H; [reflexivity | exact H].
Qed.

Lemma pushStep_orderly (label : string) (u : UI) :
  orderly (ui_configSteps u) -> orderly (ui_configSteps (pushStep label u)).
Proof.
  unfold orderly. cbn [pushStep setConfigSteps ui_configSteps].
  destruct (ui_configSteps u) as [l|]; [|contradiction]. intros H.
  cbn [default]. rewrite removelast_last.
  apply mapLast_Forall; [exact H | apply finishRunning_stops].
Qed.

Lemma doneSteps_settled (u : UI) :
  orderly (ui_configSteps u) -> settled (ui_configSteps (doneSteps u)).
Proof.
  unfold orderly, settled. cbn [doneSteps setConfigSteps ui_configSteps].
  destruct (ui_configSteps u) as [l|]; [|contradiction]. intros H.
  apply mapLast_Forall; [exact H | apply finishRunning_stops].
Qed.

Lemma failStep_settled (msg : string) (u : UI) :
  orderly (ui_configSteps u) -> settled (ui_configSteps (failStep msg u)).
Proof.
  unfold orderly, settled. cbn [failStep setConfigSteps ui_configSteps].
  destruct (ui_configSteps u) as [l|]; [|contradiction]. intros H.
  apply mapLast_Forall; [exact H | reflexivity].
Qed.

(** Proves [maintains I m] for a handler [m] whose only writes to the
    progress list are [pushStep]s. *)
Ltac maintains_step :=
  first
    [ apply maintains_ret | apply maintains_throw | apply maintains_liftExc
    | apply maintains_emit | apply maintains_call | apply maintains_request
    | apply maintains_update; intros ? ?; first [assumption | apply pushStep_orderly; assumption]
    | apply maintains_bind; [|intros ?]
    | match goal with
      | |- maintains _ (if ?b then _ else _) => destruct b
      | |- maintains _ (match ?x with _ => _ end) => destruct x
      end ].

Section Configure.

Context {W : Type} (be : Backend W).
Variables (accountDomainOf : string -> string) (now : Z).

Lemma configureVideon_orderly (props : Props) (cur : Profile) (outs : list Output) :
  maintains (fun u => orderly (ui_configSteps u)) (configureVideon be props cur outs).
Proof.
  unfold configureVideon, deviceShadows, setDeviceShadows, sleep.
  repeat maintains_step.
Qed.

Lemma configureDownstream_settles (props : Props) (cur : Profile) (outs : list Output)
    (s : St W) :
  orderly (ui_configSteps (ui s)) ->
  exists s',
    configureDownstream be accountDomainOf now props cur outs s = (Ok tt, s')
    /\ settled (ui_configSteps (ui s')).
Proof.
  intros Hs.
  destruct (DownstreamProps.configureDownstream_both be accountDomainOf now props cur
              outs s) as (s2 & s3 & Htel & Hcp & Hrun & _).
  exists (updateS doneSteps s3). split; [exact Hrun|].
  rewrite ui_updateS. apply doneSteps_settled.
  assert (Ht : keeps ui_configSteps
                 (configureTellyo be now props cur (deviceIpOf props) outs)).
  { unfold configureTellyo, upsertChannel. DownstreamProps.keeps_all. }
  assert (Hc : keeps ui_configSteps
                 (configureCloudport be accountDomainOf props cur (deviceIpOf props) outs)).
  { unfold configureCloudport, upsertIngest, cloudportFetchByLabel, cloudportUpdate, sleep.
    DownstreamProps.keeps_all. }
  specialize (Ht (updateS (pushStep "Configuring external services...") s)).
  specialize (Hc s2). rewrite Htel in Ht. rewrite Hcp in Hc. cbn [snd] in Ht, Hc.
  rewrite Hc, Ht, ui_updateS. apply pushStep_orderly. exact Hs.
Qed.

(** X12 -- the progress list at the end of a run.  With a profile selected
    and safe mode off, [handleConfigure] throws only when the port
    pre-assignment does, and then the progress list is left with its first
    step still running.  In every other case it ends normally, whatever the
    three backends answer, and no step of the progress list is left
    running. *)
Theorem progress_settles (props : Props) (c : Profile) (s : St W) :
  cur props = Some c -> safeMode props = false ->
  exists r s',
    handleConfigure be accountDomainOf now props s = (r, s')
    /\ match r with
       | Ok _ =>
           (exists outs, preAssign 10001 (p_outputs c) = Ok outs)
           /\ settled (ui_configSteps (ui s'))
       | Throw msg =>
           preAssign 10001 (p_outputs c) = Throw msg
           /\ ui_configSteps (ui s') = Some initialSteps
       end.
Proof.
  intros Hcur Hsafe. unfold handleConfigure. rewrite Hcur, Hsafe. run.
  destruct (preAssign 10001 (p_outputs c)) as [outs|msg] eqn:Hpre; run.
  2:{ eexists _, _. split; [reflexivity|]. split; reflexivity. }
  match goal with
  | |- context [bind (guardedVideon be props c outs) ?k ?s0] => set (s1 := s0)
  end.
  assert (H1 : orderly (ui_configSteps (ui s1))) by (repeat constructor).
  pose proof (configureVideon_orderly props c outs s1 H1) as Hdev.
  unfold bind at 1, guardedVideon, tryCatch. unfold bind at 1.
  destruct (configureVideon be props c outs s1) as [[outs'|e] s2]; cbn [snd] in Hdev.
  - run.
    destruct (configureDownstream_settles props c outs'
                (updateS (setToast "Videon configured. Setting up remotes...") s2) Hdev)
      as (s' & Hrun & Hset).
    rewrite Hrun. eexists _, _. split; [reflexivity|].
    split; [eexists; reflexivity | exact Hset].
  - destruct (bypassVideonError props); run.
    + destruct (configureDownstream_settles props c outs
                  (updateS (setErr ("Videon config failed (Bypassed): " +:+ errText e)) s2)
                  Hdev) as (s' & Hrun & Hset).
      rewrite Hrun. eexists _, _. split; [reflexivity|].
      split; [eexists; reflexivity | exact Hset].
    + eexists _, _. split; [reflexivity|]. split; [eexists; reflexivity|].
      run. apply failStep_settled. exact Hdev.
Qed.

End Configure.

(** The device refuses the Encoders write and the bypass is off: the run
    ends normally with its last step marked as failed. *)
Lemma progress_settles_witness :
  cur (sampleProps false false (Some exampleProfile)) = Some exampleProfile
  /\ safeMode (sampleProps false false (Some exampleProfile)) = false
  /\ exists s',
       handleConfigure scripted firstLabel 0 (sampleProps false false (Some exampleProfile))
         (start refusing [exampleProfile]) = (Ok tt, s')
       /\ settled (ui_configSteps (ui s')).
Proof.
  split; [reflexivity|]. split; [reflexivity|].
  destruct (progress_settles scripted firstLabel 0
              (sampleProps false false (Some exampleProfile)) exampleProfile
              (start refusing [exampleProfile]) eq_refl eq_refl)
    as (r & s' & Hrun & Hr).
  destruct r as [[]|msg].
  - exists s'. split; [exact Hrun | exact (proj2 Hr)].
  - exfalso. destruct Hr as (Hpre & _). vm_compute in Hpre. discriminate.
Defined.

End ProgressProps.

(** ** The states written to the device *)

Module WrittenProps.
Import Detail.

Lemma suffix_differs (s : string) : s +:+ "_video" <> s +:+ "_audio".
Proof.
  induction s as [|c s IH]; [discriminate|].
  rewrite !UrlProps.append_cons. intros H. inversion H. contradiction.
Qed.

Lemma suffix_nonempty (s t : string) : t <> "" -> s +:+ t <> "".
Proof.
  intros Ht. destruct s as [|c s]; [exact Ht|]. rewrite UrlProps.append_cons. discriminate.
Qed.

Lemma named_newEntry (id : jsval) (type nm nm' : string) (enable : option bool)
    (port : option Z) (body : ConfigBody) :
  nm <> "" ->
  named nm' (newEntry id type nm enable port body) = String.eqb nm nm'.
Proof.
  intros Hne. unfold named, entryName, newEntry. cbn [e_config ec_name strTruthy].
  destruct (String.eqb_spec nm "") as [|_]; [contradiction|]. reflexivity.
Qed.

Lemma filter_filter_none {A} (p q : A -> bool) (l : list A) :
  (forall x, q x = true -> p x = false) ->
  List.filter p (List.filter q l) = [].
Proof.
  intros H. induction l as [|x l IH]; [reflexivity|]. cbn [List.filter].
  destruct (q x) eqn:Hq; [|exact IH]. cbn [List.filter]. rewrite (H x Hq). exact IH.
Qed.

Lemma filter_filter_same {A} (p : A -> bool) (l : list A) :
  List.filter p (List.filter p l) = List.filter p l.
Proof.
  induction l as [|x l IH]; [reflexivity|]. cbn [List.filter].
  destruct (p x) eqn:Hp; [|exact IH]. cbn [List.filter]. rewrite Hp, IH. reflexivity.
Qed.

(** X13 -- the Encoders state written.  The state [handleConfigure] writes
    to the Encoders shadow holds exactly one encoder that goes by the video
    name of the profile and exactly one that goes by its audio name: the two
    it has just built, placed last.  Every other encoder read from the
    device is written back as it was read, in the order read. *)
Theorem encoders_written (cur : Profile) (shadows : list Shadow) :
  List.filter (named (videoNameOf cur)) (nextEncodersOf cur shadows)
  = [videoEntry (videoNameOf cur) (idOfFound (head (getItems shadows "Inputs")))
       (p_encoder cur ≫= enc_video)]
  /\ List.filter (named (audioNameOf cur)) (nextEncodersOf cur shadows)
     = [audioEntry (audioNameOf cur) (idOfFound (head (getItems shadows "Inputs")))
          (p_encoder cur ≫= enc_audio)]
  /\ List.filter (fun e => negb (named (videoNameOf cur) e)
                           && negb (named (audioNameOf cur) e))
       (nextEncodersOf cur shadows)
     = List.filter (fun e => negb (named (videoNameOf cur) e)
                             && negb (named (audioNameOf cur) e))
         (getItems shadows "Encoders").
Proof.
  pose proof (suffix_differs (strOr (p_name cur) "Profile")) as Hdiff.
  assert (Hv : videoNameOf cur <> "") by (apply suffix_nonempty; discriminate).
  assert (Ha : audioNameOf cur <> "") by (apply suffix_nonempty; discriminate).
  assert (Hva : String.eqb (videoNameOf cur) (audioNameOf cur) = false)
    by (apply String.eqb_neq; exact Hdiff).
  assert (Hav : String.eqb (audioNameOf cur) (videoNameOf cur) = false)
    by (apply String.eqb_neq; intros H; apply Hdiff; symmetry; exact H).
  unfold nextEncodersOf. rewrite !List.filter_app. cbn [List.filter].
  unfold videoEntry, audioEntry. rewrite !named_newEntry by assumption.
  rewrite !String.eqb_refl, Hva, Hav. cbn [negb andb].
  fold (named (videoNameOf cur)). fold (named (audioNameOf cur)).
  split; [|split].
  - rewrite filter_filter_none; [reflexivity|].
    intros x Hx. apply andb_true_iff in Hx. apply negb_true_iff. exact (proj1 Hx).
  - rewrite filter_filter_none; [reflexivity|].
    intros x Hx. apply andb_true_iff in Hx. apply negb_true_iff. exact (proj2 Hx).
  - rewrite app_nil_r.
    apply (filter_filter_same
             (fun e => negb (named (videoNameOf cur) e) && negb (named (audioNameOf cur) e))).
Qed.

Lemma removeFirst_In {A} (p : A -> bool) (l : list A) (x : A) :
  In x (removeFirst p l) -> In x l.
Proof.
  induction l as [|y l IH]; cbn [removeFirst]; [trivial|].
  destruct (p y); [right; assumption|]. intros [<- | H]; [left; reflexivity|].
  right. apply IH. exact H.
Qed.

Lemma removeFirst_keeps {A} (p : A -> bool) (l : list A) (x : A) :
  In x l -> p x = false -> In x (removeFirst p l).
Proof.
  intros Hin Hp. induction l as [|y l IH]; [destruct Hin|]. cbn [removeFirst].
  destruct Hin as [-> | Hin].
  - rewrite Hp. left. reflexivity.
  - destruct (p y); [exact Hin | right; apply IH; exact Hin].
Qed.

Lemma removeFirst_app {A} (p : A -> bool) (kept news : list A) :
  Forall (fun x => p x = false) news ->
  removeFirst p (kept ++ news) = (removeFirst p kept ++ news)%list.
Proof.
  intros Hn. induction kept as [|y kept IH]; cbn [removeFirst app].
  - induction Hn as [|x news Hx _ IHn]; [reflexivity|]. cbn [removeFirst].
    rewrite Hx, IHn. reflexivity.
  - destruct (p y); [reflexivity|]. rewrite IH. reflexivity.
Qed.

Section Loop.

Variables (mi mp : string) (vid aud : jsval).

(** An entry the loop has appended carries [id: false], which no remembered
    id equals. *)
Lemma appended_untracked (index : nat) (outs : list Output) (out : Output) :
  Forall (fun e => tracks out e = false) (appendedFrom mi mp vid aud index outs).
Proof.
  revert index. induction outs as [|o outs IH]; intros index; cbn [appendedFrom];
    [constructor|].
  apply Forall_app. split; [|apply IH].
  assert (Hnew : forall nm ip port mode,
            tracks out (srtEntry nm ip port mode vid aud) = false).
  { intros nm ip port mode. unfold tracks, streamIdOf, srtEntry, newEntry, jor.
    cbn [e_out_stream_id e_id truthy]. apply andb_false_iff.
    destruct (videonId out) as [| |[]|n|x];
      first [left; reflexivity
            | right; unfold seq; apply bool_decide_eq_false_2; discriminate]. }
  destruct (isPlatform (target o)); [repeat constructor; apply Hnew|].
  destruct (negb (String.eqb mi "") && negb (String.eqb mp ""));
    [repeat constructor; apply Hnew | constructor].
Qed.

Lemma outputLoop_shape (outs : list Output) :
  forall (kept news : list Entry) (pm : gmap Z nat) (index : nat),
    (forall out, In out outs -> Forall (fun e => tracks out e = false) news) ->
    exists kept',
      fst (outputLoop mi mp vid aud ((kept ++ news)%list, pm) outs index)
      = (kept' ++ news ++ appendedFrom mi mp vid aud index outs)%list
      /\ (forall x, In x kept' -> In x kept)
      /\ (forall o, In o kept -> Forall (fun out => tracks out o = false) outs ->
            In o kept').
Proof.
  induction outs as [|out outs IH]; intros kept news pm index Hnews.
  - exists kept. cbn [outputLoop fst appendedFrom]. rewrite app_nil_r.
    split; [reflexivity|]. split; intros; assumption.
  - cbn [outputLoop appendedFrom].
    set (kept1 := if truthy (videonId out)
                  then removeFirst (fun o => seq (streamIdOf o) (videonId out)) kept
                  else kept).
    assert (Hstep : exists pm1,
              outputStep mi mp vid aud ((kept ++ news)%list, pm) out index
              = ((kept1 ++ news
                  ++ (if isPlatform (target out) then [listenerOf vid aud index out]
                      else if negb (String.eqb mi "") && negb (String.eqb mp "")
                           then [srtEntry (strOr (name out)
                                             ("Manual Output " +:+ showZ (Z.of_nat index + 1)))
                                   mi ((fun n => n + Z.of_nat index) <$> toNumber (JStr mp))
                                   "CALLER" vid aud]
                           else []))%list, pm1)).
    { assert (Hrm : (if truthy (videonId out)
                     then removeFirst (fun o => seq (streamIdOf o) (videonId out))
                            (kept ++ news)
                     else (kept ++ news)%list) = (kept1 ++ news)%list).
      { unfold kept1. destruct (truthy (videonId out)) eqn:Ht; [|reflexivity].
        apply removeFirst_app.
        eapply List.Forall_impl; [|exact (Hnews out (or_introl eq_refl))].
        intros e He. unfold tracks in He. rewrite Ht in He. exact He. }
      unfold outputStep. rewrite Hrm. unfold listenerOf.
      destruct (isPlatform (target out));
        [eexists; rewrite <- app_assoc; reflexivity|].
      destruct (negb (String.eqb mi "") && negb (String.eqb mp ""));
        eexists; rewrite <- ?app_assoc, ?app_nil_r; reflexivity. }
    destruct Hstep as (pm1 & ->).
    match goal with
    | |- context [(kept1 ++ news ++ ?a)%list] => set (added := a)
    end.
    destruct (IH kept1 (news ++ added)%list pm1 (S index)) as (kept' & Hrun & Hsub & Hkeep).
    { intros o Ho. apply Forall_app. split; [apply Hnews; right; exact Ho|].
      pose proof (appended_untracked index [out] o) as H. cbn [appendedFrom] in H.
      rewrite app_nil_r in H. exact H. }
    exists kept'. split; [|split].
    + rewrite Hrun. rewrite <- !app_assoc. reflexivity.
    + intros x Hx. specialize (Hsub x Hx). unfold kept1 in Hsub.
      destruct (truthy (videonId out)); [eapply removeFirst_In; exact Hsub | exact Hsub].
    + intros o Ho Hall. inversion Hall; subst. apply Hkeep; [|assumption].
      unfold kept1. destruct (truthy (videonId out)) eqn:Ht; [|exact Ho].
      apply removeFirst_keeps; [exact Ho|].
      match goal with H : tracks out o = false |- _ => unfold tracks in H; rewrite Ht in H; exact H end.
Qed.

Lemma appended_listeners (index : nat) (outs : list Output) :
  mi = "" \/ mp = "" ->
  appendedFrom mi mp vid aud index outs = listenersFrom vid aud index outs.
Proof.
  intros Hman.
  assert (Hoff : negb (String.eqb mi "") && negb (String.eqb mp "") = false).
  { destruct Hman as [-> | ->]; cbn; [reflexivity | apply andb_false_r]. }
  revert index. induction outs as [|o outs IH]; intros index; [reflexivity|].
  cbn [appendedFrom listenersFrom]. rewrite Hoff, IH. reflexivity.
Qed.

Lemma appended_ids (index : nat) (outs : list Output) :
  Forall (fun e => e_id e = JBool false) (appendedFrom mi mp vid aud index outs).
Proof.
  revert index. induction outs as [|o outs IH]; intros index; cbn [appendedFrom];
    [constructor|].
  apply Forall_app. split; [|apply IH].
  destruct (isPlatform (target o)); [constructor; [reflexivity | constructor]|].
  destruct (negb (String.eqb mi "") && negb (String.eqb mp ""));
    [constructor; [reflexivity | constructor] | constructor].
Qed.

Lemma listeners_ports (index : nat) (outs : list Output) :
  List.map (fun e => e_config e ≫= ec_destination_port) (listenersFrom vid aud index outs)
  = List.map _tempPort (List.filter (fun o => isPlatform (target o)) outs).
Proof.
  revert index. induction outs as [|o outs IH]; intros index;
    cbn [listenersFrom List.filter]; [reflexivity|].
  destruct (isPlatform (target o)); cbn [app List.map]; rewrite IH; reflexivity.
Qed.

End Loop.

(** X14 -- the Outputs state written.  The state [handleConfigure] writes
    to the Outputs shadow is made of outputs read from the device, followed
    by the entries it adds, each with [id: false].  Of the outputs read, it
    leaves out only outputs that an intent of the profile tracks, that is,
    whose [out_stream_id || id] is the id the intent remembers: every other
    output is written back.  Without a manual endpoint the entries added are
    the listeners of the platform intents, one per intent and in the order
    of the profile, each on the provisional port of its intent. *)
Theorem outputs_written (mi mp : string) (vid aud : jsval) (shadows2 : list Shadow)
    (newOutputs : list Output) :
  exists kept,
    fst (buildOutputs mi mp vid aud shadows2 newOutputs)
    = (kept ++ appendedFrom mi mp vid aud 0 newOutputs)%list
    /\ (forall x, In x kept -> In x (currentOutputsOf shadows2))
    /\ (forall o, In o (currentOutputsOf shadows2) ->
          Forall (fun out => tracks out o = false) newOutputs -> In o kept)
    /\ Forall (fun e => e_id e = JBool false) (appendedFrom mi mp vid aud 0 newOutputs)
    /\ (mi = "" \/ mp = "" ->
        appendedFrom mi mp vid aud 0 newOutputs = listenersFrom vid aud 0 newOutputs)
    /\ List.map (fun e => e_config e ≫= ec_destination_port)
         (listenersFrom vid aud 0 newOutputs)
       = List.map _tempPort (List.filter (fun o => isPlatform (target o)) newOutputs).
Proof.
  destruct (outputLoop_shape mi mp vid aud newOutputs (currentOutputsOf shadows2) [] ∅ 0)
    as (kept & Hrun & Hsub & Hkeep); [intros; constructor|].
  rewrite app_nil_r in Hrun. exists kept. unfold buildOutputs.
  split; [exact Hrun|]. split; [exact Hsub|]. split; [exact Hkeep|]. split; [|split].
  - apply appended_ids.
  - apply appended_listeners.
  - apply listeners_ports.
Qed.

End WrittenProps.

(** ** The rows of [parseOutputs] *)

Module ParseProps.
Import ParseOutputs.

Section Rows.

Context {K : Type} `{EqDecision K}.
Variable toNumber : option json -> K.

Local Abbreviation RowK := (Row (K := K)).
Local Abbreviation keyIs k := (fun r : RowK => bool_decide (po_output_id r = k)).
Local Abbreviation hasPort := (fun r : RowK => jtruthy (Some (po_port r))).

Lemma setSeen_keys (o : RowK) (seen : list RowK) :
  List.map po_output_id (setSeen o seen)
  = if bool_decide (po_output_id o ∈ (List.map po_output_id seen : list K))
    then List.map po_output_id seen
    else (List.map po_output_id seen ++ [po_output_id o])%list.
Proof.
  induction seen as [|e seen IH]; cbn [setSeen List.map].
  - rewrite bool_decide_eq_false_2 by (apply not_elem_of_nil). reflexivity.
  - destruct (decide (po_output_id e = po_output_id o)) as [He | He].
    + rewrite bool_decide_eq_true_2 by (rewrite He; apply list_elem_of_here).
      cbn [List.map]. f_equal.
      destruct (jtruthy (Some (po_port o)) && negb (jtruthy (Some (po_port e))));
        [symmetry; exact He | reflexivity].
    + cbn [List.map]. rewrite IH.
      destruct (bool_decide (po_output_id o ∈ (List.map po_output_id seen : list K)))
        eqn:Hin.
      * apply bool_decide_eq_true_1 in Hin.
        rewrite bool_decide_eq_true_2 by (apply list_elem_of_further; exact Hin).
        reflexivity.
      * apply bool_decide_eq_false_1 in Hin.
        rewrite bool_decide_eq_false_2; [reflexivity|].
        intros Hc. apply elem_of_cons in Hc. destruct Hc as [Hc | Hc];
          [apply He; symmetry; exact Hc | contradiction].
Qed.

Lemma setSeen_NoDup (o : RowK) (seen : list RowK) :
  NoDup (List.map po_output_id seen) -> NoDup (List.map po_output_id (setSeen o seen)).
Proof.
  intros Hnd. rewrite setSeen_keys.
  destruct (bool_decide (po_output_id o ∈ (List.map po_output_id seen : list K))) eqn:Hin;
    [exact Hnd|].
  apply bool_decide_eq_false_1 in Hin. apply NoDup_app. split; [exact Hnd|].
  split; [|apply NoDup_singleton].
  intros x Hx Hx'. apply list_elem_of_singleton in Hx'. subst x. contradiction.
Qed.

(** What the map holds under a key after one more row. *)
Lemma setSeen_find (o : RowK) (seen : list RowK) (k : K) :
  List.find (keyIs k) (setSeen o seen)
  = if bool_decide (po_output_id o = k) then
      match List.find (keyIs k) seen with
      | Some e => Some (if hasPort o && negb (hasPort e) then o else e)
      | None => Some o
      end
    else List.find (keyIs k) seen.
Proof.
  induction seen as [|e seen IH]; cbn [setSeen List.find].
  - destruct (bool_decide (po_output_id o = k)); reflexivity.
  - destruct (decide (po_output_id e = po_output_id o)) as [He | He]; cbn [List.find].
    + destruct (bool_decide (po_output_id o = k)) eqn:Hk.
      * apply bool_decide_eq_true_1 in Hk.
        rewrite (bool_decide_eq_true_2 (po_output_id e = k)) by congruence.
        destruct (hasPort o && negb (hasPort e)).
        -- rewrite bool_decide_eq_true_2 by exact Hk. reflexivity.
        -- rewrite bool_decide_eq_true_2 by congruence. reflexivity.
      * apply bool_decide_eq_false_1 in Hk.
        rewrite (bool_decide_eq_false_2 (po_output_id e = k)) by congruence.
        destruct (hasPort o && negb (hasPort e)).
        -- rewrite bool_decide_eq_false_2 by exact Hk. reflexivity.
        -- rewrite bool_decide_eq_false_2 by congruence. reflexivity.
    + destruct (bool_decide (po_output_id e = k)) eqn:Hek.
      * apply bool_decide_eq_true_1 in Hek.
        rewrite (bool_decide_eq_false_2 (po_output_id o = k)) by congruence.
        reflexivity.
      * exact IH.
Qed.

Lemma find_snoc {A} (p : A -> bool) (l : list A) (x : A) :
  List.find p (l ++ [x]) =
  match List.find p l with
  | Some y => Some y
  | None => if p x then Some x else None
  end.
Proof.
  induction l as [|y l IH]; cbn [app List.find]; [reflexivity|].
  destruct (p y); [reflexivity | exact IH].
Qed.

Lemma find_weaker {A} (p q : A -> bool) (l : list A) :
  (forall x, q x = true -> p x = true) ->
  List.find p l = None -> List.find q l = None.
Proof.
  intros Hpq. induction l as [|y l IH]; cbn [List.find]; [reflexivity|].
  destruct (p y) eqn:Hp; [discriminate|]. intros H.
  destruct (q y) eqn:Hq; [rewrite (Hpq y Hq) in Hp; discriminate | apply IH; exact H].
Qed.

Lemma dedupe_snoc (out : list RowK) (o : RowK) :
  dedupe (out ++ [o]) = setSeen o (dedupe out).
Proof. unfold dedupe. rewrite fold_left_app. reflexivity. Qed.

Lemma dedupe_spec (out : list RowK) :
  NoDup (List.map po_output_id (dedupe out))
  /\ forall k, List.find (keyIs k) (dedupe out) = chosenRow k out.
Proof.
  induction out as [|o out IH] using rev_ind.
  - split; [constructor | reflexivity].
  - destruct IH as (Hnd & Hfind). rewrite dedupe_snoc.
    split; [apply setSeen_NoDup; exact Hnd|].
    intros k. rewrite setSeen_find, Hfind. unfold chosenRow.
    rewrite !find_snoc.
    set (withPort := fun r : RowK =>
           bool_decide (po_output_id r = k) && jtruthy (Some (po_port r))).
    set (withKey := fun r : RowK => bool_decide (po_output_id r = k)).
    destruct (bool_decide (po_output_id o = k)) eqn:Hk; cbn [andb].
    + destruct (List.find withPort out) as [e|] eqn:Hp.
      * apply List.find_some in Hp. destruct Hp as (_ & Hp). unfold withPort in Hp.
        apply andb_true_iff in Hp. destruct Hp as (_ & Hp). rewrite Hp.
        rewrite andb_false_r. reflexivity.
      * destruct (List.find withKey out) as [e|] eqn:Hf.
        -- assert (He : jtruthy (Some (po_port e)) = false).
           { destruct (jtruthy (Some (po_port e))) eqn:He; [|reflexivity]. exfalso.
             pose proof (List.find_some _ _ Hf) as (Hin & Hke).
             pose proof (List.find_none _ _ Hp e Hin) as Hno.
             unfold withPort in Hno. unfold withKey in Hke.
             rewrite Hke, He in Hno. discriminate. }
           rewrite He. cbn [negb]. rewrite andb_true_r.
           destruct (jtruthy (Some (po_port o))); reflexivity.
        -- destruct (jtruthy (Some (po_port o))); reflexivity.
    + destruct (List.find withPort out); [reflexivity|].
      destruct (List.find withKey out); reflexivity.
Qed.

(** X15 -- the rows [parseOutputs] returns.  When the parse does not throw,
    no two of its rows have the same output id.  The row returned for an id
    is, among the objects with that [output_id] in the order of the walk,
    the first one that has a port and, when none has a port, the first one;
    an id is among the rows returned exactly when some object walked carries
    it. *)
Theorem parseOutputs_rows (sh : option json) (rows : list RowK) :
  parseOutputs toNumber sh = Ok rows ->
  exists out,
    collect toNumber sh = Ok out
    /\ NoDup (List.map po_output_id rows)
    /\ (forall k, List.find (keyIs k) rows = chosenRow k out)
    /\ (forall k, In k (List.map po_output_id rows) <-> In k (List.map po_output_id out)).
Proof.
  unfold parseOutputs. destruct (collect toNumber sh) as [out|msg]; [|discriminate].
  intros H. inversion H; subst rows. exists out. split; [reflexivity|].
  destruct (dedupe_spec out) as (Hnd & Hfind). split; [exact Hnd|]. split; [exact Hfind|].
  intros k.
  assert (Hmem : forall l : list RowK,
            In k (List.map po_output_id l) <-> List.find (keyIs k) l <> None).
  { intros l. rewrite List.in_map_iff. split.
    - intros (r & Hr & Hin) Hnone.
      pose proof (List.find_none _ _ Hnone r Hin) as Hno. cbn beta in Hno.
      rewrite bool_decide_eq_true_2 in Hno by exact Hr. discriminate.
    - destruct (List.find (keyIs k) l) as [r|] eqn:Hf; [|contradiction]. intros _.
      apply List.find_some in Hf. destruct Hf as (Hin & Hk).
      exists r. split; [apply bool_decide_eq_true_1 in Hk; exact Hk | exact Hin]. }
  rewrite !Hmem, Hfind. unfold chosenRow.
  set (withPort := fun r : RowK =>
         bool_decide (po_output_id r = k) && jtruthy (Some (po_port r))).
  destruct (List.find withPort out) as [e|] eqn:Hp; [|reflexivity].
  split; [intros _ | discriminate].
  intros Hnone. apply List.find_some in Hp. destruct Hp as (Hin & Hp).
  unfold withPort in Hp.
  apply andb_true_iff in Hp. pose proof (List.find_none _ _ Hnone e Hin) as Hno.
  cbn beta in Hno. rewrite (proj1 Hp) in Hno. discriminate.
Qed.

End Rows.

(** Output 1 is reported without a port and desired with port 10001: one
    row comes back, the one with the port. *)
Lemma parseOutputs_rows_witness :
  exists rows,
    parseOutputs numberOf (Some reportedTwice) = Ok rows
    /\ NoDup (List.map po_output_id rows)
    /\ List.map po_port rows = [JsNum 10001].
Proof.
  destruct (parseOutputs numberOf (Some reportedTwice)) as [rows|msg] eqn:Hrows;
    [|vm_compute in Hrows; discriminate].
  exists rows. split; [reflexivity|].
  destruct (parseOutputs_rows numberOf (Some reportedTwice) rows Hrows)
    as (out & _ & Hnd & _).
  split; [exact Hnd|].
  vm_compute in Hrows. inversion Hrows. reflexivity.
Defined.

End ParseProps.

(** ** The answers of the external APIs ([externalRequest]) *)

Module ApiProps.
Import VideonApi.

Section Answers.

Variable parse : string -> Exc json.

(** X16 -- what [externalRequest] makes of an answer.  An answer that is
    not [ok] always ends as an error whose message is the body as text, or
    the status line when the body is empty: the [error] and [message] of a
    JSON body never make the message, whatever [JSON.parse] reads.  An [ok]
    answer is returned as text when no JSON is expected; when JSON is
    expected, an empty body is the empty object, and a body that is not
    empty is returned parsed exactly when it declares JSON or looks like
    JSON and [JSON.parse] reads it. *)
Theorem external_request_outcomes (res : Response) (expectJson : bool) :
  (res_ok res = false ->
   externalRequest parse res expectJson
   = Throw (orText (textBodyOf res) (statusLine res)))
  /\ (res_ok res = true -> expectJson = false ->
      externalRequest parse res expectJson = Ok (BodyText (textBodyOf res)))
  /\ (res_ok res = true -> expectJson = true -> textBodyOf res = "" ->
      externalRequest parse res expectJson = Ok (BodyJson (JsObj [])))
  /\ (res_ok res = true -> expectJson = true -> textBodyOf res <> "" ->
      (forall data,
         externalRequest parse res expectJson = Ok (BodyJson data)
         <-> parse (textBodyOf res) = Ok data
             /\ (declaresJson res = true \/ looksLikeJson (textBodyOf res) = true))
      /\ (forall text, externalRequest parse res expectJson <> Ok (BodyText text))
      /\ (declaresJson res = false ->
          forall msg, externalRequest parse res expectJson = Throw msg ->
            msg = "Unexpected response from external request")).
Proof.
  unfold externalRequest, declaresJson, looksLikeJson.
  set (json := includes (strOr (res_contentType res) "") "application/json").
  set (text := textBodyOf res).
  split; [|split; [|split]].
  - intros ->. cbn [negb]. destruct json; [|reflexivity].
    destruct (parse (orText text "{}")); reflexivity.
  - intros -> ->. reflexivity.
  - intros -> -> ->. cbn [negb]. destruct json; [reflexivity|]. reflexivity.
  - intros -> -> Htext. cbn [negb].
    assert (He : String.eqb text "" = false) by (apply String.eqb_neq; exact Htext).
    rewrite He. cbn [negb andb].
    destruct json.
    + split; [|split; [|discriminate]].
      * intros data. destruct (parse text) as [d|m]; split.
        -- intros H. inversion H. split; [reflexivity | left; reflexivity].
        -- intros (H & _). inversion H. reflexivity.
        -- discriminate.
        -- intros (H & _). discriminate.
      * intros t. destruct (parse text); discriminate.
    + destruct (startsWith (trim text) "{" || startsWith (trim text) "[").
      * split; [|split].
        -- intros data. destruct (parse text) as [d|m]; split.
           ++ intros H. inversion H. split; [reflexivity | right; reflexivity].
           ++ intros (H & _). inversion H. reflexivity.
           ++ discriminate.
           ++ intros (H & _). discriminate.
        -- intros t. destruct (parse text); discriminate.
        -- intros _ msg. destruct (parse text); [discriminate|].
           intros H. inversion H. reflexivity.
      * split; [|split].
        -- intros data. split; [discriminate|].
           intros (_ & [H|H]); discriminate.
        -- discriminate.
        -- intros _ msg H. inversion H. reflexivity.
Qed.

End Answers.

(** A refusal with status 429 whose JSON body names its reason: the error
    message is the body as sent, not the reason. *)
Lemma external_request_outcomes_witness :
  res_ok refusal = false
  /\ readsQuota (textBodyOf refusal) = Ok quotaJson
  /\ externalRequest readsQuota refusal true = Throw quotaText.
Proof.
  split; [reflexivity|]. split; [reflexivity|].
  exact (proj1 (external_request_outcomes readsQuota refusal true) eq_refl).
Defined.

End ApiProps.

(** ** The endpoint of a Tellyo channel ([tellyoChannelEndpoint]) *)

Module EndpointProps.
Import TellyoEndpoint.

(** X17 -- the endpoint of a channel call.  Without an organization id
    [tellyoChannelEndpoint] throws.  With one it takes the v1 form exactly
    when the version is [v1]: a [POST] to [/channel/edit] or [/channel/add]
    that does not name the channel.  For every other version it takes the
    v2 form, [PUT] on the channel for an edit and [POST] on the collection
    otherwise, also when no organization number is known: the path then
    holds what [parseInt] read of the organization id, [NaN] for a name. *)
Theorem tellyo_endpoint_choice (info : TellyoInfo) (channelId : jsval) :
  (strTruthy (ti_orgId info) = false ->
   tellyoChannelEndpoint info channelId
   = Throw "Set the Tellyo organization ID in Settings.")
  /\ (strTruthy (ti_orgId info) = true ->
      exists ep,
        tellyoChannelEndpoint info channelId = Ok ep
        /\ (ti_version info = "v1" ->
            ep_method ep = "POST"
            /\ ep_url ep = v1Base info +:+ "/channel/"
                           +:+ (if isEdit channelId then "edit" else "add"))
        /\ (ti_version info <> "v1" ->
            ep_method ep = (if isEdit channelId then "PUT" else "POST")
            /\ ep_url ep = ti_baseV2 info +:+ "/organizations/"
                           +:+ showNumber (orgNumberOf info) +:+ "/channels"
                           +:+ (if isEdit channelId then "/" +:+ toStr channelId else ""))
        /\ (ti_version info <> "v1" -> orgNumberOf info = None ->
            startsWith (ep_url ep) (ti_baseV2 info +:+ "/organizations/NaN/channels")
            = true)).
Proof.
  unfold tellyoChannelEndpoint. split.
  - intros ->. reflexivity.
  - intros ->. cbn [negb].
    assert (Hnum : match ti_orgIdNumeric info with
                   | Some n => Some n
                   | None => Some (parseInt10 (match ti_orgId info with
                                               | Some s => JStr s
                                               | None => JUndef
                                               end))
                   end = Some (orgNumberOf info)).
    { unfold orgNumberOf. destruct (ti_orgIdNumeric info); reflexivity. }
    rewrite Hnum.
    destruct (String.eqb (ti_version info) "v1") eqn:Hv.
    + apply String.eqb_eq in Hv. eexists. split; [reflexivity|].
      split; [intros _; split; reflexivity|].
      split; intros Hn; contradiction.
    + apply String.eqb_neq in Hv. eexists. split; [reflexivity|].
      split; [intros Hn; contradiction|].
      split; [intros _; split; reflexivity|].
      intros _ ->. cbn [ep_url showNumber].
      generalize (if isEdit channelId then "/" +:+ toStr channelId else "").
      intros tail. generalize (ti_baseV2 info). intros b.
      induction b as [|c b IH].
      * reflexivity.
      * rewrite !UrlProps.append_cons. cbn [startsWith].
        rewrite Ascii.eqb_refl. exact IH.
Qed.

(** An organization known by name only, on version v2, and the edit of
    channel 7. *)
Lemma tellyo_endpoint_choice_witness :
  strTruthy (ti_orgId namedOrg) = true
  /\ tellyoChannelEndpoint namedOrg (JNum 7)
     = Ok (mkEndpoint
             "https://api.tellyo.example/rest/open/v2/organizations/NaN/channels/7" "PUT").
Proof.
  split; [reflexivity|].
  destruct (proj2 (tellyo_endpoint_choice namedOrg (JNum 7)) eq_refl)
    as (ep & Hep & _).
  rewrite Hep. vm_compute in Hep. symmetry. exact Hep.
Defined.

End EndpointProps.

(** ** The feed toggle and the channel delete *)

Module FeedProps.
Import Detail.

Lemma lastIngestId_cloudportOf (c : Profile) :
  c_lastIngestId (cloudportOf c) = lastIngestIdOf c.
Proof. unfold cloudportOf, lastIngestIdOf. destruct (p_cloudport c); reflexivity. Qed.

Section Handlers.

Context {W : Type} (be : Backend W).
Variable accountDomainOf : string -> string.


(** X19 -- deleting the Tellyo channel.  For a profile that remembers no
    channel [deleteTellyoChannel] does nothing, in safe mode too.  Outside
    safe mode, for a profile that remembers one, it only opens the
    confirmation.  The confirmed action looks nothing up: it sends one
    delete for the remembered channel.  When the delete is accepted the
    profile forgets the channel and its stream URL, so that the handler
    does nothing for the profile as stored; when it is refused the profile
    is left as it was and the refusal is the status shown. *)
Theorem tellyo_delete_course (props : Props) (c : Profile) (s : St W) :
  cur props = Some c ->
  (truthy (lastChannelIdOf c) = false -> deleteTellyoChannel props s = (Ok tt, s))
  /\ (truthy (lastChannelIdOf c) = true -> safeMode props = false ->
      deleteTellyoChannel props s
      = (Ok tt, updateS (setConfirmData (Some (DeleteTellyoChannel (lastChannelIdOf c)))) s))
  /\ (forall id r w1,
        beTellyoDeleteChannel be id (world s) = (r, w1) ->
        exists s',
          runConfirm be props (DeleteTellyoChannel id) s = (Ok tt, s')
          /\ log s' = (log s ++ [EvTellyoDeleteChannel id])%list
          /\ world s' = w1
          /\ match r with
             | Ok _ =>
                 ui_profiles (ui s')
                 = mapProfile c (withTellyoLast JNull None) (ui_profiles (ui s))
                 /\ ui_tellyoStatus (ui s') = status "idle" "Channel deleted"
             | Throw msg =>
                 ui_profiles (ui s') = ui_profiles (ui s)
                 /\ ui_tellyoStatus (ui s') = status "error" (errText msg)
             end)
  /\ (forall props' (s0 : St W),
        cur props' = Some (withTellyoLast JNull None c) ->
        deleteTellyoChannel props' s0 = (Ok tt, s0)).
Proof.
  intros Hcur. split; [|split; [|split]].
  - intros Hid. unfold deleteTellyoChannel. rewrite Hcur, Hid. reflexivity.
  - intros Hid Hsafe. unfold deleteTellyoChannel. rewrite Hcur, Hid, Hsafe. reflexivity.
  - intros id r w1 Hdel. unfold runConfirm. rewrite Hcur. run. unfold tryCatch.
    unfold bind at 1. rewrite call_run. run. rewrite Hdel. cbn [fst snd].
    destruct r as [[]|msg]; run; eexists; (split; [reflexivity|]); run; repeat split.
  - intros props' s0 Hcur'. unfold deleteTellyoChannel. rewrite Hcur'. reflexivity.
Qed.

End Handlers.


(** The example profile with channel 42 remembered: the confirmed delete
    names it, and the profile stored remembers no channel. *)
Lemma tellyo_delete_course_witness :
  cur (sampleProps false false (Some channelProfile)) = Some channelProfile
  /\ exists s',
       runConfirm scripted (sampleProps false false (Some channelProfile))
         (DeleteTellyoChannel (JNum 42)) (start (deviceWorld []) [channelProfile])
       = (Ok tt, s')
       /\ log s' = [EvTellyoDeleteChannel (JNum 42)]
       /\ List.map lastChannelIdOf (ui_profiles (ui s')) = [JNull].
Proof.
  split; [reflexivity|].
  destruct (proj1 (proj2 (proj2
              (tellyo_delete_course scripted
                 (sampleProps false false (Some channelProfile)) channelProfile
                 (start (deviceWorld []) [channelProfile]) eq_refl)))
              (JNum 42) (Ok tt) (deviceWorld []) eq_refl)
    as (s' & Hrun & Hlog & _ & Hprofiles & _).
  exists s'. split; [exact Hrun|]. split; [exact Hlog|].
  rewrite Hprofiles. reflexivity.
Defined.

End FeedProps.

(** ** The settings kept in the browser *)

Module SettingsProps.
Import AppSettings.

Ltac stored :=
  repeat first
    [ rewrite lookup_insert_eq
    | rewrite lookup_insert_ne by discriminate
    | rewrite lookup_delete_eq
    | rewrite lookup_delete_ne by discriminate ].

(** A numeral begins with a digit. *)
Lemma showZ_head (n : Z) :
  0 <= n -> exists c rest, showZ n = String c rest /\ isDigit c = true.
Proof.
  intros Hn. unfold showZ.
  assert (Hu : forall d, exists c rest,
             NilZero.string_of_uint d = String c rest /\ isDigit c = true).
  { intros d. destruct d; cbn [NilZero.string_of_uint]; eexists _, _;
      (split; [reflexivity|]); reflexivity. }
  destruct n as [|p|p]; [| |lia].
  - exists "0"%char, "". split; reflexivity.
  - cbn [Z.to_int NilZero.string_of_int]. apply Hu.
Qed.

Lemma readSigned_digit (c : ascii) (rest : string) :
  isDigit c = true ->
  readSigned (String c rest)
  = match readDigits (String c rest) 0 0 with
    | (_, O, _) => None
    | (n, S _, r) => Some (1 * n, r)
    end.
Proof.
  intros Hc.
  destruct c as [[] [] [] [] [] [] [] []]; vm_compute in Hc; try discriminate Hc;
    reflexivity.
Qed.

Lemma isDigit_not_space (c : ascii) : isDigit c = true -> isSpace c = false.
Proof.
  intros Hc.
  destruct c as [[] [] [] [] [] [] [] []]; vm_compute in Hc; try discriminate Hc;
    reflexivity.
Qed.

(** [Number(String(n))] is [n]. *)
Lemma toNumber_showZ (n : Z) : 0 <= n -> toNumber (JStr (showZ n)) = Some n.
Proof.
  intros Hn. destruct (showZ_head n Hn) as (c & rest & Hs & Hc).
  destruct (UrlProps.readDigits_showZ n "" Hn eq_refl) as (k & Hread).
  rewrite UrlProps.append_nil_r in Hread.
  pose proof (isDigit_not_space c Hc) as Hsp.
  pose proof (readSigned_digit c rest Hc) as Hsigned.
  rewrite <- Hs, Hread in Hsigned.
  unfold toNumber, isBlank. rewrite Hs. cbn [skipSpaces]. rewrite Hsp.
  cbn [String.eqb]. rewrite <- Hs, Hsigned.
  cbn [skipSpaces String.eqb]. f_equal. lia.
Qed.

Section Effects.

Variable parse : string -> Exc json.
Variable stringify : json -> string.

Lemma persist_session (s : Settings) (compact : bool) (profiles : json) (ls ss : Storage) :
  snd (persist stringify s compact profiles ls ss) !! "lec.session"
  = Some (stringify (sessionJson s)).
Proof. unfold persist. cbn [snd]. stored. reflexivity. Qed.

Lemma persist_local (s : Settings) (compact : bool) (profiles : json) (ls ss : Storage) :
  let ls' := fst (persist stringify s compact profiles ls ss) in
  ls' !! "lec.remember" = Some (if s_rememberSecrets s then "1" else "0")
  /\ ls' !! "lec.jwt"
     = (if s_rememberSecrets s then Some (Json.toString (s_jwt s)) else None)
  /\ ls' !! "lec.cfgBearer"
     = (if s_rememberSecrets s then Some (Json.toString (s_bearer s)) else None)
  /\ ls' !! "lec.tellyo" = Some (stringify (storedTellyo s))
  /\ ls' !! "lec.cloudport" = Some (stringify (storedCloudport s))
  /\ ls' !! "lec.org" = ls !! "lec.org"
  /\ ls' !! "lec.base" = Some (s_base s)
  /\ ls' !! "lec.accent" = Some (s_accent s)
  /\ ls' !! "lec.safeMode" = Some (showBool (s_safeMode s))
  /\ ls' !! "lec.bypassVideonError" = Some (showBool (s_bypassVideonError s))
  /\ ls' !! "lec.pollRate" = Some (showZ (s_pollRate s))
  /\ ls' !! "lec.profiles" = Some (stringify profiles)
  /\ ls' !! "lec.compact" = Some (if compact then "1" else "0")
  /\ ls' !! "lec.bearer" = Some (Json.toString (s_bearer s))
  /\ ls' !! "lec.orgGuid" = Some (s_orgGuid s).
Proof.
  unfold persist, storedTellyo, storedCloudport. cbn [fst].
  destruct (s_rememberSecrets s); repeat split; stored; reflexivity.
Qed.

Lemma kept_text (j : string) (fallback : option json) :
  fallback = Some (JsStr j) \/ jtruthy fallback = false ->
  orElse (vor (Some (JsStr j)) fallback) (JsStr "") = JsStr j.
Proof.
  unfold orElse, vor. cbn [jtruthy].
  destruct (String.eqb_spec j "") as [->|Hj]; cbn [negb].
  - intros [->|Hf]; [reflexivity|]. rewrite Hf. reflexivity.
  - intros _. cbn [jtruthy]. destruct (String.eqb_spec j ""); [contradiction|].
    reflexivity.
Qed.

Lemma kept_truthy (v d : json) (fallback : option json) :
  jtruthy (Some v) = true -> orElse (vor (Some v) fallback) d = v.
Proof. intros Hv. unfold orElse, vor. rewrite Hv, Hv. reflexivity. Qed.

Lemma strOr_same (t : string) : strOr (Some t) "" = t.
Proof. unfold strOr. destruct (String.eqb_spec t ""); [subst|]; reflexivity. Qed.

Lemma strOr_filled (t d : string) : t <> "" -> strOr (Some t) d = t.
Proof. intros Ht. unfold strOr. destruct (String.eqb_spec t ""); [contradiction|]. reflexivity. Qed.

Lemma strTruthy_filled (t : string) : t <> "" -> strTruthy (Some t) = true.
Proof. intros Ht. unfold strTruthy. destruct (String.eqb_spec t ""); [contradiction|]. reflexivity. Qed.

(** X20 -- what the persist effect leaves in the browser.  The four
    secrets are always written to the session storage.  With
    [rememberSecrets] off, [lec.jwt] and [lec.cfgBearer] are removed from
    the local storage and the [tellyo] and [cloudport] objects are stored
    with their tokens blanked -- but the configuration bearer is still
    written to the local storage, under [lec.bearer].  With it on, the
    secrets are stored in the local storage as well.  The effect touches no
    key of the local storage besides its own fourteen, [lec.org] not being
    one of them, and only [lec.session] in the session storage. *)
Theorem secrets_at_rest (s : Settings) (compact : bool) (profiles : json)
    (ls ss : Storage) :
  let ls' := fst (persist stringify s compact profiles ls ss) in
  let ss' := snd (persist stringify s compact profiles ls ss) in
  ls' !! "lec.bearer" = Some (Json.toString (s_bearer s))
  /\ ss' !! "lec.session" = Some (stringify (sessionJson s))
  /\ (s_rememberSecrets s = false ->
      ls' !! "lec.jwt" = None
      /\ ls' !! "lec.cfgBearer" = None
      /\ ls' !! "lec.tellyo" = Some (stringify (tellyoJson (withoutToken (s_tellyo s))))
      /\ ls' !! "lec.cloudport"
         = Some (stringify (cloudportJson (withoutAuthToken (s_cloudport s)))))
  /\ (s_rememberSecrets s = true ->
      ls' !! "lec.jwt" = Some (Json.toString (s_jwt s))
      /\ ls' !! "lec.cfgBearer" = Some (Json.toString (s_bearer s))
      /\ ls' !! "lec.tellyo" = Some (stringify (tellyoJson (s_tellyo s)))
      /\ ls' !! "lec.cloudport" = Some (stringify (cloudportJson (s_cloudport s))))
  /\ (forall k, ~ In k storedKeys -> ls' !! k = ls !! k)
  /\ ~ In "lec.org" storedKeys
  /\ (forall k, k <> "lec.session" -> ss' !! k = ss !! k).
Proof.
  intros ls' ss'.
  destruct (persist_local s compact profiles ls ss)
    as (_ & Hjwt & Hcfg & Htel & Hcp & _ & _ & _ & _ & _ & _ & _ & _ & Hbearer & _).
  fold ls' in Hjwt, Hcfg, Htel, Hcp, Hbearer.
  split; [exact Hbearer|]. split; [apply persist_session|].
  unfold storedTellyo, storedCloudport in Htel, Hcp.
  split; [|split; [|split; [|split]]].
  - intros Hr. rewrite Hr in Hjwt, Hcfg, Htel, Hcp. repeat split; assumption.
  - intros Hr. rewrite Hr in Hjwt, Hcfg, Htel, Hcp. repeat split; assumption.
  - intros k Hk.
    unfold storedKeys in Hk. cbn [In] in Hk.
    unfold ls', persist. cbn [fst].
    destruct (s_rememberSecrets s);
      repeat first
        [ rewrite lookup_insert_ne
            by (intros <-; apply Hk; repeat first [left; reflexivity | right])
        | rewrite lookup_delete_ne
            by (intros <-; apply Hk; repeat first [left; reflexivity | right]) ];
      reflexivity.
  - unfold storedKeys. cbn [In]. intros H.
    repeat match goal with
           | H : _ \/ _ |- _ => destruct H as [H|H]; [discriminate H|]
           end.
    exact H.
  - intros k Hk. unfold ss', persist. cbn [snd].
    rewrite lookup_insert_ne by (intros Heq; apply Hk; symmetry; exact Heq).
    reflexivity.
Qed.

(** X21 -- the settings after a reload.  Whenever the load effect reads
    what the persist effect left, safe mode comes back on, whatever it was,
    and the organization is the one found under [lec.org], which the persist
    effect does not write; the other switches, the base URL and the compact
    flag come back as they were.  For settings as the form makes them, and a
    [JSON.parse] that reads back what was stored, the load does succeed, and
    everything else comes back as it was, the secrets included. *)
Theorem settings_reload (s : Settings) (compact : bool) (profiles : json)
    (ls ss : Storage) :
  let ls' := fst (persist stringify s compact profiles ls ss) in
  let ss' := snd (persist stringify s compact profiles ls ss) in
  (forall loaded,
     load parse ls' ss' = Ok loaded ->
     s_safeMode (ld_settings loaded) = true
     /\ s_orgGuid (ld_settings loaded) = strOr (ls !! "lec.org") ""
     /\ s_rememberSecrets (ld_settings loaded) = s_rememberSecrets s
     /\ s_bypassVideonError (ld_settings loaded) = s_bypassVideonError s
     /\ s_base (ld_settings loaded) = s_base s
     /\ ld_compact loaded = compact)
  /\ (formed s = true ->
      readsBack parse stringify (sessionJson s) ->
      readsBack parse stringify (storedTellyo s) ->
      readsBack parse stringify (storedCloudport s) ->
      readsBack parse stringify profiles ->
      load parse ls' ss' = Ok (mkLoaded (reloaded ls s) (Some profiles) compact)).
Proof.
  intros ls' ss'.
  destruct (persist_local s compact profiles ls ss)
    as (Hrem & Hjwt & Hcfg & Htel & Hcp & Horg & Hbase & Haccent & Hsafe & Hbypass
        & Hpoll & Hprofiles & Hcompact & _).
  pose proof (persist_session s compact profiles ls ss) as Hsess.
  fold ls' in Hrem, Hjwt, Hcfg, Htel, Hcp, Horg, Hbase, Haccent, Hsafe, Hbypass, Hpoll,
    Hprofiles, Hcompact.
  fold ss' in Hsess.
  assert (Hr : bool_decide (ls' !! "lec.remember" = Some "1") = s_rememberSecrets s).
  { rewrite Hrem. destruct (s_rememberSecrets s); reflexivity. }
  assert (Hs : negb (bool_decide (ls' !! "lec.safeMode" = Some "0")) = true).
  { rewrite Hsafe. destruct (s_safeMode s); reflexivity. }
  assert (Hb : bool_decide (ls' !! "lec.bypassVideonError" = Some "true")
               = s_bypassVideonError s).
  { rewrite Hbypass. destruct (s_bypassVideonError s); reflexivity. }
  assert (Hc : bool_decide (ls' !! "lec.compact" = Some "1") = compact).
  { rewrite Hcompact. destruct compact; reflexivity. }
  split.
  - intros loaded. unfold load.
    destruct (parseObject parse (strOr (ss' !! "lec.session") "{}")) as [sess|];
      [|discriminate].
    destruct (loadTellyo parse _ sess ls') as [tellyo|]; [|discriminate].
    destruct (loadCloudport parse _ sess ls') as [cloudport|]; [|discriminate].
    rewrite Hr, Hs, Hb, Hc, Horg, Hbase.
    assert (Hfields : forall p,
              Ok p = Ok loaded ->
              ld_settings p
              = ld_settings (mkLoaded (ld_settings p) None compact) ->
              s_safeMode (ld_settings p) = true ->
              s_orgGuid (ld_settings p) = strOr (ls !! "lec.org") "" ->
              s_rememberSecrets (ld_settings p) = s_rememberSecrets s ->
              s_bypassVideonError (ld_settings p) = s_bypassVideonError s ->
              s_base (ld_settings p) = s_base s ->
              ld_compact p = compact ->
              s_safeMode (ld_settings loaded) = true
              /\ s_orgGuid (ld_settings loaded) = strOr (ls !! "lec.org") ""
              /\ s_rememberSecrets (ld_settings loaded) = s_rememberSecrets s
              /\ s_bypassVideonError (ld_settings loaded) = s_bypassVideonError s
              /\ s_base (ld_settings loaded) = s_base s
              /\ ld_compact loaded = compact).
    { intros p Hp _ H1 H2 H3 H4 H5 H6. inversion Hp; subst p. repeat split; assumption. }
    destruct (strTruthy (ls' !! "lec.profiles")).
    + destruct (parse (default "" (ls' !! "lec.profiles"))) as [pr|]; [|discriminate].
      intros H. apply (Hfields _ H); try reflexivity. cbn [ld_settings s_base].
      apply strOr_same.
    + intros H. apply (Hfields _ H); try reflexivity. cbn [ld_settings s_base].
      apply strOr_same.
  - intros Hformed (Hs1 & Hs2) (Ht1 & Ht2) (Hc1 & Hc2) (Hp1 & Hp2).
    unfold load, loadTellyo, loadCloudport, parseObject.
    rewrite Hr, Hs, Hb, Hc, Horg, Hbase, Haccent, Hpoll, Hsess, Htel, Hcp, Hprofiles.
    rewrite (strOr_filled _ _ Hs1), Hs2.
    rewrite (strTruthy_filled _ Ht1), (strTruthy_filled _ Hc1), (strTruthy_filled _ Hp1).
    cbn [default from_option id]. rewrite Ht2, Hc2, Hp2.
    unfold getItem. rewrite Hjwt, Hcfg.
    destruct s as [jwt orgGuid base bearer safe bypass remember poll accent
                     [endpoint version org token] [release host authToken]].
    unfold formed in Hformed. cbn in Hformed.
    repeat match goal with
           | H : _ && _ = true |- _ => apply andb_true_iff in H; destruct H
           end.
    match goal with
    | Hp : (0 <? poll) = true |- _ => apply Z.ltb_lt in Hp; rename Hp into Hpos
    end.
    match goal with
    | Ha : negb (accent =? "")%string = true |- _ => rename Ha into Hacc
    end.
    destruct jwt as [| | |jwt| |]; try discriminate.
    destruct bearer as [| | |bearer| |]; try discriminate.
    destruct endpoint as [| | |endpoint| |]; try discriminate.
    destruct version as [| | |version| |]; try discriminate.
    destruct org as [| | |org| |]; try discriminate.
    destruct token as [| | |token| |]; try discriminate.
    destruct release as [| | |release| |]; try discriminate.
    destruct host as [| | |host| |]; try discriminate.
    destruct authToken as [| | |authToken| |]; try discriminate.
    unfold storedTellyo, storedCloudport, sessionJson, tellyoJson, cloudportJson,
      withoutToken, withoutAuthToken, reloaded.
    cbn -[orElse vor toNumber showZ strOr].
    assert (Hpoll' : numOr (toNumber (JStr (showZ poll))) 5000 = poll).
    { rewrite toNumber_showZ by lia. unfold numOr.
      destruct (Z.eqb_spec poll 0); [lia|]. reflexivity. }
    assert (Haccent' : strOr (Some accent) "#f97316" = accent).
    { apply strOr_filled. intros ->. discriminate. }
    rewrite Hpoll', Haccent'.
    assert (Hbase' : (if (base =? "")%string then "" else base) = base).
    { destruct (String.eqb_spec base "") as [Heq|]; [symmetry; exact Heq | reflexivity]. }
    destruct remember; cbn -[orElse vor];
      rewrite Hbase';
      rewrite !kept_text by (first [left; reflexivity | right; reflexivity]);
      rewrite !kept_truthy by assumption;
      reflexivity.
Qed.

End Effects.

(** Settings saved with safe mode off and the secrets not remembered, in a
    browser that stored nothing before: the reload reads them with safe
    mode on, and the access token comes back from the session. *)
Lemma settings_reload_witness :
  s_safeMode sampleSettings = false
  /\ formed sampleSettings = true
  /\ exists loaded,
       load readsStored
         (fst (persist printJson sampleSettings false (JsArr []) ∅ ∅))
         (snd (persist printJson sampleSettings false (JsArr []) ∅ ∅))
       = Ok loaded
       /\ s_safeMode (ld_settings loaded) = true
       /\ s_jwt (ld_settings loaded) = JsStr "PAT 0123".
Proof.
  split; [reflexivity|]. split; [reflexivity|].
  assert (Hreads : forall j,
            In j [sessionJson sampleSettings; storedTellyo sampleSettings;
                  storedCloudport sampleSettings; JsArr []] ->
            readsBack readsStored printJson j).
  { intros j Hj. cbn [In] in Hj.
    destruct Hj as [<-|[<-|[<-|[<-|[]]]]];
      (split; [vm_compute; discriminate | vm_compute; reflexivity]). }
  pose proof (proj2 (settings_reload readsStored printJson sampleSettings false
                       (JsArr []) ∅ ∅) eq_refl
                (Hreads _ (or_introl eq_refl))
                (Hreads _ (or_intror (or_introl eq_refl)))
                (Hreads _ (or_intror (or_intror (or_introl eq_refl))))
                (Hreads _ (or_intror (or_intror (or_intror (or_introl eq_refl))))))
    as Hload.
  eexists. split; [exact Hload|]. split; reflexivity.
Defined.

End SettingsProps.

(** ** The rows shown when the device does not answer *)

Module FallbackProps.
Import VideonApi DetailRows.

Section Videon.

Variable parse : string -> Exc json.

(** X22 -- the outputs shown without an answer.  [API.deviceShadows]
    never fails: whenever the request is rejected, the answer is not [ok],
    or its JSON body cannot be read, it returns the demo shadow.  The rows
    shown, and checked by the confirmation poll, are then those of the demo
    shadow: output 1 enabled and output 2 disabled.  An [ok] answer that
    does not declare JSON is read as the empty object, for which
    [parseOutputs] throws. *)
Theorem shadows_fallback (fetched : Exc Response) :
  (failing parse fetched ->
   deviceShadows parse demoOutputsShadow fetched = JsObj [("shadows", demoOutputsShadow)]
   /\ rowsOfShadows (deviceShadows parse demoOutputsShadow fetched) = Ok demoRows)
  /\ (forall r, fetched = Ok r -> res_ok r = false -> failing parse fetched)
  /\ (forall r msg,
        fetched = Ok r -> res_ok r = true -> declaresJson r = true ->
        res_text r = Throw msg \/ (exists text, res_text r = Ok text /\ parse text = Throw msg) ->
        failing parse fetched)
  /\ (forall r,
        fetched = Ok r -> res_ok r = true -> declaresJson r = false ->
        deviceShadows parse demoOutputsShadow fetched = JsObj []
        /\ rowsOfShadows (deviceShadows parse demoOutputsShadow fetched)
           = Throw "(sh || []).forEach is not a function").
Proof.
  split; [|split; [|split]].
  - intros Hfail.
    assert (Hdemo : deviceShadows parse demoOutputsShadow fetched
                    = JsObj [("shadows", demoOutputsShadow)]).
    { unfold deviceShadows. destruct fetched as [r|msg]; [|reflexivity].
      destruct Hfail as (msg & ->). reflexivity. }
    rewrite Hdemo. split; reflexivity.
  - intros r -> Hok. unfold failing, vx. rewrite Hok. eexists. reflexivity.
  - intros r msg -> Hok Hjson Hbody. unfold failing, vx. rewrite Hok.
    unfold declaresJson in Hjson. rewrite Hjson. cbn [negb].
    destruct Hbody as [->|(text & -> & ->)]; eexists; reflexivity.
  - intros r -> Hok Hjson.
    assert (Hempty : deviceShadows parse demoOutputsShadow (Ok r) = JsObj []).
    { unfold deviceShadows, vx. rewrite Hok. unfold declaresJson in Hjson.
      rewrite Hjson. reflexivity. }
    rewrite Hempty. split; reflexivity.
Qed.

End Videon.

(** The device API answers 503: the rows shown are the demo rows. *)
Lemma shadows_fallback_witness :
  failing readsQuota (Ok unavailable)
  /\ rowsOfShadows (deviceShadows readsQuota demoOutputsShadow (Ok unavailable))
     = Ok demoRows.
Proof.
  assert (Hfail : failing readsQuota (Ok unavailable)).
  { exact (proj1 (proj2 (shadows_fallback readsQuota (Ok unavailable)))
             unavailable eq_refl eq_refl). }
  split; [exact Hfail|].
  exact (proj2 (proj1 (shadows_fallback readsQuota (Ok unavailable)) Hfail)).
Defined.

End FallbackProps.

(** ** The rows of the outputs table ([mapped]) *)

Module MappedProps.
Import Detail DetailRows.

Section Handlers.

Context {W : Type} (be : Backend W).
Variable parseOutputs : ShadowsRes -> list OutRow.

(** X23 -- the rows a toggle acts on.  The outputs table has one row per
    output intent of the selected profile, in their order.  A row takes the
    id and the state of the first device output that goes by the name of
    its intent, so that intents of one name share a device output; the
    toggle asks for the opposite of that state.  For an intent without a
    device output of its name, and for one whose device output has the id
    0, the toggle does nothing at all. *)
Theorem mapped_rows (props : Props) (c : Profile) (outs : list OutRow) :
  cur props = Some c ->
  length (mapped (cur props) outs) = length (p_outputs c)
  /\ (forall (i : nat) (p : Output),
        p_outputs c !! i = Some p ->
        exists it,
          mapped (cur props) outs !! i = Some it
          /\ match firstNamed p outs with
             | Some o =>
                 matchId it = JNum (r_output_id o)
                 /\ enabled it = Some (r_enabled o)
                 /\ wantedOf it = negb (r_enabled o)
                 /\ (r_output_id o = 0 -> safeMode props = false ->
                     forall s : St W, toggleOut be parseOutputs props it s = (Ok tt, s))
             | None =>
                 matchId it = JUndef
                 /\ enabled it = None
                 /\ (safeMode props = false ->
                     forall s : St W, toggleOut be parseOutputs props it s = (Ok tt, s))
             end)
  /\ (forall (i j : nat) (p q : Output),
        p_outputs c !! i = Some p -> p_outputs c !! j = Some q -> name p = name q ->
        mapped (cur props) outs !! i = mapped (cur props) outs !! j).
Proof.
  intros ->. unfold mapped. split; [|split].
  - apply List.length_map.
  - intros i p Hp. eexists. split.
    + change (List.map ?f ?l) with (f <$> l). rewrite list_lookup_fmap, Hp. reflexivity.
    + fold (firstNamed p outs). destruct (firstNamed p outs) as [o|]; cbn.
      * split; [reflexivity|]. split; [reflexivity|].
        split; [unfold wantedOf; cbn; destruct (r_enabled o); reflexivity|].
        intros Hid Hsafe s. unfold toggleOut. rewrite Hsafe. cbn. rewrite Hid.
        reflexivity.
      * split; [reflexivity|]. split; [reflexivity|].
        intros Hsafe s. unfold toggleOut. rewrite Hsafe. reflexivity.
  - intros i j p q Hp Hq Hname.
    change (List.map ?f ?l) with (f <$> l). rewrite !list_lookup_fmap, Hp, Hq.
    cbn. rewrite Hname. reflexivity.
Qed.

End Handlers.

(** Two intents named [main], a third named [spare]; the device lists
    [main] twice, first with the id 0. *)
Lemma mapped_rows_witness :
  cur (sampleProps false false (Some twinProfile)) = Some twinProfile
  /\ List.map matchId (mapped (Some twinProfile) twinRows) = [JNum 0; JNum 0; JUndef]
  /\ forall it,
       In it (mapped (Some twinProfile) twinRows) ->
       toggleOut scripted rowsOf (sampleProps false false (Some twinProfile)) it
         (start (deviceWorld []) [twinProfile])
       = (Ok tt, start (deviceWorld []) [twinProfile]).
Proof.
  split; [reflexivity|]. split; [reflexivity|].
  pose proof (mapped_rows scripted rowsOf (sampleProps false false (Some twinProfile))
                twinProfile twinRows eq_refl) as (_ & Hrow & _).
  intros it Hin. apply list_elem_of_In, list_elem_of_lookup in Hin.
  destruct Hin as (i & Hi).
  destruct i as [|[|[|i]]]; [| | |discriminate Hi].
  - destruct (Hrow 0%nat _ eq_refl) as (it' & Hit & Hcase).
    cbn in Hi, Hit. rewrite Hi in Hit. inversion Hit; subst it'.
    cbn in Hcase. destruct Hcase as (_ & _ & _ & Hno). apply Hno; reflexivity.
  - destruct (Hrow 1%nat _ eq_refl) as (it' & Hit & Hcase).
    cbn in Hi, Hit. rewrite Hi in Hit. inversion Hit; subst it'.
    cbn in Hcase. destruct Hcase as (_ & _ & _ & Hno). apply Hno; reflexivity.
  - destruct (Hrow 2%nat _ eq_refl) as (it' & Hit & Hcase).
    cbn in Hi, Hit. rewrite Hi in Hit. inversion Hit; subst it'.
    cbn in Hcase. destruct Hcase as (_ & _ & Hno). apply Hno; reflexivity.
Defined.

End MappedProps.
